(** * jobstackParser: the résumé parsing pipeline and its layered cache

    A shallow embedding of [resume_parser.py], [user_service.py] and the
    [/parse-resume] handler of [app.py], followed by the properties of the
    caching pipeline that the specification states.

    Conventions.
    - Python [bytes] are [list byte]; Python [str] is a Rocq [string] holding
      the UTF-8 encoding of the text, so [text.encode('utf-8')] is the list of
      its bytes.
    - Values that travel through the cache ([Any] in the source) are [pyobj].
    - Module-level mutable state ([_cache], [redis_client] and what the remote
      server holds) is the [world]; every function of the source that touches
      it is a computation in the monad [py]. *)

From Stdlib Require Import Strings.String Strings.Ascii Strings.Byte List ZArith Lia Bool Arith.
From Stdlib Require DecimalString.
Import ListNotations.

Local Open Scope string_scope.
Local Open Scope list_scope.

(* ================================================================== *)
(** ** [hashlib.md5]: the digest behind [_get_file_hash] and [_get_text_hash] *)
(* ================================================================== *)

Module MD5.
Local Open Scope Z_scope.

Definition bytes := list byte.

Definition modulus32 : Z := 2 ^ 32.
Definition add32 (a b : Z) : Z := (a + b) mod modulus32.
Definition not32 (a : Z) : Z := Z.lxor a 0xFFFFFFFF.
Definition rotl32 (x c : Z) : Z :=
    Z.lor (Z.shiftl x c mod modulus32) (Z.shiftr x (32 - c)).

  (** Per-round left-rotation amounts. *)
Definition shifts : list Z :=
    [7; 12; 17; 22; 7; 12; 17; 22; 7; 12; 17; 22; 7; 12; 17; 22;
     5;  9; 14; 20; 5;  9; 14; 20; 5;  9; 14; 20; 5;  9; 14; 20;
     4; 11; 16; 23; 4; 11; 16; 23; 4; 11; 16; 23; 4; 11; 16; 23;
     6; 10; 15; 21; 6; 10; 15; 21; 6; 10; 15; 21; 6; 10; 15; 21].

  (** [floor (2^32 * abs (sin (i + 1)))] for [i] in [0..63]. *)
Definition sines : list Z :=
    [3614090360; 3905402710; 606105819; 3250441966; 4118548399; 1200080426;
     2821735955; 4249261313; 1770035416; 2336552879; 4294925233; 2304563134;
     1804603682; 4254626195; 2792965006; 1236535329; 4129170786; 3225465664;
     643717713; 3921069994; 3593408605; 38016083; 3634488961; 3889429448;
     568446438; 3275163606; 4107603335; 1163531501; 2850285829; 4243563512;
     1735328473; 2368359562; 4294588738; 2272392833; 1839030562; 4259657740;
     2763975236; 1272893353; 4139469664; 3200236656; 681279174; 3936430074;
     3572445317; 76029189; 3654602809; 3873151461; 530742520; 3299628645;
     4096336452; 1126891415; 2878612391; 4237533241; 1700485571; 2399980690;
     4293915773; 2240044497; 1873313359; 4264355552; 2734768916; 1309151649;
     4149444226; 3174756917; 718787259; 3951481745].

Record regs := Regs { rA : Z; rB : Z; rC : Z; rD : Z }.

Definition init : regs :=
    Regs 0x67452301 0xefcdab89 0x98badcfe 0x10325476.

  (** One of the 64 operations on a block whose sixteen words are [m]. *)
Definition operation (m : list Z) (r : regs) (i : nat) : regs :=
    let '(Regs a b c d) := r in
    let '(f, g) :=
      if (i <? 16)%nat then
        (Z.lor (Z.land b c) (Z.land (not32 b) d), i)
      else if (i <? 32)%nat then
        (Z.lor (Z.land d b) (Z.land (not32 d) c), ((5 * i + 1) mod 16)%nat)
      else if (i <? 48)%nat then
        (Z.lxor (Z.lxor b c) d, ((3 * i + 5) mod 16)%nat)
      else
        (Z.lxor c (Z.lor b (not32 d)), ((7 * i) mod 16)%nat) in
    let f' := add32 (add32 (add32 f a) (nth i sines 0)) (nth g m 0) in
    Regs d (add32 b (rotl32 f' (nth i shifts 0))) b c.

Definition word_le (b0 b1 b2 b3 : Z) : Z :=
    b0 + 256 * b1 + 65536 * b2 + 16777216 * b3.

Fixpoint words_le (l : list Z) : list Z :=
    match l with
    | b0 :: b1 :: b2 :: b3 :: rest => word_le b0 b1 b2 b3 :: words_le rest
    | _ => []
    end.

Definition compress (r : regs) (block : list Z) : regs :=
    let r' := fold_left (operation (words_le block)) (seq 0 64) r in
    Regs (add32 (rA r) (rA r')) (add32 (rB r) (rB r'))
         (add32 (rC r) (rC r')) (add32 (rD r) (rD r')).

  (** Cut a padded message into 64-byte blocks ([fuel] bounds their number). *)
Fixpoint blocks (fuel : nat) (l : list Z) : list (list Z) :=
    match fuel, l with
    | O, _ => []
    | _, [] => []
    | S fuel', _ => firstn 64 l :: blocks fuel' (skipn 64 l)
    end.

Definition length_le64 (bits : Z) : list Z :=
    map (fun k => (bits / 256 ^ Z.of_nat k) mod 256) (seq 0 8).

Definition pad (msg : list Z) : list Z :=
    let n := length msg in
    msg ++ [128] ++ repeat 0 ((119 - n mod 64) mod 64)%nat
        ++ length_le64 ((8 * Z.of_nat n) mod 2 ^ 64).

Definition digest_regs (msg : bytes) : regs :=
    let padded := pad (map (fun b => Z.of_N (Byte.to_N b)) msg) in
    fold_left compress (blocks (length padded) padded) init.

Definition hexchar (n : Z) : ascii :=
    nth (Z.to_nat (n mod 16))
        (list_ascii_of_string "0123456789abcdef") "0"%char.

Definition hexbyte (b : Z) : string :=
    String (hexchar (b / 16)) (String (hexchar b) EmptyString).

Definition hexword_le (w : Z) : string :=
    (hexbyte (w mod 256) ++ hexbyte (w / 256 mod 256)
     ++ hexbyte (w / 65536 mod 256) ++ hexbyte (w / 16777216 mod 256))%string.

  (** [hashlib.md5(msg).hexdigest()] *)
Definition hexdigest (msg : bytes) : string :=
    let r := digest_regs msg in
    (hexword_le (rA r) ++ hexword_le (rB r)
     ++ hexword_le (rC r) ++ hexword_le (rD r))%string.
End MD5.

(* ================================================================== *)
(** ** Python values, exceptions and the string operations the code uses *)
(* ================================================================== *)

Definition bytes := list byte.

(** What [json.loads] can return and what the cache can hold. A JSON number
    keeps its literal. *)
#[warnings="-register-all"]
Inductive pyobj : Type :=
| PyNone
| PyBool (b : bool)
| PyNum (literal : string)
| PyStr (s : string)
| PyList (items : list pyobj)
| PyDict (entries : list (string * pyobj)).

(** [x is not None] *)
Definition is_not_None (x : pyobj) : bool :=
  match x with PyNone => false | _ => true end.

(** Truth value of an object, as [if x:] and [not x] test it. *)
Definition truthy (x : pyobj) : bool :=
  match x with
  | PyNone => false
  | PyBool b => b
  | PyNum lit =>
      negb (forallb (fun c => existsb (Ascii.eqb c)
                                (list_ascii_of_string "0.-+eE"))
                    (list_ascii_of_string lit))
  | PyStr s => negb (String.eqb s "")
  | PyList l => match l with [] => false | _ => true end
  | PyDict d => match d with [] => false | _ => true end
  end.

(** An exception: its class and [str(e)]. *)
Record exn := Exn { exn_class : string; exn_str : string }.

Inductive outcome (A : Type) : Type :=
| Ret (a : A)
| Raise (e : exn).
Arguments Ret {A} a.
Arguments Raise {A} e.

Definition nl : string := String (ascii_of_nat 10) EmptyString.

(** [sep.join(parts)] *)
Definition join (sep : string) (parts : list string) : string :=
  String.concat sep parts.

(** [s.lower()] on the ASCII letters; the bytes of other characters are
    kept, none of which [str.lower] maps to a letter of the extensions
    compared below. *)
Definition lower_ascii (a : ascii) : ascii :=
  let n := nat_of_ascii a in
  if ((65 <=? n) && (n <=? 90))%nat then ascii_of_nat (n + 32) else a.

Fixpoint lower (s : string) : string :=
  match s with
  | EmptyString => EmptyString
  | String a r => String (lower_ascii a) (lower r)
  end.

(** [p.rfind(c)], with [None] for Python's [-1]. *)
Fixpoint rfind_from (c : ascii) (p : string) (i : nat) : option nat :=
  match p with
  | EmptyString => None
  | String a r =>
      match rfind_from c r (S i) with
      | Some j => Some j
      | None => if Ascii.eqb a c then Some i else None
      end
  end.

Definition rfind (c : ascii) (p : string) : option nat := rfind_from c p 0.

(** The [while filenameIndex < dotIndex] loop of [genericpath._splitext]:
    is there a character other than the dot in [p[filenameIndex:dotIndex]]? *)
Fixpoint has_non_dot (p : string) (filenameIndex steps : nat) : bool :=
  match steps with
  | O => false
  | S steps' =>
      match String.get filenameIndex p with
      | Some a =>
          if Ascii.eqb a "."%char
          then has_non_dot p (S filenameIndex) steps'
          else true
      | None => true
      end
  end.

(** [os.path.splitext(p)] of [posixpath] *)
Definition splitext (p : string) : string * string :=
  let filenameIndex :=
    match rfind "/"%char p with Some i => S i | None => O end in
  match rfind "."%char p with
  | Some dotIndex =>
      if (filenameIndex <=? dotIndex)%nat
         && has_non_dot p filenameIndex (dotIndex - filenameIndex)
      then (String.substring 0 dotIndex p,
            String.substring dotIndex (String.length p - dotIndex) p)
      else (p, EmptyString)
  | None => (p, EmptyString)
  end.

(** Number of bytes of the UTF-8 character that starts with byte [a]. *)
Definition utf8_width (a : ascii) : nat :=
  let n := nat_of_ascii a in
  if (n <? 192)%nat then 1
  else if (n <? 224)%nat then 2
  else if (n <? 240)%nat then 3
  else 4.

(** The characters (code points) of a text, each as its UTF-8 bytes. *)
Fixpoint characters_from (pending : string) (need : nat) (s : string)
  : list string :=
  match s with
  | EmptyString =>
      match pending with EmptyString => [] | _ => [pending] end
  | String a r =>
      match need with
      | S k =>
          let c := (pending ++ String a EmptyString)%string in
          match k with
          | O => c :: characters_from EmptyString 0 r
          | S _ => characters_from c k r
          end
      | O =>
          match utf8_width a with
          | S (S k) => characters_from (String a EmptyString) (S k) r
          | _ => String a EmptyString :: characters_from EmptyString 0 r
          end
      end
  end.

Definition characters (s : string) : list string :=
  characters_from EmptyString 0 s.

Definition of_codes (l : list nat) : string :=
  string_of_list_ascii (map ascii_of_nat l).

(** The characters for which [str.isspace] holds: U+0009..U+000D,
    U+001C..U+0020, U+0085, U+00A0, U+1680, U+2000..U+200A, U+2028, U+2029,
    U+202F, U+205F, U+3000. *)
Definition whitespace : list string :=
  map (fun n => of_codes [n]) [9; 10; 11; 12; 13; 28; 29; 30; 31; 32]
  ++ [of_codes [194; 133]; of_codes [194; 160]; of_codes [225; 154; 128]]
  ++ map (fun n => of_codes [226; 128; n]) (seq 128 11)
  ++ [of_codes [226; 128; 168]; of_codes [226; 128; 169];
      of_codes [226; 128; 175]; of_codes [226; 129; 159];
      of_codes [227; 128; 128]].

Definition isspace (c : string) : bool :=
  existsb (String.eqb c) whitespace.

Fixpoint lstrip_chars (l : list string) : list string :=
  match l with
  | c :: r => if isspace c then lstrip_chars r else l
  | [] => []
  end.

(** [s.strip()] *)
Definition strip (s : string) : string :=
  String.concat EmptyString
    (rev (lstrip_chars (rev (lstrip_chars (characters s))))).

(** [s.split(" ")] *)
Fixpoint split_space_from (current : string) (s : string) : list string :=
  match s with
  | EmptyString => [current]
  | String a r =>
      if Ascii.eqb a " "%char
      then current :: split_space_from EmptyString r
      else split_space_from (current ++ String a EmptyString)%string r
  end.

Definition split_space (s : string) : list string :=
  split_space_from EmptyString s.

(** An insertion-ordered [dict] with [str] keys. *)
Definition dict (V : Type) := list (string * V).

Fixpoint dict_get {V} (k : string) (d : dict V) : option V :=
  match d with
  | [] => None
  | (k', v) :: r => if String.eqb k' k then Some v else dict_get k r
  end.

(** [d[k] = v]: a present key keeps its place, a new key goes last. *)
Fixpoint dict_set {V} (k : string) (v : V) (d : dict V) : dict V :=
  match d with
  | [] => [(k, v)]
  | (k', v') :: r =>
      if String.eqb k' k then (k, v) :: r else (k', v') :: dict_set k v r
  end.

(** [del d[k]] *)
Fixpoint dict_del {V} (k : string) (d : dict V) : dict V :=
  match d with
  | [] => []
  | (k', v') :: r =>
      if String.eqb k' k then r else (k', v') :: dict_del k r
  end.

Definition dict_keys {V} (d : dict V) : list string := map fst d.

(* ================================================================== *)
(** ** Process state and the monad of the module's functions *)
(* ================================================================== *)

(** Bytes held by the remote store: the pickle of a value, or bytes that
    [pickle.loads] rejects. *)
Inductive blob : Type :=
| Pickle (v : pyobj)
| Garbage (raw : bytes).

(** [pickle.dumps] and [pickle.loads]: a pickle loads back to the value it
    was made from. *)
Definition pickle_dumps (v : pyobj) : blob := Pickle v.

Definition pickle_loads (b : blob) : outcome pyobj :=
  match b with
  | Pickle v => Ret v
  | Garbage _ => Raise (Exn "UnpicklingError" "invalid load key")
  end.

(** [if cached:] on bytes: empty bytes are false; a pickle is never empty. *)
Definition nonempty (b : blob) : bool :=
  match b with
  | Pickle _ => true
  | Garbage [] => false
  | Garbage (_ :: _) => true
  end.

(** The remote server behind a connected [redis_client]: its entries with
    their time to live, and whether its read and write commands currently
    raise (unreachable server, time-out, a server that rejects writes). *)
Record redis := Redis {
  store : dict (Z * blob);
  reads_raise : bool;
  writes_raise : bool
}.

(** What a run can be observed to do: every cache lookup and write, and every
    call of an external collaborator. *)
Inductive event : Type :=
| CacheGet (key : string)
| CacheSet (key : string)
| PdfTextLayer (content : bytes)
| FitzOpen (content : bytes)
| GetPixmap (page : bytes)
| ReadText (image : bytes)
| ImageOpen (content : bytes)
| DocxOpen (content : bytes)
| ChatCompletion (prompt : string).

(** [redis_client] is [None] when the start-up probe failed. *)
Record world := World {
  redis_client : option redis;
  _cache : dict pyobj;
  trace : list event
}.

Definition py (A : Type) : Type := world -> outcome A * world.

Definition ret {A} (a : A) : py A := fun w => (Ret a, w).
Definition raise {A} (e : exn) : py A := fun w => (Raise e, w).

Definition bind {A B} (m : py A) (k : A -> py B) : py B :=
  fun w =>
    match m w with
    | (Ret a, w') => k a w'
    | (Raise e, w') => (Raise e, w')
    end.

Notation "x <- m ;; k" := (bind m (fun x => k))
  (at level 61, m at next level, right associativity).
Notation "m ;; k" := (bind m (fun _ => k))
  (at level 61, right associativity).

(** [try: body / except Exception as e: handler e] *)
Definition try_except {A} (body : py A) (handler : exn -> py A) : py A :=
  fun w =>
    match body w with
    | (Ret a, w') => (Ret a, w')
    | (Raise e, w') => handler e w'
    end.

(** An outcome computed outside the process state. *)
Definition lift {A} (result : outcome A) : py A := fun w => (result, w).

Definition observe (ev : event) : py unit :=
  fun w => (Ret tt, World (redis_client w) (_cache w) (trace w ++ [ev])).

(** A call of an external collaborator: observed, then its outcome. *)
Definition external {A} (ev : event) (result : outcome A) : py A :=
  observe ev ;; lift result.

Definition get_redis_client : py (option redis) :=
  fun w => (Ret (redis_client w), w).

Definition get_cache : py (dict pyobj) := fun w => (Ret (_cache w), w).

Definition put_cache (d : dict pyobj) : py unit :=
  fun w => (Ret tt, World (redis_client w) d (trace w)).

Definition connection_error : exn :=
  Exn "ConnectionError" "Error connecting to the remote store".

(** [redis_client.get(key)] *)
Definition redis_get (key : string) : py (option blob) :=
  fun w =>
    match redis_client w with
    | Some r =>
        if reads_raise r then (Raise connection_error, w)
        else (Ret (option_map snd (dict_get key (store r))), w)
    | None => (Raise (Exn "AttributeError" "NoneType has no attribute get"), w)
    end.

(** [redis_client.setex(key, ttl, value)] *)
Definition redis_setex (key : string) (ttl : Z) (value : blob) : py unit :=
  fun w =>
    match redis_client w with
    | Some r =>
        if writes_raise r then (Raise connection_error, w)
        else (Ret tt,
              World (Some (Redis (dict_set key (ttl, value) (store r))
                                 (reads_raise r) (writes_raise r)))
                    (_cache w) (trace w))
    | None =>
        (Raise (Exn "AttributeError" "NoneType has no attribute setex"), w)
    end.

(* ================================================================== *)
(** ** [resume_parser.py]: fingerprints and the layered cache *)
(* ================================================================== *)

Definition _max_cache_size : nat := 1000.
Definition _cache_ttl : Z := 86400 * 7.

Definition _get_file_hash (content : bytes) : string :=
  MD5.hexdigest content.

(** [hashlib.md5(text.encode('utf-8')).hexdigest()]. A text is held as its
    UTF-8 encoding, which is what is hashed. A [str] that holds a lone
    surrogate has no such encoding and [encode] raises [UnicodeEncodeError]
    on it: the strings that are encodings are those of [encodes_utf8], and
    a lookup under the key of a text presupposes that the text was hashed. *)
Definition _get_text_hash (text : string) : string :=
  MD5.hexdigest (list_byte_of_string text).

(** The [try] block of [_get_from_cache]: [Some v] when it returns [v]. *)
Definition remote_lookup (key : string) : py (option pyobj) :=
  client <- get_redis_client ;;
  match client with
  | Some _ =>
      cached <- redis_get key ;;
      match cached with
      | Some b =>
          if nonempty b
          then v <- lift (pickle_loads b) ;; ret (Some v)
          else ret None
      | None => ret None
      end
  | None => ret None
  end.

Definition _get_from_cache (key : string) : py pyobj :=
  observe (CacheGet key) ;;
  found <- try_except (remote_lookup key) (fun _ => ret None) ;;
  match found with
  | Some v => ret v
  | None =>
      d <- get_cache ;;
      ret (match dict_get key d with Some v => v | None => PyNone end)
  end.

(** [for k in keys_to_remove: del _cache[k]] *)
Definition delete_keys (keys_to_remove : list string) (d : dict pyobj)
  : dict pyobj :=
  fold_left (fun d' k => dict_del k d') keys_to_remove d.

Definition _set_cache (key : string) (value : pyobj) : py unit :=
  observe (CacheSet key) ;;
  try_except
    (client <- get_redis_client ;;
     match client with
     | Some _ => redis_setex key _cache_ttl (pickle_dumps value)
     | None => ret tt
     end)
    (fun _ => ret tt) ;;
  d <- get_cache ;;
  (if (_max_cache_size <=? length d)%nat
   then put_cache
          (delete_keys (firstn (_max_cache_size / 4) (dict_keys d)) d)
   else ret tt) ;;
  d' <- get_cache ;;
  put_cache (dict_set key value d').

(** [clear_cache] *)
Definition clear_cache : py unit :=
  put_cache [] ;;
  client <- get_redis_client ;;
  match client with
  | Some r =>
      try_except
        (fun w =>
           if writes_raise r then (Raise connection_error, w)
           else (Ret tt,
                 World (Some (Redis [] (reads_raise r) (writes_raise r)))
                       (_cache w) (trace w)))
        (fun _ => ret tt)
  | None => ret tt
  end.

(* ================================================================== *)
(** ** [resume_parser.py]: the extraction and transform stages *)
(* ================================================================== *)

(** The libraries and services the stages call. Each takes what the code
    passes and either returns or raises.
    - [pdfplumber_pages]: [pdfplumber.open(...)] and [page.extract_text()] of
      every page ([None] for a page without text);
    - [fitz_open], [get_pixmap], [readtext]: the pages of [fitz.open], the
      image array of one page, and [reader.readtext(img, detail=0)];
    - [image_open]: [Image.open(...).convert("RGB")] as an array;
    - [docx_paragraphs]: the paragraph texts of [docx.Document(...)];
    - [chat_completions_create]: the [message.content] of the first choice of
      [client.chat.completions.create] for model gpt-3.5-turbo at
      temperature 0.2 with the prompt as the only user message;
    - [json_loads]: [json.loads]. *)
Record collaborators := Collaborators {
  pdfplumber_pages : bytes -> outcome (list (option string));
  fitz_open : bytes -> outcome (list bytes);
  get_pixmap : bytes -> outcome bytes;
  readtext : bytes -> outcome (list string);
  image_open : bytes -> outcome bytes;
  docx_paragraphs : bytes -> outcome (list string);
  chat_completions_create : string -> outcome string;
  json_loads : string -> outcome pyobj
}.

Definition requote (s : string) : string :=
  string_of_list_ascii
    (map (fun a => if Ascii.eqb a "'"%char then ascii_of_nat 34 else a)
         (list_ascii_of_string s)).

(** The prompt up to the résumé text (an apostrophe stands for each double quote). *)
Definition prompt_before : string :=
  requote (join nl
    ["";
     "You are a resume parser. Extract structured resume data in the following JSON format.";
     "";
     "Expected JSON:";
     "{";
     "  'id': null,";
     "  'targetJobTitle': '',";
     "  'targetJobDescription': '',";
     "  'personalInfo': {";
     "    'fullName': '',";
     "    'jobTitle': '',";
     "    'email': '',";
     "    'phone': '',";
     "    'location': '',";
     "    'summary': '',";
     "    'profilePicture': null";
     "  },";
     "  'sections': [";
     "    {";
     "      'id': 'null',";
     "      'type': 'experience',";
     "      'title': 'Work Experience',";
     "      'order': 0,";
     "      'hidden': false,";
     "      'items': [";
     "        {";
     "          'jobTitle': '',";
     "          'company': '',";
     "          'location': '',";
     "          'startDate': null,";
     "          'endDate': null,";
     "          'currentPosition': false,";
     "          'description': ''";
     "        }";
     "      ],";
     "      'groups': [],";
     "      'state': {}";
     "    },";
     "    {";
     "      'id': 'null',";
     "      'type': 'projects',";
     "      'title': 'Projects',";
     "      'order': 1,";
     "      'hidden': false,";
     "      'items': [],";
     "      'groups': [],";
     "      'state': {}";
     "    },";
     "    {";
     "      'id': 'null',";
     "      'type': 'education',";
     "      'title': 'Education',";
     "      'order': 2,";
     "      'hidden': false,";
     "      'items': [],";
     "      'groups': [],";
     "      'state': {}";
     "    },";
     "    {";
     "      'id': 'null',";
     "      'type': 'skills',";
     "      'title': 'Skills',";
     "      'order': 3,";
     "      'format': 'grouped',";
     "      'items': [],";
     "      'groups': [],";
     "      'state': {";
     "        'categoryOrder': [],";
     "        'viewMode': 'categorized'";
     "      },";
     "      'hidden': false";
     "    }";
     "  ]";
     "}";
     "";
     "Resume Text:";
     "'''";
     ""]).

(** The prompt after the résumé text. *)
Definition prompt_after : string :=
  requote (join nl
    ["";
     "'''";
     "";
     "Return only valid JSON.";
     ""]).

Definition build_prompt (raw_text : string) : string :=
  (prompt_before ++ raw_text ++ prompt_after)%string.

Definition unsupported_file_format : string := "Unsupported file format.".

Section Stages.
Variable E : collaborators.

  (** The page loop of [extract_text_from_pdf_with_ocr] *)
Fixpoint ocr_pages (doc : list bytes) (text : string) : py string :=
    match doc with
    | [] => ret text
    | page :: rest =>
        img_np <- external (GetPixmap page) (get_pixmap E page) ;;
        result <- external (ReadText img_np) (readtext E img_np) ;;
        ocr_pages rest (text ++ join nl result ++ nl)%string
    end.

Definition extract_text_from_pdf_with_ocr (content : bytes) : py string :=
    doc <- external (FitzOpen content) (fitz_open E content) ;;
    ocr_pages doc EmptyString.

  (** [text += page.extract_text() or ""] over the pages *)
Definition text_layer (pages : list (option string)) : string :=
    fold_left
      (fun text page =>
         (text ++ match page with Some t => t | None => EmptyString end)%string)
      pages EmptyString.

Definition extract_text_from_pdf (content : bytes) : py pyobj :=
    let file_hash := _get_file_hash content in
    pages <- external (PdfTextLayer content) (pdfplumber_pages E content) ;;
    let text := text_layer pages in
    if String.eqb (strip text) EmptyString then
      let ocr_cache_key := ("pdf_ocr:" ++ file_hash)%string in
      cached_ocr <- _get_from_cache ocr_cache_key ;;
      if is_not_None cached_ocr then ret cached_ocr
      else
        text' <- extract_text_from_pdf_with_ocr content ;;
        _set_cache ocr_cache_key (PyStr text') ;;
        ret (PyStr text')
    else ret (PyStr text).

Definition extract_text_from_docx (content : bytes) : py pyobj :=
    paragraphs <- external (DocxOpen content) (docx_paragraphs E content) ;;
    ret (PyStr (join nl paragraphs)).

Definition extract_text_from_image (content : bytes) : py pyobj :=
    let file_hash := _get_file_hash content in
    let cache_key := ("image_ocr:" ++ file_hash)%string in
    cached_text <- _get_from_cache cache_key ;;
    if is_not_None cached_text then ret cached_text
    else
      img_np <- external (ImageOpen content) (image_open E content) ;;
      result <- external (ReadText img_np) (readtext E img_np) ;;
      let text := join nl result in
      _set_cache cache_key (PyStr text) ;;
      ret (PyStr text).

Definition extract_text_from_resume (filename : string) (content : bytes)
    : py pyobj :=
    let file_hash := _get_file_hash content in
    let cache_key := ("text_extract:" ++ file_hash)%string in
    cached_text <- _get_from_cache cache_key ;;
    if is_not_None cached_text then ret cached_text
    else
      let ext := lower (snd (splitext filename)) in
      if String.eqb ext ".pdf" then
        text <- extract_text_from_pdf content ;;
        _set_cache cache_key text ;;
        ret text
      else if String.eqb ext ".docx" then
        text <- extract_text_from_docx content ;;
        _set_cache cache_key text ;;
        ret text
      else if existsb (String.eqb ext) [".png"; ".jpg"; ".jpeg"] then
        text <- extract_text_from_image content ;;
        _set_cache cache_key text ;;
        ret text
      else ret (PyStr unsupported_file_format).

  (** [{"error": str(e)}] *)
Definition error_result (e : exn) : pyobj :=
    PyDict [("error", PyStr (exn_str e))].

  (** [raw_text] is whatever the extraction returned; [raw_text.encode] of
      [_get_text_hash] exists only on a [str]. *)
Definition transform_text_to_resume_data (raw_text : pyobj) : py pyobj :=
    match raw_text with
    | PyStr raw =>
        let text_hash := _get_text_hash raw in
        let cache_key := ("openai_transform:" ++ text_hash)%string in
        cached_result <- _get_from_cache cache_key ;;
        if is_not_None cached_result then ret cached_result
        else
          let prompt := build_prompt raw in
          try_except
            (content <- external (ChatCompletion prompt)
                                 (chat_completions_create E prompt) ;;
             result <- lift (json_loads E (strip content)) ;;
             _set_cache cache_key result ;;
             ret result)
            (fun e => ret (error_result e))
    | _ => raise (Exn "AttributeError" "object has no attribute encode")
    end.

Definition parse_resume (filename : string) (content : bytes) : py pyobj :=
    let file_hash := _get_file_hash content in
    let cache_key := ("full_parse:" ++ file_hash)%string in
    cached_result <- _get_from_cache cache_key ;;
    if is_not_None cached_result then ret cached_result
    else
      raw_text <- extract_text_from_resume filename content ;;
      structured_data <- transform_text_to_resume_data raw_text ;;
      _set_cache cache_key structured_data ;;
      ret structured_data.
End Stages.

(* ================================================================== *)
(** ** [user_service.py]: the user lookup *)
(* ================================================================== *)

(** A document of the users collection: its [_id] (an [ObjectId], by its
    hexadecimal text) and its other fields. *)
Record document := Document {
  doc_id : string;
  doc_fields : dict pyobj
}.

(** The MongoDB driver and [bson], as [find_user_by_id] uses them.
    - [get_database]: [db_connection.get_database()], which connects on first
      use and raises when it cannot;
    - [list_collection_names]: on that database;
    - [ObjectId]: the constructor, raising [InvalidId] or [TypeError];
    - [find_one]: [db.usersv2.find_one({"_id": object_id})]. *)
Record user_store := UserStore {
  get_database : outcome string;
  list_collection_names : string -> outcome (list string);
  ObjectId : pyobj -> outcome string;
  find_one : string -> string -> outcome (option document)
}.

Definition obind {A B} (m : outcome A) (k : A -> outcome B) : outcome B :=
  match m with
  | Ret a => k a
  | Raise e => Raise e
  end.

(** [except cls:] catches the exceptions of class [cls] only. *)
Definition except_class {A} (cls : string) (body : outcome A)
           (handler : exn -> outcome A) : outcome A :=
  match body with
  | Ret a => Ret a
  | Raise e => if String.eqb (exn_class e) cls then handler e else Raise e
  end.

(** [except Exception:] *)
Definition except_Exception {A} (body : outcome A)
           (handler : exn -> outcome A) : outcome A :=
  match body with
  | Ret a => Ret a
  | Raise e => handler e
  end.

(** [user["_id"] = str(user["_id"])] *)
Definition stringify_id (user : document) : dict pyobj :=
  ("_id", PyStr (doc_id user)) :: doc_fields user.

Definition find_user_by_id (S : user_store) (user_id : pyobj)
  : outcome (option (dict pyobj)) :=
  except_Exception
    (obind (get_database S) (fun db =>
     obind (list_collection_names S db) (fun collections =>
     obind (except_class "InvalidId"
              (obind (ObjectId S user_id) (fun oid => Ret (Some oid)))
              (fun _ => Ret None))
       (fun converted =>
          match converted with
          | None => Ret None
          | Some object_id =>
              obind (find_one S db object_id) (fun user =>
                match user with
                | Some doc => Ret (Some (stringify_id doc))
                | None => Ret None
                end)
          end))))
    (fun _ => Ret None).

(* ================================================================== *)
(** ** [app.py]: the [/parse-resume] handler *)
(* ================================================================== *)

Definition origins : list string :=
  ["https://jobstackuidev-gwakgfdgbgh5emdw.canadacentral-01.azurewebsites.net";
   "https://jobtackui-fgcdftezgkhbbpbg.canadacentral-01.azurewebsites.net";
   "http://localhost:5173";
   "https://jobtackui-fgcdftezgkhbbpbg.canadacentral-01.azurewebsites.net"].

Record request := Request {
  header_origin : option string;
  header_authorization : option string;
  file_filename : string;
  file_content : bytes
}.

(** How a request ends: the returned body (status 200), a raised
    [HTTPException], or another exception escaping the handler, which the
    framework answers with status 500. *)
Inductive reply : Type :=
| Returned (body : pyobj)
| HTTPException (status_code : Z) (detail : pyobj)
| Unhandled (e : exn).

Definition error_detail (message : string) (status : string) : pyobj :=
  PyDict [("error", PyStr message); ("status", PyNum status)].

Definition upload_resume
           (verify_token : string -> outcome (dict pyobj))
           (S : user_store) (E : collaborators) (req : request)
  : world -> reply * world :=
  fun w =>
    let origin := header_origin req in
    match origin with
    | None => (HTTPException 403 (PyStr "Origin not allowed"), w)
    | Some o =>
    if String.eqb o "" || negb (existsb (String.eqb o) origins)
    then (HTTPException 403 (PyStr "Origin not allowed"), w)
    else
    match header_authorization req with
    | None =>
        (HTTPException 400
           (error_detail "Authorization header is missing" "400"), w)
    | Some auth_header =>
    if String.eqb auth_header ""
    then (HTTPException 400
            (error_detail "Authorization header is missing" "400"), w)
    else
    match nth_error (split_space auth_header) 1 with
    | None =>
        (HTTPException 400 (error_detail "Bearer token is missing" "400"), w)
    | Some token =>
    if String.eqb token ""
    then (HTTPException 400 (error_detail "Bearer token is missing" "400"), w)
    else
    match verify_token token with
    | Raise err =>
        (HTTPException 401
           (PyDict [("error", PyStr "Invalid or expired token");
                    ("status", PyNum "401");
                    ("details", PyStr (exn_str err))]), w)
    | Ret decoded_token =>
    let user_id :=
      match dict_get "userId" decoded_token with
      | Some v => v
      | None => PyNone
      end in
    if negb (truthy user_id)
    then (HTTPException 400 (error_detail "Invalid token payload" "400"), w)
    else
    match find_user_by_id S user_id with
    | Raise e => (Unhandled e, w)
    | Ret None =>
        (HTTPException 401 (error_detail "User does not exist" "401"), w)
    | Ret (Some user) =>
    match user with
    | [] => (HTTPException 401 (error_detail "User does not exist" "401"), w)
    | _ =>
    match parse_resume E (file_filename req) (file_content req) w with
    | (Raise e, w') => (Unhandled e, w')
    | (Ret parsed_data, w') =>
        (Returned
           (PyDict [("resumeData", parsed_data);
                    ("userId", match dict_get "_id" user with
                               | Some v => v
                               | None => PyNone
                               end)]), w')
    end end end end end end end.

(* ================================================================== *)
(** ** Vocabulary of the properties *)
(* ================================================================== *)

(** The state a computation leaves and the outcome it gives. *)
Definition exec {A} (m : py A) (w : world) : world := snd (m w).
Definition result {A} (m : py A) (w : world) : outcome A := fst (m w).

(** A process that has just started: nothing cached in the process. *)
Definition fresh (client : option redis) : world := World client [] [].

(** A sequence of [_set_cache] calls. *)
Definition run_sets (ops : list (string * pyobj)) (w : world) : world :=
  fold_left (fun w' kv => exec (_set_cache (fst kv) (snd kv)) w') ops w.

(** The in-process mapping after the eviction step of [_set_cache]. *)
Definition evict (d : dict pyobj) : dict pyobj :=
  if (_max_cache_size <=? length d)%nat
  then delete_keys (firstn (_max_cache_size / 4) (dict_keys d)) d
  else d.

(** The remote server after the [setex] attempt of [_set_cache]. *)
Definition remote_after_set (key : string) (value : pyobj)
           (client : option redis) : option redis :=
  match client with
  | Some r =>
      if writes_raise r then Some r
      else Some (Redis (dict_set key (_cache_ttl, pickle_dumps value) (store r))
                       (reads_raise r) (writes_raise r))
  | None => None
  end.

(** [_cache.get(key)] *)
Definition memory_read (key : string) (d : dict pyobj) : pyobj :=
  match dict_get key d with Some v => v | None => PyNone end.

(** What the remote tier answers to [_get_from_cache], if it answers. *)
Definition remote_read (key : string) (client : option redis) : option pyobj :=
  match client with
  | Some r =>
      if reads_raise r then None
      else match dict_get key (store r) with
           | Some (_, Pickle v) => Some v
           | _ => None
           end
  | None => None
  end.

Definition cache_read (key : string) (w : world) : pyobj :=
  match remote_read key (redis_client w) with
  | Some v => v
  | None => memory_read key (_cache w)
  end.

(** The remote tier cannot answer a read with an entry older than the last
    write: it is disabled, or its reads raise, or its writes succeed. *)
Definition coherent (w : world) : bool :=
  match redis_client w with
  | Some r => reads_raise r || negb (writes_raise r)
  | None => true
  end.

(** Round trip of the cache at one state, key and value. *)
Definition round_trip (w : world) (key : string) (value : pyobj) : Prop :=
  result (_get_from_cache key) (exec (_set_cache key value) w) = Ret value.

(** A remote server that is full: it still answers reads and holds an older
    entry for the key [k], and rejects writes. *)
Definition full_remote : redis :=
  Redis [("k", (_cache_ttl, Pickle (PyStr "old")))] false true.

(** The five key namespaces. *)
Definition text_extract_key (content : bytes) : string :=
  "text_extract:" ++ _get_file_hash content.
Definition pdf_ocr_key (content : bytes) : string :=
  "pdf_ocr:" ++ _get_file_hash content.
Definition image_ocr_key (content : bytes) : string :=
  "image_ocr:" ++ _get_file_hash content.
Definition openai_transform_key (raw_text : string) : string :=
  "openai_transform:" ++ _get_text_hash raw_text.
Definition full_parse_key (content : bytes) : string :=
  "full_parse:" ++ _get_file_hash content.

(** The state after events were observed and nothing else happened. *)
Definition after (w : world) (evs : list event) : world :=
  World (redis_client w) (_cache w) (trace w ++ evs).

(** The events a computation adds to the trace. *)
Definition events_of {A} (m : py A) (w : world) : list event :=
  skipn (length (trace w)) (trace (exec m w)).

(** Is the remote tier enabled, and do its reads and writes raise. *)
Definition mode (w : world) : option (bool * bool) :=
  option_map (fun r => (reads_raise r, writes_raise r)) (redis_client w).

(** A computation that leaves the remote tier's availability as it is. *)
Definition keeps_mode {A} (m : py A) : Prop :=
  forall w, mode (exec m w) = mode w.

(** A miss, as the callers of [_get_from_cache] test it. *)
Definition misses (key : string) (w : world) : Prop :=
  is_not_None (cache_read key w) = false.

(** ** Worked inputs *)

(** Two 128-byte payloads that differ in six bytes. *)
(** The first payload. *)
Definition payload_1 : bytes :=
  [xd1; x31; xdd; x02; xc5; xe6; xee; xc4; x69; x3d; x9a; x06;
   x98; xaf; xf9; x5c; x2f; xca; xb5; x87; x12; x46; x7e; xab;
   x40; x04; x58; x3e; xb8; xfb; x7f; x89; x55; xad; x34; x06;
   x09; xf4; xb3; x02; x83; xe4; x88; x83; x25; x71; x41; x5a;
   x08; x51; x25; xe8; xf7; xcd; xc9; x9f; xd9; x1d; xbd; xf2;
   x80; x37; x3c; x5b; xd8; x82; x3e; x31; x56; x34; x8f; x5b;
   xae; x6d; xac; xd4; x36; xc9; x19; xc6; xdd; x53; xe2; xb4;
   x87; xda; x03; xfd; x02; x39; x63; x06; xd2; x48; xcd; xa0;
   xe9; x9f; x33; x42; x0f; x57; x7e; xe8; xce; x54; xb6; x70;
   x80; xa8; x0d; x1e; xc6; x98; x21; xbc; xb6; xa8; x83; x93;
   x96; xf9; x65; x2b; x6f; xf7; x2a; x70]%list.

(** The second payload. *)
Definition payload_2 : bytes :=
  [xd1; x31; xdd; x02; xc5; xe6; xee; xc4; x69; x3d; x9a; x06;
   x98; xaf; xf9; x5c; x2f; xca; xb5; x07; x12; x46; x7e; xab;
   x40; x04; x58; x3e; xb8; xfb; x7f; x89; x55; xad; x34; x06;
   x09; xf4; xb3; x02; x83; xe4; x88; x83; x25; xf1; x41; x5a;
   x08; x51; x25; xe8; xf7; xcd; xc9; x9f; xd9; x1d; xbd; x72;
   x80; x37; x3c; x5b; xd8; x82; x3e; x31; x56; x34; x8f; x5b;
   xae; x6d; xac; xd4; x36; xc9; x19; xc6; xdd; x53; xe2; x34;
   x87; xda; x03; xfd; x02; x39; x63; x06; xd2; x48; xcd; xa0;
   xe9; x9f; x33; x42; x0f; x57; x7e; xe8; xce; x54; xb6; x70;
   x80; x28; x0d; x1e; xc6; x98; x21; xbc; xb6; xa8; x83; x93;
   x96; xf9; x65; xab; x6f; xf7; x2a; x70]%list.

Definition resume_bytes : bytes := list_byte_of_string "Jane Doe, Engineer".
Definition scanned_pdf : bytes := list_byte_of_string "%PDF-1.4 scanned".

(** [json.loads] on the responses used below. *)
Definition json_table (s : string) : outcome pyobj :=
  if String.eqb s "null" then Ret PyNone
  else if String.eqb s "{}" then Ret (PyDict [])
  else Raise (Exn "JSONDecodeError"
                  "Expecting value: line 1 column 1 (char 0)").

(** Collaborators for the worked inputs: the scanned PDF has two pages
    without a text layer, any other content is not a PDF for [pdfplumber];
    every image reads as two lines; [chat] is the generation service. *)
Definition studio (chat : string -> outcome string) : collaborators :=
  {| pdfplumber_pages c :=
       if String.eqb (string_of_list_byte c) (string_of_list_byte scanned_pdf)
       then Ret [None; Some " "]
       else Raise (Exn "PDFSyntaxError" "No /Root object! - Is this really a PDF?");
     fitz_open c := Ret [c];
     get_pixmap page := Ret page;
     readtext img := Ret ["Jane Doe"; "Engineer"];
     image_open c := Ret c;
     docx_paragraphs c := Ret ["Jane Doe"; "Engineer"];
     chat_completions_create := chat;
     json_loads := json_table |}.

Definition service_down : string -> outcome string :=
  fun _ => Raise (Exn "APIConnectionError" "Connection error.").

Definition answers (reply : string) : string -> outcome string :=
  fun _ => Ret reply.

(** A service that answers [null] for the unsupported-format text and an
    empty object for any other text. *)
Definition null_for_unsupported : string -> outcome string :=
  fun prompt =>
    if String.eqb prompt (build_prompt unsupported_file_format)
    then Ret "null" else Ret "{}".


(** States reached by one [parse_resume] call in a process that has just
    started, remote tier disabled. *)
Definition after_null_parse : world :=
  exec (parse_resume (studio (answers "null")) "cv.txt" resume_bytes)
       (fresh None).
Definition after_docx_parse : world :=
  exec (parse_resume (studio (answers "{}")) "cv.docx" resume_bytes)
       (fresh None).


Definition connection_failure : exn :=
  Exn "APIConnectionError" "Connection error.".

(** The events of a transform whose lookup misses and whose call fails. *)
Definition failed_transform_events (raw_text : string) : list event :=
  [CacheGet (openai_transform_key raw_text);
   ChatCompletion (build_prompt raw_text)].


(** The extension [extract_text_from_resume] dispatches on, and those it
    recognizes. *)
Definition extension (filename : string) : string :=
  lower (snd (splitext filename)).

Definition recognized : list string :=
  [".pdf"; ".docx"; ".png"; ".jpg"; ".jpeg"].

(** A stage followed by the write of its text under [key]. *)
Definition cached_under (key : string) (stage : py pyobj) : py pyobj :=
  text <- stage ;; _set_cache key text ;; ret text.

(** [not text.strip()] *)
Definition blank (text : string) : bool :=
  String.eqb (strip text) EmptyString.

(** What the OCR of the scanned PDF of the worked inputs reads. *)
Definition scanned_text : string := join nl ["Jane Doe"; "Engineer"] ++ nl.


(** The lower-case hexadecimal digits. *)
Definition hexdigits : list ascii := list_ascii_of_string "0123456789abcdef".

(** [_max_cache_size + 1] entries with distinct keys: the key of entry [n]
    is [n] times the letter k. *)
Definition key_of (n : nat) : string :=
  string_of_list_ascii (repeat "k"%char n).

Definition numbered : list (string * pyobj) :=
  map (fun n => (key_of n, PyStr (key_of n))) (seq 0 (S _max_cache_size)).

(** The lookup of a user fails: the database cannot be reached, or listing
    its collections, converting the identifier or the query raises. *)
Definition lookup_fails (S : user_store) (user_id : pyobj) : Prop :=
  (exists e, get_database S = Raise e)
  \/ (exists db e,
        get_database S = Ret db /\ list_collection_names S db = Raise e)
  \/ (exists e, ObjectId S user_id = Raise e)
  \/ (exists db oid e,
        get_database S = Ret db /\ ObjectId S user_id = Ret oid
        /\ find_one S db oid = Raise e).

(** A request passes the checks that precede the user lookup, with the
    claim [user_id] in its token. *)
Definition reaches_lookup (verify_token : string -> outcome (dict pyobj))
           (req : request) (user_id : pyobj) : Prop :=
  exists o auth_header token decoded_token,
    header_origin req = Some o /\ In o origins
    /\ header_authorization req = Some auth_header
    /\ nth_error (split_space auth_header) 1 = Some token
    /\ token <> EmptyString
    /\ verify_token token = Ret decoded_token
    /\ dict_get "userId" decoded_token = Some user_id
    /\ truthy user_id = true.

(** A user store whose server cannot be reached; identifiers of 24
    characters convert. *)
Definition unreachable_store : user_store :=
  {| get_database :=
       Raise (Exn "ServerSelectionTimeoutError" "No servers found yet");
     list_collection_names _ := Ret [];
     ObjectId v :=
       match v with
       | PyStr s =>
           if (String.length s =? 24)%nat then Ret s
           else Raise (Exn "InvalidId" "not a valid ObjectId")
       | _ => Raise (Exn "TypeError" "id must be an instance of str")
       end;
     find_one _ _ := Ret None |}.

Definition accept_token : string -> outcome (dict pyobj) :=
  fun _ => Ret [("userId", PyStr "507f1f77bcf86cd799439011")].

Definition upload : request :=
  Request (Some "http://localhost:5173") (Some "Bearer abc.def.ghi")
          "cv.docx" resume_bytes.


(** A user store that answers and holds no user. *)
Definition empty_store : user_store :=
  {| get_database := Ret "jobstack";
     list_collection_names _ := Ret ["usersv2"];
     ObjectId := ObjectId unreachable_store;
     find_one _ _ := Ret None |}.


(* ================================================================== *)
(** ** [resume_parser.py]: [get_cache_stats] *)
(* ================================================================== *)

(** [str(n)] for a count. *)
Definition decimal (n : nat) : string :=
  DecimalString.NilEmpty.string_of_uint (Nat.to_uint n).

(** [get_cache_stats]. [used_memory_human] is that field of the server's
    [info()], if it has one; [info()] and [dbsize()] are read commands. *)
Definition get_cache_stats (used_memory_human : option string)
  : py (dict pyobj) :=
  d <- get_cache ;;
  client <- get_redis_client ;;
  let stats :=
    [("in_memory_size", PyNum (decimal (length d)));
     ("redis_available",
      PyBool (match client with Some _ => true | None => false end))] in
  match client with
  | Some r =>
      try_except
        (fun w =>
           if reads_raise r then (Raise connection_error, w)
           else
             (Ret (dict_set "redis_keys" (PyNum (decimal (length (store r))))
                     (dict_set "redis_used_memory"
                        (PyStr (match used_memory_human with
                                | Some m => m
                                | None => "N/A"
                                end))
                        stats)), w))
        (fun _ =>
           ret (dict_set "redis_error" (PyStr "Could not get Redis stats")
                         stats))
  | None => ret stats
  end.

(* ================================================================== *)
(** ** [token_service.py]: [verify_token] *)
(* ================================================================== *)

(** The environment and the PyJWT call of [verify_token]: the two variables
    it reads, and [jwt.decode(token, secret_key, algorithms=[algorithm],
    ...)], which returns the claims or raises. *)
Record jwt_env := JwtEnv {
  JWT_SECRET_KEY : option string;
  JWT_ALGORITHM : option string;
  jwt_decode : string -> string -> string -> outcome (dict pyobj)
}.

(** The classes an [except jwt.InvalidTokenError] clause catches:
    [InvalidTokenError] and its subclasses in PyJWT. *)
Definition invalid_token_errors : list string :=
  ["InvalidTokenError"; "DecodeError"; "InvalidSignatureError";
   "ExpiredSignatureError"; "InvalidAudienceError"; "InvalidIssuerError";
   "InvalidIssuedAtError"; "ImmatureSignatureError"; "InvalidAlgorithmError";
   "MissingRequiredClaimError"; "InvalidSubjectError"; "InvalidJTIError"].

(** The [try] block of [verify_token]. *)
Definition decode_with_secret (J : jwt_env) (token : string)
  : outcome (dict pyobj) :=
  match JWT_SECRET_KEY J with
  | Some secret_key =>
      if String.eqb secret_key EmptyString
      then Raise (Exn "Exception"
                      "JWT_SECRET_KEY environment variable is required")
      else
        let algorithm :=
          match JWT_ALGORITHM J with Some a => a | None => "HS256" end in
        jwt_decode J token secret_key algorithm
  | None =>
      Raise (Exn "Exception"
                 "JWT_SECRET_KEY environment variable is required")
  end.

Definition verify_token (J : jwt_env) (token : string)
  : outcome (dict pyobj) :=
  match decode_with_secret J token with
  | Ret decoded_token => Ret decoded_token
  | Raise e =>
      if String.eqb (exn_class e) "ExpiredSignatureError"
      then Raise (Exn "Exception" "Token has expired")
      else if existsb (String.eqb (exn_class e)) invalid_token_errors
      then Raise (Exn "Exception" ("Invalid token: " ++ exn_str e))
      else Raise (Exn "Exception"
                      ("Token verification failed: " ++ exn_str e))
  end.

(* ================================================================== *)
(** ** [user_service.py]: [DatabaseConnection] *)
(* ================================================================== *)

(** The environment and the driver of [DatabaseConnection]: the two
    variables it reads, [AsyncIOMotorClient(url)] (a client handle or an
    exception), the [ping] command on a client, and the check that
    [client[db_name]] makes of the name, raising [InvalidName] for an empty
    name or one with a forbidden character. *)
Record mongo_env := MongoEnv {
  MONGODB_URL : option string;
  DATABASE_NAME : option string;
  motor_client : string -> outcome string;
  ping : string -> outcome unit;
  check_name : string -> outcome unit
}.

(** The singleton's attributes; a database is a client and a name. *)
Record connection := Connection {
  _client : option string;
  _database : option (string * string)
}.

Definition disconnected : connection := Connection None None.

(** [DatabaseConnection.initialize]: the attributes are assigned as the
    statements run, so what was assigned before an exception stays. *)
Definition initialize (M : mongo_env) (c : connection)
  : outcome unit * connection :=
  match _client c with
  | None =>
      match MONGODB_URL M with
      | Some mongodb_url =>
          if String.eqb mongodb_url EmptyString
          then (Raise (Exn "ValueError"
                           "MONGODB_URL environment variable is required"), c)
          else
            match motor_client M mongodb_url with
            | Ret client =>
                let c1 := Connection (Some client) (_database c) in
                match ping M client with
                | Ret _ =>
                    let db_name :=
                      match DATABASE_NAME M with
                      | Some n => n
                      | None => "your_database_name"
                      end in
                    match check_name M db_name with
                    | Ret _ =>
                        (Ret tt,
                         Connection (Some client) (Some (client, db_name)))
                    | Raise e => (Raise e, c1)
                    end
                | Raise e => (Raise e, c1)
                end
            | Raise e => (Raise e, c)
            end
      | None =>
          (Raise (Exn "ValueError"
                      "MONGODB_URL environment variable is required"), c)
      end
  | Some _ => (Ret tt, c)
  end.

(** [DatabaseConnection.get_database] *)
Definition connection_get_database (M : mongo_env) (c : connection)
  : outcome (option (string * string)) * connection :=
  match _database c with
  | None =>
      match initialize M c with
      | (Ret _, c') => (Ret (_database c'), c')
      | (Raise e, c') => (Raise e, c')
      end
  | Some _ => (Ret (_database c), c)
  end.

(** [DatabaseConnection.close] *)
Definition close (c : connection) : connection :=
  match _client c with
  | Some _ => Connection None None
  | None => c
  end.

(** [health_check] of [app.py] *)
Definition health_check : pyobj :=
  PyDict [("status", PyStr "ok");
          ("message", PyStr "Resume parser is running")].


(** The value most recently set for [key] by a sequence of [_set_cache]
    calls, if any. *)
Definition last_set (key : string) (ops : list (string * pyobj))
  : option pyobj :=
  dict_get key (rev ops).

(** The first [_max_cache_size] of the numbered entries, set in a process
    that has just started: the in-process mapping is at capacity. *)
Definition full_world : world :=
  run_sets (firstn _max_cache_size numbered) (fresh None).


(** Both tiers hold in [w'] what they hold in [w]. *)
Definition same_tiers (w w' : world) : Prop :=
  redis_client w' = redis_client w /\ _cache w' = _cache w.

(** A computation that writes to neither tier. *)
Definition keeps_tiers {A} (m : py A) : Prop :=
  forall w, same_tiers w (exec m w).

(** The text of [extract_text_from_pdf_with_ocr] when the lines read on the
    pages are [results]. *)
Definition ocr_text_of (results : list (list string)) : string :=
  String.concat EmptyString
    (map (fun lines => (join nl lines ++ nl)%string) results).


(** The page renders and the recognition reads [lines] on it. *)
Definition page_reads (E : collaborators) (page : bytes)
           (lines : list string) : Prop :=
  exists img, get_pixmap E page = Ret img /\ readtext E img = Ret lines.

(** Collaborators for a document of two pages, each read as its own name
    and a closing line. *)
Definition two_pages : collaborators :=
  Collaborators (pdfplumber_pages (studio service_down))
    (fun _ => Ret [list_byte_of_string "p1"; list_byte_of_string "p2"])
    (get_pixmap (studio service_down))
    (fun img => Ret [string_of_list_byte img; "end"])
    (image_open (studio service_down))
    (docx_paragraphs (studio service_down))
    service_down json_table.


(** No character of [s] is a space. *)
Definition no_space (s : string) : bool :=
  forallb (fun a => negb (Ascii.eqb a " "%char)) (list_ascii_of_string s).

(** The handler with the token check of [token_service.py]. *)
Definition upload_resume_jwt (J : jwt_env) (S : user_store)
           (E : collaborators) (req : request) : world -> reply * world :=
  upload_resume (verify_token J) S E req.

(** A deployment without [JWT_SECRET_KEY]. *)
Definition no_secret : jwt_env :=
  JwtEnv None (Some "HS256")
         (fun _ _ _ => Ret [("userId", PyStr "507f1f77bcf86cd799439011")]).

(** A user store that answers and holds one user. *)
Definition one_user_store : user_store :=
  {| get_database := Ret "jobstack";
     list_collection_names _ := Ret ["usersv2"];
     ObjectId := ObjectId unreachable_store;
     find_one _ oid :=
       if String.eqb oid "507f1f77bcf86cd799439011"
       then Ret (Some (Document oid [("email", PyStr "jane@example.org")]))
       else Ret None |}.

(** A MongoDB server that accepts the connection and fails the ping, and
    one that answers it. *)
(** The name check of [pymongo]'s [Database], which [client[db_name]]
    builds: apart from "$external", no empty name and none of the characters
    space, period, dollar, slash, backslash, NUL and double quote; the
    exception shows the first of them, in this order, that the name holds. *)
Definition invalid_chars : list (nat * string) :=
  [(32, "' '"); (46, "'.'"); (36, "'$'"); (47, "'/'"); (92, "'\\'");
   (0, "'\x00'"); (34, ("'" ++ String (ascii_of_nat 34) "'")%string)].

Definition pymongo_check_name (name : string) : outcome unit :=
  if String.eqb name "$external" then Ret tt
  else if String.eqb name EmptyString
  then Raise (Exn "InvalidName" "database name cannot be the empty string")
  else
    match find (fun c => existsb (fun a => Nat.eqb (nat_of_ascii a) (fst c))
                                 (list_ascii_of_string name))
               invalid_chars with
    | Some c =>
        Raise (Exn "InvalidName"
                   ("database names cannot contain the character " ++ snd c))
    | None => Ret tt
    end.

Definition ping_fails : mongo_env :=
  MongoEnv (Some "mongodb://db:27017") None (fun url => Ret url)
           (fun _ => Raise (Exn "ServerSelectionTimeoutError"
                                "No servers found yet"))
           pymongo_check_name.

Definition ping_answers : mongo_env :=
  MongoEnv (Some "mongodb://db:27017") (Some "jobstack") (fun url => Ret url)
           (fun _ => Ret tt) pymongo_check_name.

(** A deployment whose [DATABASE_NAME] is set and empty. *)
Definition empty_name : mongo_env :=
  MongoEnv (Some "mongodb://db:27017") (Some "") (fun url => Ret url)
           (fun _ => Ret tt) pymongo_check_name.

(* ================================================================== *)
(** ** Worked inputs that the readers accept *)
(* ================================================================== *)

(** A PDF file of one page whose text layer reads Jane Doe: its lines. *)
Definition text_pdf_lines : list string :=
  ["%PDF-1.4";
   "1 0 obj";
   "<< /Type /Catalog /Pages 2 0 R >>";
   "endobj";
   "2 0 obj";
   "<< /Type /Pages /Kids [3 0 R] /Count 1 >>";
   "endobj";
   "3 0 obj";
   "<< /Type /Page /Parent 2 0 R /MediaBox [0 0 300 144]";
   "   /Contents 4 0 R /Resources << /Font << /F1 5 0 R >> >> >>";
   "endobj";
   "4 0 obj";
   "<< /Length 39 >>";
   "stream";
   "BT /F1 18 Tf 20 100 Td (Jane Doe) Tj ET";
   "endstream";
   "endobj";
   "5 0 obj";
   "<< /Type /Font /Subtype /Type1 /BaseFont /Helvetica >>";
   "endobj";
   "xref";
   "0 6";
   "0000000000 65535 f ";
   "0000000009 00000 n ";
   "0000000058 00000 n ";
   "0000000115 00000 n ";
   "0000000244 00000 n ";
   "0000000333 00000 n ";
   "trailer";
   "<< /Size 6 /Root 1 0 R >>";
   "startxref";
   "403";
   "%%EOF"].

Definition text_pdf : bytes :=
  list_byte_of_string (join nl text_pdf_lines ++ nl).

(** A PDF file of one empty page, without a text layer and with nothing to
    recognize: its lines. *)
Definition blank_pdf_lines : list string :=
  ["%PDF-1.4";
   "1 0 obj";
   "<< /Type /Catalog /Pages 2 0 R >>";
   "endobj";
   "2 0 obj";
   "<< /Type /Pages /Kids [3 0 R] /Count 1 >>";
   "endobj";
   "3 0 obj";
   "<< /Type /Page /Parent 2 0 R /MediaBox [0 0 300 144] >>";
   "endobj";
   "xref";
   "0 4";
   "0000000000 65535 f ";
   "0000000009 00000 n ";
   "0000000058 00000 n ";
   "0000000115 00000 n ";
   "trailer";
   "<< /Size 4 /Root 1 0 R >>";
   "startxref";
   "186";
   "%%EOF"].

Definition blank_pdf : bytes :=
  list_byte_of_string (join nl blank_pdf_lines ++ nl).

Definition same_bytes (a b : bytes) : bool :=
  String.eqb (string_of_list_byte a) (string_of_list_byte b).

(** Collaborators that answer as the libraries do on the worked inputs. The
    two PDF files open; the first has the text layer Jane Doe, the second an
    empty one, and nothing is recognized on its empty page. Any other
    content, such as the plain text [resume_bytes], is no PDF, no image and
    no DOCX file. [chat] is the generation service. *)
Definition readers (chat : string -> outcome string) : collaborators :=
  {| pdfplumber_pages c :=
       if same_bytes c text_pdf then Ret [Some "Jane Doe"]
       else if same_bytes c blank_pdf then Ret [Some ""]
       else Raise (Exn "PDFSyntaxError"
                       "No /Root object! - Is this really a PDF?");
     fitz_open c :=
       if same_bytes c text_pdf || same_bytes c blank_pdf then Ret [c]
       else Raise (Exn "FileDataError" "Failed to open stream");
     get_pixmap page := Ret page;
     readtext img :=
       if same_bytes img blank_pdf then Ret [] else Ret ["Jane Doe"];
     image_open c :=
       Raise (Exn "UnidentifiedImageError" "cannot identify image file");
     docx_paragraphs c := Raise (Exn "BadZipFile" "File is not a zip file");
     chat_completions_create := chat;
     json_loads := json_table |}.

(** States reached in a process that has just started, remote tier
    disabled: the text file parsed while the service is down, the first PDF
    extracted, the first PDF parsed, the empty PDF extracted. *)
Definition after_failed_parse : world :=
  exec (parse_resume (readers service_down) "cv.txt" resume_bytes)
       (fresh None).
Definition after_pdf_extract : world :=
  exec (extract_text_from_resume (readers service_down) "cv.pdf" text_pdf)
       (fresh None).
Definition after_pdf_parse : world :=
  exec (parse_resume (readers null_for_unsupported) "cv.pdf" text_pdf)
       (fresh None).
Definition after_blank_scan : world :=
  exec (extract_text_from_pdf (readers service_down) blank_pdf) (fresh None).

(** A remote server that answers reads and refuses writes, holding the
    pickle of [None] under the [pdf_ocr] key of the empty PDF. *)
Definition refusing_remote : world :=
  fresh (Some (Redis [(pdf_ocr_key blank_pdf, (_cache_ttl, Pickle PyNone))]
                     false true)).
Definition after_refused_scan : world :=
  exec (extract_text_from_pdf (readers service_down) blank_pdf)
       refusing_remote.


(** Is the byte sequence the UTF-8 encoding of a text: well-formed, in
    shortest form, and without the encoding of a surrogate. The texts of the
    model are these strings; a Python [str] that holds a lone surrogate has
    no such encoding, and [encode('utf-8')] raises on it. *)
Fixpoint utf8_codes (l : list nat) : bool :=
  let continuation n := ((128 <=? n) && (n <=? 191))%nat in
  match l with
  | [] => true
  | a :: r =>
      if (a <? 128)%nat then utf8_codes r
      else if ((194 <=? a) && (a <=? 223))%nat then
        match r with
        | b :: r1 => continuation b && utf8_codes r1
        | _ => false
        end
      else if ((224 <=? a) && (a <=? 239))%nat then
        match r with
        | b :: c :: r2 =>
            continuation b && continuation c
            && (if (a =? 224)%nat then (160 <=? b)%nat
                else if (a =? 237)%nat then (b <=? 159)%nat
                else true)
            && utf8_codes r2
        | _ => false
        end
      else if ((240 <=? a) && (a <=? 244))%nat then
        match r with
        | b :: c :: d :: r3 =>
            continuation b && continuation c && continuation d
            && (if (a =? 240)%nat then (144 <=? b)%nat
                else if (a =? 244)%nat then (b <=? 143)%nat
                else true)
            && utf8_codes r3
        | _ => false
        end
      else false
  end.

Definition encodes_utf8 (text : string) : bool :=
  utf8_codes (map nat_of_ascii (list_ascii_of_string text)).

(* ================================================================== *)
(** * Properties *)
(* ================================================================== *)

(** ** The insertion-ordered dictionary *)

Section DictFacts.
Context {V : Type}.
Implicit Types (d : dict V) (k : string) (v : V).

Lemma dict_get_set_same k v d : dict_get k (dict_set k v d) = Some v.
Proof.
    induction d as [|[k' v'] d IH]; simpl.
    - now rewrite String.eqb_refl.
    - destruct (String.eqb k' k) eqn:Hk; simpl.
      + now rewrite String.eqb_refl.
      + now rewrite Hk.
Qed.

Lemma dict_get_set_other k k' v d :
    k <> k' -> dict_get k' (dict_set k v d) = dict_get k' d.
Proof.
    intros Hne. induction d as [|[k0 v0] d IH]; simpl.
    - destruct (String.eqb k k') eqn:Hk; [|reflexivity].
      apply String.eqb_eq in Hk. contradiction.
    - destruct (String.eqb k0 k) eqn:Hk; simpl.
      + apply String.eqb_eq in Hk. subst k0.
        destruct (String.eqb k k') eqn:Hk'; [|reflexivity].
        apply String.eqb_eq in Hk'. contradiction.
      + now rewrite IH.
Qed.

Lemma dict_get_None_notin k d :
    dict_get k d = None <-> ~ In k (dict_keys d).
Proof.
    induction d as [|[k' v'] d IH]; simpl.
    - tauto.
    - destruct (String.eqb k' k) eqn:Hk.
      + apply String.eqb_eq in Hk. split; [discriminate | tauto].
      + apply String.eqb_neq in Hk. rewrite IH. tauto.
Qed.

Lemma dict_set_length_le k v d :
    length (dict_set k v d) <= S (length d).
Proof.
    induction d as [|[k' v'] d IH]; simpl; [lia|].
    destruct (String.eqb k' k); simpl; lia.
Qed.

Lemma dict_set_keys_new k v d :
    ~ In k (dict_keys d) -> dict_set k v d = d ++ [(k, v)].
Proof.
    induction d as [|[k' v'] d IH]; simpl; intros Hn; [reflexivity|].
    destruct (String.eqb k' k) eqn:Hk.
    - apply String.eqb_eq in Hk. tauto.
    - rewrite IH; tauto.
Qed.

Lemma dict_set_keys_in k v d x :
    In x (dict_keys (dict_set k v d)) <-> x = k \/ In x (dict_keys d).
Proof.
    induction d as [|[k' v'] d IH]; simpl.
    - intuition.
    - destruct (String.eqb k' k) eqn:Hk; simpl.
      + apply String.eqb_eq in Hk. subst. intuition.
      + rewrite IH. intuition.
Qed.

Lemma dict_set_NoDup k v d :
    NoDup (dict_keys d) -> NoDup (dict_keys (dict_set k v d)).
Proof.
    induction d as [|[k' v'] d IH]; simpl; intros Hd.
    - constructor; [tauto | constructor].
    - inversion Hd as [|? ? Hnotin Hrest]; subst.
      destruct (String.eqb k' k) eqn:Hk; simpl.
      + apply String.eqb_eq in Hk. subst. now constructor.
      + constructor; [|now apply IH].
        rewrite dict_set_keys_in. apply String.eqb_neq in Hk.
        intros [->|Hin]; tauto.
Qed.

Lemma dict_del_notin k d : ~ In k (dict_keys d) -> dict_del k d = d.
Proof.
    induction d as [|[k' v'] d IH]; simpl; intros Hn; [reflexivity|].
    destruct (String.eqb k' k) eqn:Hk.
    - apply String.eqb_eq in Hk. tauto.
    - rewrite IH; tauto.
Qed.
End DictFacts.

(** Deleting the first [n] keys of a dictionary drops its first [n]
    entries. *)
Lemma delete_first_keys n (d : dict pyobj) :
  NoDup (dict_keys d) ->
  delete_keys (firstn n (dict_keys d)) d = skipn n d.
Proof.
  unfold delete_keys. revert d.
  induction n as [|n IH]; intros d Hd; [reflexivity|].
  destruct d as [|[k v] d]; [reflexivity|].
  simpl. rewrite String.eqb_refl.
  inversion Hd as [|? ? Hnotin Hrest]; subst.
  now apply IH.
Qed.

(** ** The layered cache, as equations *)

(** [_get_from_cache] never raises and changes nothing but the trace. *)
Lemma get_from_cache_eq key w :
  _get_from_cache key w =
  (Ret (cache_read key w),
   World (redis_client w) (_cache w) (trace w ++ [CacheGet key])).
Proof.
  unfold _get_from_cache, cache_read, remote_read, memory_read, remote_lookup,
    try_except, bind, observe, get_redis_client, redis_get, get_cache, lift,
    ret.
  destruct w as [[r|] d t]; simpl; [|reflexivity].
  destruct (reads_raise r); simpl; [reflexivity|].
  destruct (dict_get key (store r)) as [[ttl [v|raw]]|]; simpl;
    try reflexivity.
  destruct raw; reflexivity.
Qed.

(** [_set_cache] never raises; it attempts the remote write, evicts, and
    writes the in-process entry. *)
Lemma set_cache_eq key value w :
  _set_cache key value w =
  (Ret tt,
   World (remote_after_set key value (redis_client w))
         (dict_set key value (evict (_cache w)))
         (trace w ++ [CacheSet key])).
Proof.
  unfold _set_cache, evict, remote_after_set, try_except, bind, observe,
    get_redis_client, redis_setex, get_cache, put_cache, ret.
  destruct w as [[r|] d t]; cbn [redis_client _cache trace].
  - destruct (writes_raise r); cbn [redis_client _cache trace];
      destruct (_max_cache_size <=? length d)%nat; reflexivity.
  - destruct (_max_cache_size <=? length d)%nat; reflexivity.
Qed.

Lemma evict_length_le d :
  length d <= _max_cache_size -> NoDup (dict_keys d) ->
  length (evict d) < _max_cache_size.
Proof.
  intros Hle Hd. unfold evict.
  destruct (_max_cache_size <=? length d)%nat eqn:Hfull.
  - apply Nat.leb_le in Hfull.
    rewrite delete_first_keys by assumption.
    rewrite length_skipn.
    change (_max_cache_size / 4) with 250.
    unfold _max_cache_size in *. lia.
  - apply Nat.leb_gt in Hfull. exact Hfull.
Qed.

(** ** Capacity of the in-process tier *)

Lemma skipn_keys n (d : dict pyobj) :
  dict_keys (skipn n d) = skipn n (dict_keys d).
Proof. unfold dict_keys. now rewrite skipn_map. Qed.

Lemma NoDup_skipn_keys n (l : list string) : NoDup l -> NoDup (skipn n l).
Proof.
  revert l. induction n as [|n IH]; intros l Hl; [exact Hl|].
  destruct l as [|x l]; [exact Hl|].
  inversion Hl; subst. simpl. now apply IH.
Qed.

Lemma evict_NoDup d : NoDup (dict_keys d) -> NoDup (dict_keys (evict d)).
Proof.
  intros Hd. unfold evict.
  destruct (_max_cache_size <=? length d)%nat; [|exact Hd].
  rewrite delete_first_keys by exact Hd.
  rewrite skipn_keys. now apply NoDup_skipn_keys.
Qed.

Lemma run_sets_snoc ops kv w :
  run_sets (ops ++ [kv]) w =
  exec (_set_cache (fst kv) (snd kv)) (run_sets ops w).
Proof. unfold run_sets. now rewrite fold_left_app. Qed.

Lemma cache_after_set key value w :
  _cache (exec (_set_cache key value) w) =
  dict_set key value (evict (_cache w)).
Proof. unfold exec. now rewrite set_cache_eq. Qed.

(** The invariant of the in-process mapping: distinct keys, at most
    [_max_cache_size] of them. *)
Lemma run_sets_invariant client ops :
  NoDup (dict_keys (_cache (run_sets ops (fresh client))))
  /\ length (_cache (run_sets ops (fresh client))) <= _max_cache_size.
Proof.
  induction ops as [|kv ops IH] using rev_ind.
  - simpl. split; [constructor | unfold _max_cache_size; lia].
  - destruct IH as [Hnd Hlen].
    rewrite run_sets_snoc, cache_after_set. split.
    + now apply dict_set_NoDup, evict_NoDup.
    + pose proof (evict_length_le _ Hlen Hnd).
      pose proof (dict_set_length_le (fst kv) (snd kv)
                    (evict (_cache (run_sets ops (fresh client))))).
      lia.
Qed.

(** While the capacity is not reached, distinct keys are held in the order
    in which they were set. *)
Lemma run_sets_distinct client ops :
  NoDup (map fst ops) -> length ops <= _max_cache_size ->
  _cache (run_sets ops (fresh client)) = ops.
Proof.
  induction ops as [|[k v] ops IH] using rev_ind; intros Hnd Hlen.
  - reflexivity.
  - rewrite map_app in Hnd. rewrite length_app in Hlen. simpl in Hnd, Hlen.
    apply NoDup_remove in Hnd. rewrite app_nil_r in Hnd.
    destruct Hnd as [Hnd Hk].
    rewrite run_sets_snoc, cache_after_set, IH by (assumption || lia).
    unfold evict.
    destruct (_max_cache_size <=? length ops)%nat eqn:Hfull.
    + apply Nat.leb_le in Hfull. lia.
    + now apply dict_set_keys_new.
Qed.

(** C2. Starting from an empty in-process cache, after every sequence of
    [_set_cache] calls the mapping holds at most [_max_cache_size] (1000)
    entries. A call that finds it at capacity first drops the first quarter
    of the entries in the mapping's order, which is insertion order, and then
    inserts. After [_max_cache_size + 1] distinct keys the mapping holds the
    last 751 of them, in the order they were set: fewer than the capacity. *)
Theorem set_cache_capacity (client : option redis)
        (ops : list (string * pyobj)) :
  let w := run_sets ops (fresh client) in
  length (_cache w) <= _max_cache_size
  /\ (forall key value,
        _max_cache_size <= length (_cache w) ->
        4 * length (firstn (_max_cache_size / 4) (_cache w))
        = length (_cache w)
        /\ _cache (exec (_set_cache key value) w)
           = dict_set key value (skipn (_max_cache_size / 4) (_cache w)))
  /\ (NoDup (map fst ops) ->
      (length ops <= _max_cache_size -> _cache w = ops)
      /\ (length ops = S _max_cache_size ->
          _cache w = skipn (_max_cache_size / 4) ops
          /\ length (_cache w) < _max_cache_size)).
Proof.
  intros w. subst w.
  destruct (run_sets_invariant client ops) as [Hnd Hlen].
  split; [exact Hlen|]. split.
  - intros key value Hfull. split.
    + rewrite length_firstn. change (_max_cache_size / 4) with 250.
      unfold _max_cache_size in *. lia.
    + rewrite cache_after_set. unfold evict.
      apply Nat.leb_le in Hfull. rewrite Hfull.
      now rewrite delete_first_keys.
  - intros Hdistinct. split.
    + now apply run_sets_distinct.
    + intros Hcount.
      destruct ops as [|kv ops] using rev_ind;
        [discriminate Hcount|clear IHops].
      destruct kv as [k v].
      rewrite length_app in Hcount. simpl in Hcount.
      assert (Hops : length ops = _max_cache_size) by lia.
      rewrite map_app in Hdistinct. simpl in Hdistinct.
      apply NoDup_remove in Hdistinct. rewrite app_nil_r in Hdistinct.
      destruct Hdistinct as [Hdistinct Hk].
      rewrite run_sets_snoc, cache_after_set.
      rewrite run_sets_distinct by (assumption || lia).
      unfold evict. rewrite Hops, Nat.leb_refl.
      assert (Hkeys : NoDup (dict_keys ops)) by exact Hdistinct.
      rewrite delete_first_keys by exact Hkeys.
      assert (Hnew : ~ In k (dict_keys (skipn (_max_cache_size / 4) ops))).
      { rewrite skipn_keys. intros Hin. apply Hk.
        change (In k (dict_keys ops)).
        rewrite <- (firstn_skipn (_max_cache_size / 4) (dict_keys ops)).
        apply in_or_app. now right. }
      cbn [fst snd].
      rewrite dict_set_keys_new by exact Hnew.
      assert (Hskip : skipn (_max_cache_size / 4) (ops ++ [(k, v)])
                      = skipn (_max_cache_size / 4) ops ++ [(k, v)]).
      { rewrite skipn_app.
        replace (_max_cache_size / 4 - length ops) with 0; [reflexivity|].
        rewrite Hops. reflexivity. }
      rewrite Hskip. split; [reflexivity|].
      rewrite length_app, length_skipn, Hops. simpl length.
      change (_max_cache_size / 4) with 250. unfold _max_cache_size. lia.
Qed.

(** ** Round trip through the two tiers *)

Lemma cache_read_after_set key value w :
  coherent w = true ->
  cache_read key (exec (_set_cache key value) w) = value.
Proof.
  intros Hco. unfold exec. rewrite set_cache_eq. cbn [snd].
  unfold cache_read, remote_read, remote_after_set, coherent in *.
  cbn [redis_client _cache].
  destruct (redis_client w) as [r|].
  - destruct (writes_raise r) eqn:Hw.
    + rewrite orb_false_r in Hco. rewrite Hco.
      unfold memory_read. now rewrite dict_get_set_same.
    + cbn [reads_raise store]. destruct (reads_raise r).
      * unfold memory_read. now rewrite dict_get_set_same.
      * now rewrite dict_get_set_same.
  - unfold memory_read. now rewrite dict_get_set_same.
Qed.

(** C3 (amended). [_set_cache(K, V)] followed immediately by
    [_get_from_cache(K)] returns [V] whenever the remote tier is disabled, or
    its reads raise (so also when every remote operation raises), or its
    writes succeed: the failure of a remote operation is swallowed and the
    read is answered by the tier that holds [V]. When the remote tier rejects
    the write and answers the read, the read returns the entry the remote
    tier already held for [K], and [V] if it held none. *)
Theorem cache_round_trip (w : world) (key : string) (value : pyobj) :
  (coherent w = true -> round_trip w key value)
  /\ (coherent w = false ->
      result (_get_from_cache key) (exec (_set_cache key value) w)
      = Ret (match remote_read key (redis_client w) with
             | Some held => held
             | None => value
             end)).
Proof.
  split; intros Hco.
  - unfold round_trip, result.
    rewrite get_from_cache_eq. cbn [fst]. f_equal.
    now apply cache_read_after_set.
  - unfold result, exec. rewrite set_cache_eq, get_from_cache_eq.
    cbn [fst snd]. f_equal.
    unfold cache_read, remote_after_set, coherent in *.
    cbn [redis_client _cache].
    destruct (redis_client w) as [r|]; [|discriminate Hco].
    apply orb_false_iff in Hco. destruct Hco as [Hr Hw].
    apply negb_false_iff in Hw. rewrite Hw.
    destruct (remote_read key (Some r)); [reflexivity|].
    unfold memory_read. now rewrite dict_get_set_same.
Qed.

(** C3, where it fails: the remote server rejects the write but answers the
    read that follows, with the entry it held before. *)
Lemma cache_round_trip_stale :
  result (_get_from_cache "k")
         (exec (_set_cache "k" (PyStr "new")) (fresh (Some full_remote)))
  = Ret (PyStr "old")
  /\ ~ round_trip (fresh (Some full_remote)) "k" (PyStr "new").
Proof.
  assert (H : result (_get_from_cache "k")
                (exec (_set_cache "k" (PyStr "new"))
                      (fresh (Some full_remote)))
              = Ret (PyStr "old")) by (vm_compute; reflexivity).
  split; [exact H|].
  unfold round_trip. rewrite H. discriminate.
Qed.

(** C3 (amended) at work: remote tier disabled, every remote operation
    raising, and a remote tier that takes the write over an older entry. *)
Lemma cache_round_trip_witness :
  round_trip (fresh None) "k" (PyStr "new")
  /\ round_trip (fresh (Some (Redis [] true true))) "k" (PyStr "new")
  /\ round_trip
       (fresh (Some (Redis [("k", (_cache_ttl, Pickle (PyStr "old")))]
                           false false)))
       "k" (PyStr "new").
Proof.
  split; [|split]; apply (proj1 (cache_round_trip _ _ _)); reflexivity.
Defined.

(** ** The stages leave the remote tier's availability alone *)

Lemma coherent_mode w w' : mode w' = mode w -> coherent w' = coherent w.
Proof.
  unfold mode, coherent.
  destruct (redis_client w') as [r'|], (redis_client w) as [r|]; simpl;
    intros H; try discriminate; [|reflexivity].
  now injection H as -> ->.
Qed.

Section KeepsMode.
Context {A B : Type}.

Lemma keeps_ret (a : A) : keeps_mode (ret a).
Proof. intros w. reflexivity. Qed.

Lemma keeps_raise (e : exn) : keeps_mode (@raise A e).
Proof. intros w. reflexivity. Qed.

Lemma keeps_lift (r : outcome A) : keeps_mode (lift r).
Proof. intros w. reflexivity. Qed.

Lemma keeps_bind (m : py A) (k : A -> py B) :
  keeps_mode m -> (forall a, keeps_mode (k a)) -> keeps_mode (bind m k).
Proof.
  intros Hm Hk w. unfold exec, bind. specialize (Hm w). unfold exec in Hm.
  destruct (m w) as [[a|e] w1]; cbn [snd] in *.
  - rewrite <- Hm. apply Hk.
  - exact Hm.
Qed.

Lemma keeps_try (m : py A) (h : exn -> py A) :
  keeps_mode m -> (forall e, keeps_mode (h e)) -> keeps_mode (try_except m h).
Proof.
  intros Hm Hh w. unfold exec, try_except. specialize (Hm w).
  unfold exec in Hm.
  destruct (m w) as [[a|e] w1]; cbn [snd] in *.
  - exact Hm.
  - rewrite <- Hm. apply Hh.
Qed.

Lemma keeps_external (ev : event) (r : outcome A) :
  keeps_mode (external ev r).
Proof. intros w. unfold exec, external, bind, observe, lift. now destruct r. Qed.
End KeepsMode.

Lemma keeps_get_from_cache key : keeps_mode (_get_from_cache key).
Proof. intros w. unfold exec. now rewrite get_from_cache_eq. Qed.

Lemma keeps_set_cache key value : keeps_mode (_set_cache key value).
Proof.
  intros w. unfold exec. rewrite set_cache_eq. unfold mode, remote_after_set.
  cbn [snd redis_client].
  destruct (redis_client w) as [r|]; [|reflexivity].
  destruct (writes_raise r) eqn:Hw; simpl; rewrite ?Hw; reflexivity.
Qed.

Create HintDb keeps.

#[local] Hint Resolve keeps_ret keeps_raise keeps_lift keeps_external
  keeps_get_from_cache keeps_set_cache : keeps.

Ltac keeps_step :=
  match goal with
  | |- keeps_mode (bind _ _) => apply keeps_bind; [|intros ?]
  | |- keeps_mode (try_except _ _) => apply keeps_try; [|intros ?]
  | |- keeps_mode (if ?c then _ else _) => destruct c
  | |- keeps_mode (match ?x with _ => _ end) => destruct x
  | |- keeps_mode _ => solve [auto with keeps]
  end.

Section StagesKeepMode.
Variable E : collaborators.

Lemma keeps_ocr_pages doc : forall text, keeps_mode (ocr_pages E doc text).
Proof.
  induction doc as [|page rest IH]; intros text; simpl.
  - apply keeps_ret.
  - repeat keeps_step.
Qed.

Lemma keeps_extract_text_from_pdf content :
  keeps_mode (extract_text_from_pdf E content).
Proof.
  unfold extract_text_from_pdf, extract_text_from_pdf_with_ocr.
  repeat keeps_step. apply keeps_ocr_pages.
Qed.

Lemma keeps_extract_text_from_resume filename content :
  keeps_mode (extract_text_from_resume E filename content).
Proof.
  pose proof (keeps_extract_text_from_pdf content).
  unfold extract_text_from_resume, extract_text_from_docx,
    extract_text_from_image.
  repeat keeps_step; assumption.
Qed.

Lemma keeps_transform raw_text :
  keeps_mode (transform_text_to_resume_data E raw_text).
Proof.
  unfold transform_text_to_resume_data. repeat keeps_step.
Qed.
End StagesKeepMode.

(** ** The whole-pipeline entry *)

Lemma is_not_None_true r : r <> PyNone -> is_not_None r = true.
Proof. destruct r; intros H; try reflexivity. now elim H. Qed.

Lemma get_from_cache_after key w :
  _get_from_cache key w = (Ret (cache_read key w), after w [CacheGet key]).
Proof. apply get_from_cache_eq. Qed.

Section Pipeline.
Variable E : collaborators.

(** A [full_parse] entry answers the call: one lookup and nothing else. *)
Lemma parse_resume_hit filename content w :
  is_not_None (cache_read (full_parse_key content) w) = true ->
  parse_resume E filename content w =
  (Ret (cache_read (full_parse_key content) w),
   after w [CacheGet (full_parse_key content)]).
Proof.
  intros Hhit. unfold parse_resume, bind.
  fold (full_parse_key content).
  rewrite get_from_cache_after, Hhit. reflexivity.
Qed.

(** On a miss the call is the two stages, then the write of what the
    transform gave. *)
Lemma parse_resume_miss filename content w :
  misses (full_parse_key content) w ->
  parse_resume E filename content w =
  (raw_text <- extract_text_from_resume E filename content ;;
   structured_data <- transform_text_to_resume_data E raw_text ;;
   _set_cache (full_parse_key content) structured_data ;;
   ret structured_data)
    (after w [CacheGet (full_parse_key content)]).
Proof.
  intros Hmiss. unfold parse_resume.
  fold (full_parse_key content). unfold bind at 1.
  rewrite get_from_cache_after, Hmiss. reflexivity.
Qed.

(** A returned result that is not [None] is what a lookup of the file's
    [full_parse] key gives afterwards. *)
Lemma parse_resume_stores filename content w r w1 :
  coherent w = true ->
  parse_resume E filename content w = (Ret r, w1) ->
  is_not_None r = true ->
  cache_read (full_parse_key content) w1 = r /\ coherent w1 = true.
Proof.
  intros Hco Hrun Hr.
  destruct (is_not_None (cache_read (full_parse_key content) w)) eqn:Hlook.
  - rewrite parse_resume_hit in Hrun by exact Hlook.
    injection Hrun as <- <-. split; [reflexivity | exact Hco].
  - rewrite parse_resume_miss in Hrun by exact Hlook.
    set (w0 := after w [CacheGet (full_parse_key content)]) in Hrun.
    unfold bind in Hrun.
    pose proof (keeps_extract_text_from_resume E filename content w0) as K1.
    unfold exec in K1.
    destruct (extract_text_from_resume E filename content w0)
      as [[raw|e] w2]; [|discriminate Hrun].
    pose proof (keeps_transform E raw w2) as K2. unfold exec in K2.
    destruct (transform_text_to_resume_data E raw w2)
      as [[sd|e] w3]; [|discriminate Hrun].
    cbn [snd] in K1, K2.
    assert (Hco3 : coherent w3 = true).
    { rewrite (coherent_mode w w3); [exact Hco|].
      rewrite K2, K1. reflexivity. }
    pose proof (cache_read_after_set (full_parse_key content) sd w3 Hco3)
      as Hread.
    pose proof (keeps_set_cache (full_parse_key content) sd w3) as K3.
    unfold exec in Hread, K3.
    destruct (_set_cache (full_parse_key content) sd w3) as [[[]|e] w4] eqn:Hset;
      [|rewrite set_cache_eq in Hset; discriminate Hset].
    cbn [snd] in Hread, K3. unfold ret in Hrun.
    injection Hrun as <- <-. split; [exact Hread|].
    rewrite (coherent_mode w3 w4); assumption.
Qed.

(** After a call that returned a result other than [None], any call for the
    same content, under any file name, is answered by the [full_parse]
    entry. *)
Lemma parse_resume_answered_from_cache filename filename' content w r w1 :
  coherent w = true ->
  parse_resume E filename content w = (Ret r, w1) ->
  r <> PyNone ->
  parse_resume E filename' content w1 =
  (Ret r, after w1 [CacheGet (full_parse_key content)]).
Proof.
  intros Hco Hrun Hr. apply is_not_None_true in Hr.
  destruct (parse_resume_stores _ _ _ _ _ Hco Hrun Hr) as [Hread _].
  rewrite parse_resume_hit; rewrite Hread; [reflexivity | exact Hr].
Qed.
End Pipeline.

(** C4 (amended). If [parse_resume(filename, content)] returns a result
    other than [None], with the remote tier disabled, or its reads raising,
    or its writes succeeding, then a second call returns the identical
    result, and all it does is look up the [full_parse] key of the content:
    it calls no collaborator of the extraction or transform stage, looks up
    no other key and writes nothing. *)
Theorem parse_resume_twice (E : collaborators) (filename : string)
        (content : bytes) (w w1 : world) (r : pyobj) :
  coherent w = true ->
  parse_resume E filename content w = (Ret r, w1) ->
  r <> PyNone ->
  result (parse_resume E filename content) w1 = Ret r
  /\ exec (parse_resume E filename content) w1
     = after w1 [CacheGet (full_parse_key content)]
  /\ events_of (parse_resume E filename content) w1
     = [CacheGet (full_parse_key content)].
Proof.
  intros Hco Hrun Hr.
  pose proof (parse_resume_answered_from_cache E filename filename content
                w r w1 Hco Hrun Hr) as H2.
  unfold result, exec, events_of, exec. rewrite H2. cbn [fst snd after trace].
  repeat split.
  rewrite skipn_app, Nat.sub_diag, skipn_all. reflexivity.
Qed.

(** C9 (amended). The [full_parse] key is the namespace and the fingerprint of
    the content, without the file name; once [parse_resume(F1, C)] has
    returned a result other than [None] (remote tier as in C4), the call
    [parse_resume(F2, C)] returns that result for every [F2], without running
    the extraction that [F2]'s extension selects. *)
Theorem parse_resume_ignores_filename (E : collaborators) (F1 F2 : string)
        (C : bytes) (w w1 : world) (r : pyobj) :
  coherent w = true ->
  parse_resume E F1 C w = (Ret r, w1) ->
  r <> PyNone ->
  full_parse_key C = ("full_parse:" ++ MD5.hexdigest C)%string
  /\ parse_resume E F2 C w1 = (Ret r, after w1 [CacheGet (full_parse_key C)]).
Proof.
  intros Hco Hrun Hr. split; [reflexivity|].
  exact (parse_resume_answered_from_cache E F1 F2 C w r w1 Hco Hrun Hr).
Qed.

(** C4, where it fails: the generation service answers [null], which
    [json.loads] turns into [None]. The first call returns [None] and stores
    it; a stored [None] reads as a miss, so the second call, with the same
    file, goes through both stages again and calls the service again. *)
Lemma parse_resume_twice_None :
  result (parse_resume (studio (answers "null")) "cv.txt" resume_bytes)
         (fresh None) = Ret PyNone
  /\ result (parse_resume (studio (answers "null")) "cv.txt" resume_bytes)
            (after_null_parse) = Ret PyNone
  /\ events_of (parse_resume (studio (answers "null")) "cv.txt" resume_bytes)
               (after_null_parse)
     = [CacheGet (full_parse_key resume_bytes);
        CacheGet (text_extract_key resume_bytes);
        CacheGet (openai_transform_key unsupported_file_format);
        ChatCompletion (build_prompt unsupported_file_format);
        CacheSet (openai_transform_key unsupported_file_format);
        CacheSet (full_parse_key resume_bytes)]
  /\ events_of (parse_resume (studio (answers "null")) "cv.txt" resume_bytes)
               (after_null_parse)
     <> [CacheGet (full_parse_key resume_bytes)].
Proof.
  assert (H : events_of
                (parse_resume (studio (answers "null")) "cv.txt" resume_bytes)
                (after_null_parse)
              = [CacheGet (full_parse_key resume_bytes);
                 CacheGet (text_extract_key resume_bytes);
                 CacheGet (openai_transform_key unsupported_file_format);
                 ChatCompletion (build_prompt unsupported_file_format);
                 CacheSet (openai_transform_key unsupported_file_format);
                 CacheSet (full_parse_key resume_bytes)])
    by (vm_compute; reflexivity).
  split; [vm_compute; reflexivity|].
  split; [vm_compute; reflexivity|].
  split; [exact H|].
  intros Heq. rewrite H in Heq.
  apply (f_equal (@length event)) in Heq. cbn [length] in Heq.
  discriminate Heq.
Qed.

(** C4 (amended) at work: a DOCX file, the service answering an empty
    object, the remote tier disabled. *)
Lemma parse_resume_twice_witness :
  coherent (fresh None) = true
  /\ parse_resume (studio (answers "{}")) "cv.docx" resume_bytes (fresh None)
     = (Ret (PyDict []), after_docx_parse)
  /\ PyDict [] <> PyNone
  /\ result (parse_resume (studio (answers "{}")) "cv.docx" resume_bytes)
            after_docx_parse = Ret (PyDict [])
  /\ exec (parse_resume (studio (answers "{}")) "cv.docx" resume_bytes)
          after_docx_parse
     = after after_docx_parse [CacheGet (full_parse_key resume_bytes)]
  /\ events_of (parse_resume (studio (answers "{}")) "cv.docx" resume_bytes)
               after_docx_parse
     = [CacheGet (full_parse_key resume_bytes)].
Proof.
  assert (Hrun : parse_resume (studio (answers "{}")) "cv.docx" resume_bytes
                   (fresh None) = (Ret (PyDict []), after_docx_parse))
    by (vm_compute; reflexivity).
  split; [reflexivity|]. split; [exact Hrun|]. split; [discriminate|].
  apply (parse_resume_twice (studio (answers "{}")) "cv.docx" resume_bytes
           (fresh None) after_docx_parse (PyDict []));
    [reflexivity | exact Hrun | discriminate].
Defined.

(** C9, where it fails: the first call, for the PDF file under the name
    [cv.txt], returns and stores [None], the service having answered [null]
    for the unsupported-format text; the second call, for the same bytes
    under the name [cv.pdf], finds no usable entry, extracts the text layer
    and returns another result. *)
Lemma parse_resume_other_filename_None :
  result (parse_resume (readers null_for_unsupported) "cv.txt" text_pdf)
         (fresh None) = Ret PyNone
  /\ result (parse_resume (readers null_for_unsupported) "cv.pdf" text_pdf)
            (exec (parse_resume (readers null_for_unsupported) "cv.txt"
                                text_pdf) (fresh None))
     = Ret (PyDict [])
  /\ PyDict [] <> PyNone.
Proof.
  split; [vm_compute; reflexivity|].
  split; [vm_compute; reflexivity|].
  discriminate.
Qed.

(** C9 (amended) at work: after the PDF file was parsed under the name
    [cv.pdf], the same bytes under the name [cv.txt] get the result of the
    PDF, although for [cv.txt] alone the extraction gives the
    unsupported-format text and the service then answers [null]. *)
Lemma parse_resume_ignores_filename_witness :
  coherent (fresh None) = true
  /\ parse_resume (readers null_for_unsupported) "cv.pdf" text_pdf
                  (fresh None)
     = (Ret (PyDict []), after_pdf_parse)
  /\ PyDict [] <> PyNone
  /\ result (parse_resume (readers null_for_unsupported) "cv.txt" text_pdf)
            (fresh None) = Ret PyNone
  /\ full_parse_key text_pdf
     = ("full_parse:" ++ MD5.hexdigest text_pdf)%string
  /\ parse_resume (readers null_for_unsupported) "cv.txt" text_pdf
                  after_pdf_parse
     = (Ret (PyDict []),
        after after_pdf_parse [CacheGet (full_parse_key text_pdf)]).
Proof.
  assert (Hrun : parse_resume (readers null_for_unsupported) "cv.pdf"
                   text_pdf (fresh None)
                 = (Ret (PyDict []), after_pdf_parse))
    by (vm_compute; reflexivity).
  split; [reflexivity|]. split; [exact Hrun|]. split; [discriminate|].
  split; [vm_compute; reflexivity|].
  apply (parse_resume_ignores_filename (readers null_for_unsupported)
           "cv.pdf" "cv.txt" text_pdf (fresh None) after_pdf_parse
           (PyDict []));
    [reflexivity | exact Hrun | discriminate].
Defined.

(** C1, at a failing input: the generation service is down while a text
    file, [cv.txt], is parsed. The extraction gives the unsupported-format
    text; the transform returns the error object and caches nothing under
    its own key, but [parse_resume] stores the error under the file's
    [full_parse] key; the next call for the file, made when the service
    answers again, returns the stored error from that entry and does not run
    the transform. *)
Theorem parse_resume_caches_error :
  result (parse_resume (readers service_down) "cv.txt" resume_bytes)
         (fresh None)
  = Ret (error_result connection_failure)
  /\ dict_get (openai_transform_key unsupported_file_format)
              (_cache after_failed_parse) = None
  /\ dict_get (full_parse_key resume_bytes) (_cache after_failed_parse)
     = Some (error_result connection_failure)
  /\ result (parse_resume (readers (answers "{}")) "cv.txt" resume_bytes)
            after_failed_parse
     = Ret (error_result connection_failure)
  /\ events_of (parse_resume (readers (answers "{}")) "cv.txt" resume_bytes)
               after_failed_parse
     = [CacheGet (full_parse_key resume_bytes)]
  /\ result (parse_resume (readers (answers "{}")) "cv.txt" resume_bytes)
            (fresh None)
     = Ret (PyDict []).
Proof.
  split; [|split; [|split; [|split; [|split]]]]; vm_compute; reflexivity.
Qed.

(** ** The transform stage *)

Lemma after_after w evs evs' : after (after w evs) evs' = after w (evs ++ evs').
Proof. unfold after. cbn [redis_client _cache trace]. now rewrite app_assoc. Qed.

Lemma misses_after key w evs : misses key w -> misses key (after w evs).
Proof. intros H. exact H. Qed.

Lemma transform_failure (E : collaborators) (raw : string) (w : world)
      (e : exn) :
  misses (openai_transform_key raw) w ->
  chat_completions_create E (build_prompt raw) = Raise e
  \/ (exists content,
        chat_completions_create E (build_prompt raw) = Ret content
        /\ json_loads E (strip content) = Raise e) ->
  transform_text_to_resume_data E (PyStr raw) w
  = (Ret (error_result e), after w (failed_transform_events raw)).
Proof.
  intros Hmiss Hfail.
  unfold transform_text_to_resume_data. fold (openai_transform_key raw).
  unfold bind at 1. rewrite get_from_cache_after, Hmiss.
  unfold try_except, external, bind, observe, lift, ret.
  cbn [redis_client _cache trace after].
  destruct Hfail as [Hc | [content [Hc Hj]]].
  - rewrite Hc. unfold after, failed_transform_events.
    now rewrite <- app_assoc.
  - rewrite Hc, Hj. unfold after, failed_transform_events.
    now rewrite <- app_assoc.
Qed.

(** C5. When the lookup of the text's [openai_transform] key misses and the
    structured-generation call raises, or its response does not parse as
    JSON, [transform_text_to_resume_data] returns [{"error": str(e)}] and
    leaves both tiers as they were: all it did was the lookup and the call.
    The next invocation with the same text does the same lookup and calls
    the service again. *)
Theorem transform_error_not_cached (E : collaborators) (raw : string)
        (w : world) (e : exn) :
  misses (openai_transform_key raw) w ->
  chat_completions_create E (build_prompt raw) = Raise e
  \/ (exists content,
        chat_completions_create E (build_prompt raw) = Ret content
        /\ json_loads E (strip content) = Raise e) ->
  transform_text_to_resume_data E (PyStr raw) w
  = (Ret (PyDict [("error", PyStr (exn_str e))]),
     World (redis_client w) (_cache w)
           (trace w ++ failed_transform_events raw))
  /\ events_of (transform_text_to_resume_data E (PyStr raw))
               (exec (transform_text_to_resume_data E (PyStr raw)) w)
     = failed_transform_events raw
  /\ result (transform_text_to_resume_data E (PyStr raw))
            (exec (transform_text_to_resume_data E (PyStr raw)) w)
     = Ret (PyDict [("error", PyStr (exn_str e))]).
Proof.
  intros Hmiss Hfail.
  pose proof (transform_failure E raw w e Hmiss Hfail) as H1.
  pose proof (transform_failure E raw (after w (failed_transform_events raw))
                e (misses_after _ _ _ Hmiss) Hfail) as H2.
  split; [exact H1|].
  unfold events_of, result, exec. rewrite H1. cbn [snd]. rewrite H2.
  cbn [fst snd after trace redis_client _cache]. split; [|reflexivity].
  rewrite skipn_app, Nat.sub_diag, skipn_all. reflexivity.
Qed.

(** C5 at work: a service that is down, and a service that answers prose. *)
Lemma transform_error_not_cached_witness :
  (misses (openai_transform_key "Jane Doe") (fresh None)
   /\ chat_completions_create (studio service_down) (build_prompt "Jane Doe")
      = Raise connection_failure
   /\ result (transform_text_to_resume_data (studio service_down)
                (PyStr "Jane Doe"))
             (exec (transform_text_to_resume_data (studio service_down)
                      (PyStr "Jane Doe")) (fresh None))
      = Ret (PyDict [("error", PyStr "Connection error.")]))
  /\ (json_loads (studio (answers "Sorry, no.")) (strip "Sorry, no.")
      = Raise (Exn "JSONDecodeError"
                   "Expecting value: line 1 column 1 (char 0)")
      /\ events_of (transform_text_to_resume_data
                      (studio (answers "Sorry, no.")) (PyStr "Jane Doe"))
                   (exec (transform_text_to_resume_data
                            (studio (answers "Sorry, no."))
                            (PyStr "Jane Doe")) (fresh None))
         = failed_transform_events "Jane Doe").
Proof.
  split.
  - split; [reflexivity|]. split; [reflexivity|].
    apply (transform_error_not_cached (studio service_down) "Jane Doe"
             (fresh None) connection_failure); [reflexivity|].
    left. reflexivity.
  - split; [vm_compute; reflexivity|].
    apply (transform_error_not_cached (studio (answers "Sorry, no."))
             "Jane Doe" (fresh None)
             (Exn "JSONDecodeError"
                  "Expecting value: line 1 column 1 (char 0)"));
      [reflexivity|].
    right. exists "Sorry, no.". split; [reflexivity|].
    vm_compute; reflexivity.
Defined.

(** ** The extraction stage *)

Lemma extract_miss (E : collaborators) filename content w :
  misses (text_extract_key content) w ->
  extract_text_from_resume E filename content w =
  (let ext := extension filename in
   if String.eqb ext ".pdf" then
     cached_under (text_extract_key content) (extract_text_from_pdf E content)
   else if String.eqb ext ".docx" then
     cached_under (text_extract_key content) (extract_text_from_docx E content)
   else if existsb (String.eqb ext) [".png"; ".jpg"; ".jpeg"] then
     cached_under (text_extract_key content)
                  (extract_text_from_image E content)
   else ret (PyStr unsupported_file_format))
    (after w [CacheGet (text_extract_key content)]).
Proof.
  intros Hmiss. unfold extract_text_from_resume.
  fold (text_extract_key content). unfold bind at 1.
  rewrite get_from_cache_after, Hmiss. reflexivity.
Qed.

Lemma extract_hit (E : collaborators) filename content w :
  is_not_None (cache_read (text_extract_key content) w) = true ->
  extract_text_from_resume E filename content w
  = (Ret (cache_read (text_extract_key content) w),
     after w [CacheGet (text_extract_key content)]).
Proof.
  intros Hhit. unfold extract_text_from_resume.
  fold (text_extract_key content). unfold bind.
  rewrite get_from_cache_after, Hhit. reflexivity.
Qed.

(** C6 (amended). A usable [text_extract] entry for the content is returned
    whatever the file name. When there is none, a file name whose lower-cased
    extension is none of [.pdf], [.docx], [.png], [.jpg], [.jpeg] gets the
    text ["Unsupported file format."]: the call returns, calls no
    collaborator and caches nothing. With [.pdf] the call is the PDF
    extraction, with [.docx] the DOCX extraction, with [.png], [.jpg] or
    [.jpeg] the image extraction, each followed by the write of its text
    under the [text_extract] key. *)
Theorem extract_dispatch (E : collaborators) (filename : string)
        (content : bytes) (w : world) :
  (is_not_None (cache_read (text_extract_key content) w) = true ->
   extract_text_from_resume E filename content w
   = (Ret (cache_read (text_extract_key content) w),
      after w [CacheGet (text_extract_key content)]))
  /\ (misses (text_extract_key content) w ->
      (~ In (extension filename) recognized ->
       extract_text_from_resume E filename content w
       = (Ret (PyStr "Unsupported file format."),
          after w [CacheGet (text_extract_key content)]))
      /\ (extension filename = ".pdf" ->
          extract_text_from_resume E filename content w
          = cached_under (text_extract_key content)
                         (extract_text_from_pdf E content)
                         (after w [CacheGet (text_extract_key content)]))
      /\ (extension filename = ".docx" ->
          extract_text_from_resume E filename content w
          = cached_under (text_extract_key content)
                         (extract_text_from_docx E content)
                         (after w [CacheGet (text_extract_key content)]))
      /\ (In (extension filename) [".png"; ".jpg"; ".jpeg"] ->
          extract_text_from_resume E filename content w
          = cached_under (text_extract_key content)
                         (extract_text_from_image E content)
                         (after w [CacheGet (text_extract_key content)]))).
Proof.
  split; [apply extract_hit|].
  intros Hmiss. rewrite (extract_miss E filename content w Hmiss).
  cbv zeta. generalize (extension filename) as ext. intros ext.
  repeat split.
  - intros Hn. unfold recognized in Hn.
    assert (H1 : String.eqb ext ".pdf" = false).
    { apply String.eqb_neq. intros ->. apply Hn. simpl. tauto. }
    assert (H2 : String.eqb ext ".docx" = false).
    { apply String.eqb_neq. intros ->. apply Hn. simpl. tauto. }
    assert (H3 : existsb (String.eqb ext) [".png"; ".jpg"; ".jpeg"] = false).
    { destruct (existsb (String.eqb ext) [".png"; ".jpg"; ".jpeg"]) eqn:Hex;
        [|reflexivity].
      apply existsb_exists in Hex. destruct Hex as [x [Hin Heq]].
      apply String.eqb_eq in Heq. subst x. exfalso. apply Hn.
      simpl in Hin |- *. tauto. }
    rewrite H1, H2, H3. reflexivity.
  - intros ->. reflexivity.
  - intros ->. reflexivity.
  - intros Hin.
    assert (H3 : existsb (String.eqb ext) [".png"; ".jpg"; ".jpeg"] = true).
    { apply existsb_exists. exists ext. split; [exact Hin|].
      apply String.eqb_refl. }
    rewrite H3.
    destruct Hin as [<-|[<-|[<-|[]]]]; reflexivity.
Qed.

(** C6, where it fails: the PDF file was extracted before under the name
    [cv.pdf]; under the name [cv.txt] the call for the same bytes returns
    the cached text of the PDF, not the unsupported-format text. *)
Lemma extract_unsupported_cached :
  extension "cv.txt" = ".txt"
  /\ result (extract_text_from_resume (readers service_down) "cv.pdf"
                                      text_pdf) (fresh None)
     = Ret (PyStr "Jane Doe")
  /\ result (extract_text_from_resume (readers service_down) "cv.txt"
                                      text_pdf) after_pdf_extract
     = Ret (PyStr "Jane Doe")
  /\ result (extract_text_from_resume (readers service_down) "cv.txt"
                                      text_pdf) after_pdf_extract
     <> Ret (PyStr "Unsupported file format.").
Proof.
  split; [reflexivity|]. split; [vm_compute; reflexivity|].
  split; [vm_compute; reflexivity|].
  intros H. vm_compute in H. discriminate H.
Qed.

(** C6 (amended) at work, in a process that has just started: [notes.txt] is
    unsupported, the PDF file under the name [CV.PDF] goes to the PDF
    extraction and its text layer is returned. *)
Lemma extract_dispatch_witness :
  misses (text_extract_key resume_bytes) (fresh None)
  /\ ~ In (extension "notes.txt") recognized
  /\ extract_text_from_resume (readers service_down) "notes.txt" resume_bytes
                              (fresh None)
     = (Ret (PyStr "Unsupported file format."),
        after (fresh None) [CacheGet (text_extract_key resume_bytes)])
  /\ misses (text_extract_key text_pdf) (fresh None)
  /\ extension "CV.PDF" = ".pdf"
  /\ extract_text_from_resume (readers service_down) "CV.PDF" text_pdf
                              (fresh None)
     = cached_under (text_extract_key text_pdf)
                    (extract_text_from_pdf (readers service_down) text_pdf)
                    (after (fresh None)
                           [CacheGet (text_extract_key text_pdf)])
  /\ result (extract_text_from_resume (readers service_down) "CV.PDF"
                                      text_pdf) (fresh None)
     = Ret (PyStr "Jane Doe").
Proof.
  assert (Hmiss : misses (text_extract_key resume_bytes) (fresh None))
    by reflexivity.
  assert (Hmiss' : misses (text_extract_key text_pdf) (fresh None))
    by reflexivity.
  assert (Hno : ~ In (extension "notes.txt") recognized).
  { vm_compute. intros [H|[H|[H|[H|[H|[]]]]]]; discriminate H. }
  pose proof (proj2 (extract_dispatch (readers service_down) "notes.txt"
                      resume_bytes (fresh None)) Hmiss) as [Hunsupported _].
  pose proof (proj2 (extract_dispatch (readers service_down) "CV.PDF"
                      text_pdf (fresh None)) Hmiss') as [_ [Hpdf _]].
  split; [exact Hmiss|]. split; [exact Hno|].
  split; [exact (Hunsupported Hno)|]. split; [exact Hmiss'|].
  split; [reflexivity|]. split; [exact (Hpdf eq_refl)|].
  vm_compute; reflexivity.
Defined.

(** The two PDF files of the worked inputs, by their fingerprints. *)
Example text_pdf_fingerprint :
  _get_file_hash text_pdf = "fa2be85c51706c3d35e84fe6e5b8f990"
  /\ length text_pdf = 586.
Proof. split; vm_compute; reflexivity. Qed.

Example blank_pdf_fingerprint :
  _get_file_hash blank_pdf = "50a97305c1a606d7ae54b4505e0a2246"
  /\ length blank_pdf = 329.
Proof. split; vm_compute; reflexivity. Qed.

(** ** The OCR fall-back of the PDF extraction *)

Lemma append_nil_r (s : string) : (s ++ "")%string = s.
Proof. induction s as [|a s IH]; simpl; [reflexivity | now rewrite IH]. Qed.

Lemma append_assoc (s1 s2 s3 : string) :
  ((s1 ++ s2) ++ s3)%string = (s1 ++ (s2 ++ s3))%string.
Proof. induction s1 as [|a s1 IH]; simpl; [reflexivity | now rewrite IH]. Qed.

Lemma concat_empty_cons (x : string) (xs : list string) :
  String.concat "" (x :: xs) = (x ++ String.concat "" xs)%string.
Proof.
  destruct xs as [|y ys]; simpl; [now rewrite append_nil_r | reflexivity].
Qed.

(** The text layer is the texts of the pages, one after the other, a page
    without text adding nothing. *)
Lemma text_layer_concat (pages : list (option string)) :
  text_layer pages
  = String.concat ""
      (map (fun page => match page with Some t => t | None => "" end) pages).
Proof.
  unfold text_layer.
  assert (H : forall text,
            fold_left
              (fun text page =>
                 (text ++ match page with Some t => t | None => "" end)%string)
              pages text
            = (text ++ String.concat ""
                 (map (fun page => match page with Some t => t | None => "" end)
                      pages))%string).
  { induction pages as [|page pages IH]; intros text.
    - simpl. now rewrite append_nil_r.
    - cbn [fold_left map]. rewrite IH, concat_empty_cons.
      now rewrite append_assoc. }
  exact (H "").
Qed.

Lemma events_of_app {A} (m : py A) w evs :
  trace (exec m w) = trace w ++ evs -> events_of m w = evs.
Proof.
  intros H. unfold events_of. rewrite H.
  now rewrite skipn_app, Nat.sub_diag, skipn_all.
Qed.

Section OcrFallback.
Variable E : collaborators.

Lemma ocr_pages_trace doc :
  forall text w,
    exists evs, trace (exec (ocr_pages E doc text) w) = trace w ++ evs.
Proof.
  induction doc as [|page rest IH]; intros text w.
  - exists []. simpl. now rewrite app_nil_r.
  - simpl. unfold exec, external, bind, observe, lift.
    cbn [redis_client _cache trace].
    destruct (get_pixmap E page) as [img|e].
    + destruct (readtext E img) as [lines|e].
      * match goal with
        | |- context [ocr_pages E rest ?t ?w'] =>
            destruct (IH t w') as [evs Hevs]
        end.
        unfold exec in Hevs. rewrite Hevs. cbn [trace].
        rewrite <- !app_assoc. eauto.
      * cbn [snd trace]. rewrite <- app_assoc. eauto.
    + cbn [snd trace]. eauto.
Qed.

Lemma with_ocr_trace content w :
  exists evs,
    trace (exec (extract_text_from_pdf_with_ocr E content) w)
    = trace w ++ FitzOpen content :: evs.
Proof.
  unfold extract_text_from_pdf_with_ocr, exec, external, bind, observe, lift.
  cbn [redis_client _cache trace].
  destruct (fitz_open E content) as [doc|e].
  - match goal with
    | |- context [ocr_pages E doc ?t ?w'] =>
        destruct (ocr_pages_trace doc t w') as [evs Hevs]
    end.
    unfold exec in Hevs. rewrite Hevs. cbn [trace].
    rewrite <- app_assoc. exists evs. reflexivity.
  - cbn [snd trace]. exists []. reflexivity.
Qed.

Lemma keeps_with_ocr content :
  keeps_mode (extract_text_from_pdf_with_ocr E content).
Proof.
  unfold extract_text_from_pdf_with_ocr. repeat keeps_step.
  apply keeps_ocr_pages.
Qed.

Variables (content : bytes) (pages : list (option string)).
Hypothesis Hpages : pdfplumber_pages E content = Ret pages.

Lemma pdf_with_text w :
  blank (text_layer pages) = false ->
  extract_text_from_pdf E content w
  = (Ret (PyStr (text_layer pages)), after w [PdfTextLayer content]).
Proof.
  intros Hb. unfold extract_text_from_pdf, external, bind, observe, lift.
  rewrite Hpages. fold (blank (text_layer pages)). rewrite Hb. reflexivity.
Qed.

Lemma pdf_blank_hit w :
  blank (text_layer pages) = true ->
  is_not_None (cache_read (pdf_ocr_key content) w) = true ->
  extract_text_from_pdf E content w
  = (Ret (cache_read (pdf_ocr_key content) w),
     after w [PdfTextLayer content; CacheGet (pdf_ocr_key content)]).
Proof.
  intros Hb Hhit. unfold extract_text_from_pdf, external, bind, observe, lift.
  rewrite Hpages. fold (blank (text_layer pages)). rewrite Hb.
  fold (pdf_ocr_key content). rewrite get_from_cache_after.
  cbn [cache_read redis_client _cache]. unfold cache_read in Hhit.
  unfold cache_read. cbn [redis_client _cache]. rewrite Hhit.
  unfold ret, after. cbn [redis_client _cache trace].
  now rewrite <- app_assoc.
Qed.

Lemma pdf_blank_miss w :
  blank (text_layer pages) = true ->
  misses (pdf_ocr_key content) w ->
  extract_text_from_pdf E content w
  = (text' <- extract_text_from_pdf_with_ocr E content ;;
     _set_cache (pdf_ocr_key content) (PyStr text') ;;
     ret (PyStr text'))
      (after w [PdfTextLayer content; CacheGet (pdf_ocr_key content)]).
Proof.
  intros Hb Hmiss. unfold extract_text_from_pdf.
  unfold external at 1. unfold bind at 1 2. unfold observe, lift.
  rewrite Hpages. fold (blank (text_layer pages)). rewrite Hb.
  fold (pdf_ocr_key content). unfold bind at 1.
  rewrite get_from_cache_after.
  unfold misses, cache_read in Hmiss.
  unfold cache_read. cbn [redis_client _cache]. rewrite Hmiss.
  unfold after. cbn [redis_client _cache trace].
  now rewrite <- app_assoc.
Qed.

Lemma pdf_blank_miss_trace w :
  blank (text_layer pages) = true ->
  misses (pdf_ocr_key content) w ->
  exists evs,
    trace (exec (extract_text_from_pdf E content) w)
    = trace w ++ PdfTextLayer content :: CacheGet (pdf_ocr_key content)
              :: FitzOpen content :: evs.
Proof.
  intros Hb Hmiss. unfold exec. rewrite (pdf_blank_miss w Hb Hmiss).
  set (w0 := after w [PdfTextLayer content; CacheGet (pdf_ocr_key content)]).
  destruct (with_ocr_trace content w0) as [evs Hevs]. unfold exec in Hevs.
  unfold bind.
  destruct (extract_text_from_pdf_with_ocr E content w0) as [[t|e] w2].
  - rewrite set_cache_eq. cbn [snd trace ret] in *. rewrite Hevs.
    subst w0. cbn [after trace]. exists (evs ++ [CacheSet (pdf_ocr_key content)]).
    rewrite <- !app_assoc. reflexivity.
  - cbn [snd] in *. rewrite Hevs. subst w0. cbn [after trace].
    exists evs. rewrite <- !app_assoc. reflexivity.
Qed.
End OcrFallback.

Lemma namespaces_differ content :
  pdf_ocr_key content <> text_extract_key content.
Proof. unfold pdf_ocr_key, text_extract_key. simpl. discriminate. Qed.

(** C7 (amended). Let the text-layer pass over a PDF return its pages; the
    text layer is their texts concatenated. The OCR sub-stage, which starts
    with the lookup of the content's [pdf_ocr] key, is entered exactly when
    that text is empty or whitespace-only; recognition then starts exactly
    when the lookup misses. A text layer with content is returned as it is.
    When recognition runs and returns, its text is returned and stored under
    the [pdf_ocr] key, a key that differs from the [text_extract] key; and
    when the remote tier is disabled, or its reads raise, or its writes
    succeed, the next call on the content returns that text after the
    text-layer pass and the lookup alone. *)
Theorem pdf_ocr_fallback (E : collaborators) (content : bytes)
        (pages : list (option string)) (w : world) :
  pdfplumber_pages E content = Ret pages ->
  (In (CacheGet (pdf_ocr_key content))
      (events_of (extract_text_from_pdf E content) w)
   <-> blank (text_layer pages) = true)
  /\ (In (FitzOpen content) (events_of (extract_text_from_pdf E content) w)
      <-> blank (text_layer pages) = true /\ misses (pdf_ocr_key content) w)
  /\ (blank (text_layer pages) = false ->
      extract_text_from_pdf E content w
      = (Ret (PyStr (text_layer pages)), after w [PdfTextLayer content]))
  /\ (forall ocr_text w2,
        blank (text_layer pages) = true ->
        misses (pdf_ocr_key content) w ->
        extract_text_from_pdf_with_ocr E content
          (after w [PdfTextLayer content; CacheGet (pdf_ocr_key content)])
        = (Ret ocr_text, w2) ->
        extract_text_from_pdf E content w
        = (Ret (PyStr ocr_text),
           exec (_set_cache (pdf_ocr_key content) (PyStr ocr_text)) w2)
        /\ dict_get (pdf_ocr_key content)
                    (_cache (exec (_set_cache (pdf_ocr_key content)
                                              (PyStr ocr_text)) w2))
           = Some (PyStr ocr_text)
        /\ (coherent w = true ->
            extract_text_from_pdf E content
              (exec (_set_cache (pdf_ocr_key content) (PyStr ocr_text)) w2)
            = (Ret (PyStr ocr_text),
               after (exec (_set_cache (pdf_ocr_key content)
                                       (PyStr ocr_text)) w2)
                     [PdfTextLayer content;
                      CacheGet (pdf_ocr_key content)])))
  /\ pdf_ocr_key content <> text_extract_key content
  /\ text_layer pages
     = String.concat ""
         (map (fun page => match page with Some t => t | None => "" end)
              pages).
Proof.
  intros Hpages.
  assert (Hev :
    (blank (text_layer pages) = false
     /\ events_of (extract_text_from_pdf E content) w = [PdfTextLayer content])
    \/ (blank (text_layer pages) = true
        /\ is_not_None (cache_read (pdf_ocr_key content) w) = true
        /\ events_of (extract_text_from_pdf E content) w
           = [PdfTextLayer content; CacheGet (pdf_ocr_key content)])
    \/ (blank (text_layer pages) = true
        /\ misses (pdf_ocr_key content) w
        /\ exists evs,
             events_of (extract_text_from_pdf E content) w
             = PdfTextLayer content :: CacheGet (pdf_ocr_key content)
                 :: FitzOpen content :: evs)).
  { destruct (blank (text_layer pages)) eqn:Hb.
    - destruct (is_not_None (cache_read (pdf_ocr_key content) w)) eqn:Hlook.
      + right. left. repeat split. apply events_of_app. unfold exec.
        rewrite (pdf_blank_hit E content pages Hpages w Hb Hlook).
        reflexivity.
      + right. right. repeat split; [exact Hlook|].
        destruct (pdf_blank_miss_trace E content pages Hpages w Hb Hlook)
          as [evs Hevs].
        exists evs. now apply events_of_app.
    - left. split; [reflexivity|]. apply events_of_app. unfold exec.
      rewrite (pdf_with_text E content pages Hpages w Hb). reflexivity. }
  split; [|split; [|split; [|split; [|split]]]].
  - destruct Hev as [[Hb Hev]|[[Hb [_ Hev]]|[Hb [_ [evs Hev]]]]];
      rewrite Hev, Hb; simpl; split; intros H;
      try reflexivity; try discriminate H; try tauto.
    destruct H as [H|[]]. discriminate H.
  - unfold misses.
    destruct Hev as [[Hb Hev]|[[Hb [Hlook Hev]]|[Hb [Hlook [evs Hev]]]]];
      rewrite Hev, Hb; simpl; split; intros H.
    + destruct H as [H|[]]. discriminate H.
    + destruct H as [H _]. discriminate H.
    + destruct H as [H|[H|[]]]; discriminate H.
    + destruct H as [_ H]. rewrite Hlook in H. discriminate H.
    + split; [reflexivity | exact Hlook].
    + tauto.
  - intros Hb. exact (pdf_with_text E content pages Hpages w Hb).
  - intros ocr_text w2 Hb Hmiss Hocr.
    set (key := pdf_ocr_key content) in *.
    assert (Hrun : extract_text_from_pdf E content w
                   = (Ret (PyStr ocr_text),
                      exec (_set_cache key (PyStr ocr_text)) w2)).
    { rewrite (pdf_blank_miss E content pages Hpages w Hb Hmiss).
      fold key. unfold bind. rewrite Hocr. unfold exec.
      rewrite set_cache_eq. reflexivity. }
    split; [exact Hrun|]. split.
    + rewrite cache_after_set. apply dict_get_set_same.
    + intros Hco.
      assert (Hco2 : coherent w2 = true).
      { pose proof (keeps_with_ocr E content
                      (after w [PdfTextLayer content; CacheGet key])) as K.
        unfold exec in K. rewrite Hocr in K. cbn [snd] in K.
        rewrite (coherent_mode _ _ K). exact Hco. }
      pose proof (cache_read_after_set key (PyStr ocr_text) w2 Hco2) as Hread.
      rewrite (pdf_blank_hit E content pages Hpages _ Hb);
        fold key; rewrite Hread; reflexivity.
  - apply namespaces_differ.
  - apply text_layer_concat.
Qed.

(** C7, where it fails: the remote server answers reads, refuses writes and
    holds the pickle of [None] under the [pdf_ocr] key of a PDF with an
    empty page. The first call runs the recognition and stores its text, in
    the process only; the lookup of the next call is answered by the remote
    [None], and the recognition runs again. *)
Lemma pdf_ocr_runs_again :
  blank (text_layer [Some ""]) = true
  /\ result (extract_text_from_pdf (readers service_down) blank_pdf)
            refusing_remote = Ret (PyStr nl)
  /\ dict_get (pdf_ocr_key blank_pdf) (_cache after_refused_scan)
     = Some (PyStr nl)
  /\ result (extract_text_from_pdf (readers service_down) blank_pdf)
            after_refused_scan = Ret (PyStr nl)
  /\ events_of (extract_text_from_pdf (readers service_down) blank_pdf)
               after_refused_scan
     = [PdfTextLayer blank_pdf; CacheGet (pdf_ocr_key blank_pdf);
        FitzOpen blank_pdf; GetPixmap blank_pdf; ReadText blank_pdf;
        CacheSet (pdf_ocr_key blank_pdf)]
  /\ events_of (extract_text_from_pdf (readers service_down) blank_pdf)
               after_refused_scan
     <> [PdfTextLayer blank_pdf; CacheGet (pdf_ocr_key blank_pdf)].
Proof.
  assert (H : events_of (extract_text_from_pdf (readers service_down)
                           blank_pdf) after_refused_scan
              = [PdfTextLayer blank_pdf; CacheGet (pdf_ocr_key blank_pdf);
                 FitzOpen blank_pdf; GetPixmap blank_pdf; ReadText blank_pdf;
                 CacheSet (pdf_ocr_key blank_pdf)])
    by (vm_compute; reflexivity).
  split; [vm_compute; reflexivity|]. split; [vm_compute; reflexivity|].
  split; [vm_compute; reflexivity|]. split; [vm_compute; reflexivity|].
  split; [exact H|].
  intros Heq. rewrite H in Heq.
  apply (f_equal (@length event)) in Heq. cbn [length] in Heq.
  discriminate Heq.
Qed.

(** C7 (amended) at work, in a process that has just started: the PDF with
    an empty page takes the fall-back, and a second call is answered from
    the [pdf_ocr] entry; the PDF with a text layer is returned as it
    reads. *)
Lemma pdf_ocr_fallback_witness :
  pdfplumber_pages (readers service_down) blank_pdf = Ret [Some ""]
  /\ blank (text_layer [Some ""]) = true
  /\ In (FitzOpen blank_pdf)
        (events_of (extract_text_from_pdf (readers service_down) blank_pdf)
                   (fresh None))
  /\ extract_text_from_pdf (readers service_down) blank_pdf (fresh None)
     = (Ret (PyStr nl), after_blank_scan)
  /\ extract_text_from_pdf (readers service_down) blank_pdf after_blank_scan
     = (Ret (PyStr nl),
        after after_blank_scan
              [PdfTextLayer blank_pdf; CacheGet (pdf_ocr_key blank_pdf)])
  /\ pdfplumber_pages (readers service_down) text_pdf
     = Ret [Some "Jane Doe"]
  /\ extract_text_from_pdf (readers service_down) text_pdf (fresh None)
     = (Ret (PyStr "Jane Doe"), after (fresh None) [PdfTextLayer text_pdf]).
Proof.
  assert (Hpages : pdfplumber_pages (readers service_down) blank_pdf
                   = Ret [Some ""]) by (vm_compute; reflexivity).
  assert (Hb : blank (text_layer [Some ""]) = true) by reflexivity.
  assert (Hmiss : misses (pdf_ocr_key blank_pdf) (fresh None))
    by reflexivity.
  destruct (pdf_ocr_fallback (readers service_down) blank_pdf
              [Some ""] (fresh None) Hpages)
    as [_ [Hrecognition [_ [Hocr _]]]].
  assert (Hwith :
    extract_text_from_pdf_with_ocr (readers service_down) blank_pdf
      (after (fresh None)
             [PdfTextLayer blank_pdf; CacheGet (pdf_ocr_key blank_pdf)])
    = (Ret nl,
       exec (extract_text_from_pdf_with_ocr (readers service_down) blank_pdf)
            (after (fresh None)
                   [PdfTextLayer blank_pdf;
                    CacheGet (pdf_ocr_key blank_pdf)])))
    by (vm_compute; reflexivity).
  destruct (Hocr _ _ Hb Hmiss Hwith) as [Hrun [_ Hnext]].
  assert (Hstate :
    exec (_set_cache (pdf_ocr_key blank_pdf) (PyStr nl))
         (exec (extract_text_from_pdf_with_ocr (readers service_down)
                  blank_pdf)
               (after (fresh None)
                      [PdfTextLayer blank_pdf;
                       CacheGet (pdf_ocr_key blank_pdf)]))
    = after_blank_scan) by (vm_compute; reflexivity).
  rewrite Hstate in Hrun, Hnext.
  assert (Htext : pdfplumber_pages (readers service_down) text_pdf
                  = Ret [Some "Jane Doe"]) by (vm_compute; reflexivity).
  destruct (pdf_ocr_fallback (readers service_down) text_pdf
              [Some "Jane Doe"] (fresh None) Htext)
    as [_ [_ [Hlayer _]]].
  split; [exact Hpages|]. split; [exact Hb|].
  split; [apply Hrecognition; split; assumption|].
  split; [exact Hrun|]. split; [exact (Hnext eq_refl)|].
  split; [exact Htext | exact (Hlayer eq_refl)].
Defined.

(** ** Fingerprints *)

Lemma hexchar_hexdigit n : In (MD5.hexchar n) hexdigits.
Proof.
  unfold MD5.hexchar, hexdigits.
  assert (H : Z.to_nat (n mod 16) < 16).
  { pose proof (Z.mod_pos_bound n 16 ltac:(lia)). lia. }
  revert H. generalize (Z.to_nat (n mod 16)) as k. intros k H.
  do 16 (destruct k as [|k]; [simpl; tauto|]). lia.
Qed.

Lemma hexdigest_shape msg :
  String.length (MD5.hexdigest msg) = 32
  /\ Forall (fun a => In a hexdigits)
            (list_ascii_of_string (MD5.hexdigest msg)).
Proof.
  unfold MD5.hexdigest. generalize (MD5.digest_regs msg) as r. intros r.
  cbv zeta.
  cbn [MD5.hexword_le MD5.hexbyte append String.length list_ascii_of_string].
  split; [reflexivity|].
  repeat (constructor; [apply hexchar_hexdigit|]). constructor.
Qed.

(** C8 (amended). The fingerprint is a function of the payload: identical
    payloads have identical fingerprints. It is the MD5 digest written as 32
    lower-case hexadecimal digits, for a text the digest of its UTF-8 bytes;
    distinct payloads are not promised distinct fingerprints. *)
Theorem fingerprint_deterministic (P1 P2 : bytes) :
  (P1 = P2 -> _get_file_hash P1 = _get_file_hash P2)
  /\ String.length (_get_file_hash P1) = 32
  /\ Forall (fun a => In a hexdigits)
            (list_ascii_of_string (_get_file_hash P1))
  /\ (forall text,
        _get_text_hash text = _get_file_hash (list_byte_of_string text)).
Proof.
  split; [intros ->; reflexivity|].
  split; [apply hexdigest_shape|].
  split; [apply hexdigest_shape | reflexivity].
Qed.

(** C8, where it fails: two payloads of 128 bytes that differ in six bytes
    and have the same fingerprint. *)
Lemma fingerprint_collision :
  payload_1 <> payload_2
  /\ _get_file_hash payload_1 = "79054025255fb1a26e4bc422aef54eb4"
  /\ _get_file_hash payload_2 = "79054025255fb1a26e4bc422aef54eb4"
  /\ _get_file_hash payload_1 = _get_file_hash payload_2.
Proof.
  split.
  - intros H. apply (f_equal (fun l => nth 19 l x00)) in H.
    vm_compute in H. discriminate H.
  - split; [|split]; vm_compute; reflexivity.
Qed.

Lemma key_of_length n : String.length (key_of n) = n.
Proof.
  unfold key_of. induction n as [|n IH]; simpl; [reflexivity|].
  now rewrite IH.
Qed.

Lemma numbered_distinct : NoDup (map fst numbered).
Proof.
  unfold numbered. rewrite map_map. cbn [fst].
  generalize (seq_NoDup (S _max_cache_size) 0).
  generalize (seq 0 (S _max_cache_size)) as l.
  induction l as [|n l IH]; intros Hl; simpl; [constructor|].
  inversion Hl as [|? ? Hn Hrest]; subst.
  constructor; [|now apply IH].
  intros Hin. apply in_map_iff in Hin. destruct Hin as [m [Hm Hin]].
  apply (f_equal String.length) in Hm. rewrite !key_of_length in Hm.
  subst m. contradiction.
Qed.

(** C2 at work: 1001 entries with distinct keys, set one after the other in
    a process that has just started. *)
Lemma set_cache_capacity_witness :
  NoDup (map fst numbered)
  /\ length numbered = S _max_cache_size
  /\ length (_cache (run_sets numbered (fresh None))) <= _max_cache_size
  /\ _cache (run_sets numbered (fresh None))
     = skipn (_max_cache_size / 4) numbered
  /\ length (_cache (run_sets numbered (fresh None))) < _max_cache_size.
Proof.
  assert (Hlen : length numbered = S _max_cache_size).
  { unfold numbered. now rewrite length_map, length_seq. }
  pose proof (set_cache_capacity None numbered) as H. cbv zeta in H.
  destruct H as [Hbound [_ Hdistinct]].
  destruct (Hdistinct numbered_distinct) as [_ Hlast].
  destruct (Hlast Hlen) as [Hcache Hbelow].
  split; [exact numbered_distinct|]. split; [exact Hlen|].
  split; [exact Hbound|]. split; [exact Hcache | exact Hbelow].
Defined.

(** ** The user lookup and the handler's answer to its failure *)

Lemma find_user_by_id_total (S : user_store) (user_id : pyobj) :
  exists r, find_user_by_id S user_id = Ret r.
Proof.
  unfold find_user_by_id, except_Exception, obind, except_class.
  destruct (get_database S) as [db|e]; [|eauto].
  destruct (list_collection_names S db) as [collections|e]; [|eauto].
  destruct (ObjectId S user_id) as [oid|e].
  - destruct (find_one S db oid) as [[doc|]|e]; eauto.
  - destruct (String.eqb (exn_class e) "InvalidId"); eauto.
Qed.

Lemma find_user_by_id_fails (S : user_store) (user_id : pyobj) :
  lookup_fails S user_id -> find_user_by_id S user_id = Ret None.
Proof.
  unfold lookup_fails, find_user_by_id, except_Exception, obind,
    except_class.
  intros [[e He]|[[db [e [Hdb He]]]|[[e He]|[db [oid [e [Hdb [Hoid He]]]]]]]].
  - now rewrite He.
  - now rewrite Hdb, He.
  - rewrite He.
    destruct (get_database S) as [db|e']; [|reflexivity].
    destruct (list_collection_names S db) as [collections|e'];
      [|reflexivity].
    now destruct (String.eqb (exn_class e) "InvalidId").
  - rewrite Hdb, Hoid, He.
    now destruct (list_collection_names S db) as [collections|e'].
Qed.

Lemma origins_nonempty o : In o origins -> String.eqb o "" = false.
Proof.
  unfold origins. simpl.
  intros [<-|[<-|[<-|[<-|[]]]]]; reflexivity.
Qed.

Lemma origins_member o : In o origins -> existsb (String.eqb o) origins = true.
Proof.
  intros Hin. apply existsb_exists. exists o.
  split; [exact Hin | apply String.eqb_refl].
Qed.

(** C10. [find_user_by_id] returns for every identifier, a user document or
    [None]; it returns [None] when the database cannot be reached, when
    listing the collections or the query raises, and when the identifier is
    not a valid [ObjectId]. A request that passes the checks before the
    lookup is then answered by the [HTTPException] of status 401 with the
    error "User does not exist", the pipeline not having run. *)
Theorem find_user_by_id_never_raises (S : user_store) (user_id : pyobj) :
  (exists r, find_user_by_id S user_id = Ret r)
  /\ (lookup_fails S user_id -> find_user_by_id S user_id = Ret None)
  /\ (forall verify_token E req w,
        reaches_lookup verify_token req user_id ->
        lookup_fails S user_id ->
        upload_resume verify_token S E req w
        = (HTTPException 401
             (PyDict [("error", PyStr "User does not exist");
                      ("status", PyNum "401")]), w)).
Proof.
  split; [apply find_user_by_id_total|].
  split; [apply find_user_by_id_fails|].
  intros verify_token E req w Hreach Hfail.
  destruct Hreach
    as (o & auth & token & claims & Ho & Hin & Hauth & Htok & Hne & Hver
        & Hid & Htruthy).
  unfold upload_resume.
  rewrite Ho, (origins_nonempty o Hin), (origins_member o Hin).
  cbn [orb negb]. rewrite Hauth.
  assert (Hauth_ne : String.eqb auth "" = false).
  { destruct auth; [discriminate Htok | reflexivity]. }
  rewrite Hauth_ne, Htok.
  assert (Htok_ne : String.eqb token "" = false)
    by (now apply String.eqb_neq).
  rewrite Htok_ne, Hver, Hid, Htruthy. cbn [negb].
  rewrite (find_user_by_id_fails S user_id Hfail). reflexivity.
Qed.

(** C10 at work: the user store cannot be reached while a request with an
    allowed origin and an accepted token arrives. *)
Lemma find_user_by_id_never_raises_witness :
  reaches_lookup accept_token upload (PyStr "507f1f77bcf86cd799439011")
  /\ lookup_fails unreachable_store (PyStr "507f1f77bcf86cd799439011")
  /\ find_user_by_id unreachable_store (PyStr "507f1f77bcf86cd799439011")
     = Ret None
  /\ lookup_fails empty_store (PyStr "not-an-id")
  /\ find_user_by_id empty_store (PyStr "not-an-id") = Ret None
  /\ upload_resume accept_token unreachable_store (studio service_down)
                   upload (fresh None)
     = (HTTPException 401
          (PyDict [("error", PyStr "User does not exist");
                   ("status", PyNum "401")]), fresh None).
Proof.
  assert (Hreach : reaches_lookup accept_token upload
                     (PyStr "507f1f77bcf86cd799439011")).
  { exists "http://localhost:5173", "Bearer abc.def.ghi", "abc.def.ghi",
      [("userId", PyStr "507f1f77bcf86cd799439011")].
    repeat split; try reflexivity.
    - simpl. tauto.
    - discriminate. }
  assert (Hfail : forall user_id, lookup_fails unreachable_store user_id).
  { intros user_id. left. eexists. reflexivity. }
  destruct (find_user_by_id_never_raises unreachable_store
              (PyStr "507f1f77bcf86cd799439011")) as [_ [Hnone Hanswer]].
  destruct (find_user_by_id_never_raises empty_store
              (PyStr "not-an-id")) as [_ [Hnone' _]].
  assert (Hinvalid : lookup_fails empty_store (PyStr "not-an-id")).
  { right. right. left. eexists. reflexivity. }
  split; [exact Hreach|]. split; [apply Hfail|].
  split; [exact (Hnone (Hfail _))|].
  split; [exact Hinvalid|].
  split; [exact (Hnone' Hinvalid)|].
  exact (Hanswer accept_token (studio service_down) upload (fresh None)
           Hreach (Hfail _)).
Defined.

(** ** The digest on known inputs *)

Example md5_empty :
  MD5.hexdigest [] = "d41d8cd98f00b204e9800998ecf8427e".
Proof. vm_compute. reflexivity. Qed.

Example md5_abc :
  MD5.hexdigest (list_byte_of_string "abc")
  = "900150983cd24fb0d6963f7d28e17f72".
Proof. vm_compute. reflexivity. Qed.

Example md5_two_blocks :
  MD5.hexdigest (repeat "a"%byte 100) = "36a92cc94a9e0fa21f625f8bfb007adf".
Proof. vm_compute. reflexivity. Qed.

(** ** The string operations on known inputs *)

Example splitext_cases :
  splitext "a/b.c/x..PDF" = ("a/b.c/x.", ".PDF")
  /\ splitext ".bashrc" = (".bashrc", "")
  /\ splitext "cv.pdf/" = ("cv.pdf/", "")
  /\ splitext "a.tar.gz" = ("a.tar", ".gz")
  /\ extension "Scan.JPeG" = ".jpeg".
Proof. repeat split; reflexivity. Qed.

Example strip_cases :
  strip (of_codes [32; 10; 226; 128; 137; 65; 32; 66; 194; 160]) = "A B"
  /\ blank (of_codes [9; 227; 128; 128; 13]) = true
  /\ split_space "Bearer  x" = ["Bearer"; ""; "x"].
Proof. repeat split; reflexivity. Qed.

(* ================================================================== *)
(** * Further properties of the code *)
(* ================================================================== *)

(** ** Lookups and writes of the layered cache *)

(** X1. [_get_from_cache] never raises and changes neither tier. It answers
    from the remote tier when that holds a pickle for the key, even the
    pickle of [None]; when the remote tier is disabled, its read raises, it
    has no entry, or the entry is empty or does not unpickle, it answers from
    the in-process mapping, with [None] for an absent key. *)
Theorem get_from_cache_fallback (w : world) (key : string) :
  (exists v, _get_from_cache key w = (Ret v, after w [CacheGet key]))
  /\ (forall r ttl v,
        redis_client w = Some r -> reads_raise r = false ->
        dict_get key (store r) = Some (ttl, Pickle v) ->
        result (_get_from_cache key) w = Ret v)
  /\ ((redis_client w = None
       \/ (exists r, redis_client w = Some r
                     /\ (reads_raise r = true
                         \/ dict_get key (store r) = None
                         \/ exists ttl raw,
                              dict_get key (store r)
                              = Some (ttl, Garbage raw)))) ->
      result (_get_from_cache key) w
      = Ret (match dict_get key (_cache w) with
             | Some v => v
             | None => PyNone
             end)).
Proof.
  unfold result. rewrite get_from_cache_after. cbn [fst].
  split; [eauto|]. unfold cache_read, remote_read, memory_read. split.
  - intros r ttl v Hc Hr Hget. now rewrite Hc, Hr, Hget.
  - intros [Hc|[r [Hc [Hr|[Hget|[ttl [raw Hget]]]]]]]; rewrite Hc;
      try reflexivity.
    + now rewrite Hr.
    + rewrite Hget. now destruct (reads_raise r).
    + rewrite Hget. now destruct (reads_raise r).
Qed.

Lemma remote_read_set_other key key' value client :
  key <> key' ->
  remote_read key' (remote_after_set key value client)
  = remote_read key' client.
Proof.
  intros Hne. unfold remote_read, remote_after_set.
  destruct client as [r|]; [|reflexivity].
  destruct (writes_raise r); [reflexivity|]. cbn [reads_raise store].
  destruct (reads_raise r); [reflexivity|].
  now rewrite dict_get_set_other.
Qed.

Lemma cache_read_set_other key key' value w :
  length (_cache w) < _max_cache_size ->
  key <> key' ->
  cache_read key' (exec (_set_cache key value) w) = cache_read key' w.
Proof.
  intros Hlen Hne. unfold exec. rewrite set_cache_eq. cbn [snd].
  unfold cache_read. cbn [redis_client _cache].
  rewrite (remote_read_set_other key key' value _ Hne).
  destruct (remote_read key' (redis_client w)); [reflexivity|].
  unfold memory_read, evict.
  apply Nat.leb_gt in Hlen. rewrite Hlen.
  now rewrite dict_get_set_other.
Qed.

(** X2. While the in-process mapping is below its capacity, [_set_cache] on
    one key changes the answer of [_get_from_cache] for no other key. *)
Theorem set_cache_other_key (w : world) (key key' : string) (value : pyobj) :
  length (_cache w) < _max_cache_size ->
  key <> key' ->
  result (_get_from_cache key') (exec (_set_cache key value) w)
  = result (_get_from_cache key') w.
Proof.
  intros Hlen Hne. unfold result.
  rewrite !get_from_cache_after. cbn [fst]. f_equal.
  now apply cache_read_set_other.
Qed.

Lemma set_cache_other_key_witness :
  length (_cache (fresh None)) < _max_cache_size
  /\ "a" <> "b"
  /\ result (_get_from_cache "b")
            (exec (_set_cache "a" (PyStr "1")) (fresh None))
     = result (_get_from_cache "b") (fresh None).
Proof.
  assert (Hlen : length (_cache (fresh None)) < _max_cache_size).
  { unfold _max_cache_size. simpl. lia. }
  assert (Hne : "a" <> "b") by discriminate.
  split; [exact Hlen|]. split; [exact Hne|].
  exact (set_cache_other_key (fresh None) "a" "b" (PyStr "1") Hlen Hne).
Defined.

Lemma dict_set_length_in {V} (k : string) (v : V) (d : dict V) :
  In k (dict_keys d) -> length (dict_set k v d) = length d.
Proof.
  induction d as [|[k' v'] d IH]; simpl; [tauto|].
  intros [->|Hin].
  - now rewrite String.eqb_refl.
  - destruct (String.eqb k' k); simpl; [reflexivity|]. now rewrite IH.
Qed.

Lemma NoDup_app_disjoint (l1 l2 : list string) x :
  NoDup (l1 ++ l2) -> In x l1 -> ~ In x l2.
Proof.
  induction l1 as [|a l1 IH]; simpl; intros Hnd Hin; [contradiction|].
  inversion Hnd as [|? ? Hnotin Hrest]; subst.
  destruct Hin as [->|Hin].
  - intros H2. apply Hnotin. apply in_or_app. now right.
  - now apply IH.
Qed.

(** X3. The capacity test of [_set_cache] comes before the write and does
    not look at the key: at capacity, overwriting a key that is already
    cached, and is not among the oldest quarter, still evicts the oldest 250
    entries and leaves 750. *)
Theorem set_cache_overwrite_at_capacity (w : world) (key : string)
        (value : pyobj) :
  NoDup (dict_keys (_cache w)) ->
  length (_cache w) = _max_cache_size ->
  In key (skipn (_max_cache_size / 4) (dict_keys (_cache w))) ->
  length (_cache (exec (_set_cache key value) w)) = 750
  /\ dict_get key (_cache (exec (_set_cache key value) w)) = Some value
  /\ (forall k, In k (firstn (_max_cache_size / 4) (dict_keys (_cache w))) ->
                dict_get k (_cache (exec (_set_cache key value) w)) = None).
Proof.
  intros Hnd Hlen Hin. rewrite cache_after_set. unfold evict.
  rewrite Hlen, Nat.leb_refl, delete_first_keys by exact Hnd.
  split; [|split].
  - rewrite dict_set_length_in by (now rewrite skipn_keys).
    rewrite length_skipn, Hlen. reflexivity.
  - apply dict_get_set_same.
  - intros k Hk.
    assert (Hsplit : NoDup (firstn (_max_cache_size / 4) (dict_keys (_cache w))
                            ++ skipn (_max_cache_size / 4)
                                     (dict_keys (_cache w))))
      by (now rewrite firstn_skipn).
    pose proof (NoDup_app_disjoint _ _ k Hsplit Hk) as Hout.
    assert (Hne : key <> k) by (intros ->; contradiction).
    rewrite dict_get_set_other by exact Hne.
    apply dict_get_None_notin. now rewrite skipn_keys.
Qed.

Lemma NoDup_firstn_keys n (l : list string) : NoDup l -> NoDup (firstn n l).
Proof.
  revert l. induction n as [|n IH]; intros l Hl; [constructor|].
  destruct l as [|x l]; [constructor|].
  inversion Hl as [|? ? Hnotin Hrest]; subst. simpl.
  constructor; [|now apply IH].
  intros Hin. apply Hnotin.
  rewrite <- (firstn_skipn n l). apply in_or_app. now left.
Qed.

Lemma In_of_existsb (k : string) (l : list string) :
  existsb (String.eqb k) l = true -> In k l.
Proof.
  intros H. apply existsb_exists in H. destruct H as [x [Hin Heq]].
  apply String.eqb_eq in Heq. now subst x.
Qed.

Lemma full_world_cache : _cache full_world = firstn _max_cache_size numbered.
Proof.
  unfold full_world. apply run_sets_distinct.
  - rewrite <- firstn_map. apply NoDup_firstn_keys, numbered_distinct.
  - rewrite length_firstn. lia.
Qed.

(** X3 at work: the mapping holds the entries numbered 0 to 999 and the
    entry numbered 999 is set again. *)
Lemma set_cache_overwrite_at_capacity_witness :
  NoDup (dict_keys (_cache full_world))
  /\ length (_cache full_world) = _max_cache_size
  /\ In (key_of 999) (skipn (_max_cache_size / 4)
                            (dict_keys (_cache full_world)))
  /\ length (_cache (exec (_set_cache (key_of 999) PyNone) full_world)) = 750.
Proof.
  assert (Hnd : NoDup (dict_keys (_cache full_world)))
    by (apply run_sets_invariant).
  assert (Hlen : length (_cache full_world) = _max_cache_size).
  { rewrite full_world_cache, length_firstn.
    unfold numbered. rewrite length_map, length_seq. lia. }
  assert (Hin : In (key_of 999)
                   (skipn (_max_cache_size / 4)
                          (dict_keys (_cache full_world)))).
  { rewrite full_world_cache. apply In_of_existsb.
    vm_compute. reflexivity. }
  split; [exact Hnd|]. split; [exact Hlen|]. split; [exact Hin|].
  exact (proj1 (set_cache_overwrite_at_capacity full_world (key_of 999)
                  PyNone Hnd Hlen Hin)).
Defined.

Lemma clear_cache_eq w :
  clear_cache w =
  (Ret tt,
   World (match redis_client w with
          | Some r =>
              if writes_raise r then Some r
              else Some (Redis [] (reads_raise r) (writes_raise r))
          | None => None
          end) [] (trace w)).
Proof.
  unfold clear_cache, bind, put_cache, get_redis_client, try_except, ret.
  cbn [redis_client _cache trace].
  destruct (redis_client w) as [r|]; [|reflexivity].
  now destruct (writes_raise r).
Qed.

(** X4. [clear_cache] never raises and empties the in-process mapping. When
    the remote tier is disabled, or its reads raise, or the flush succeeds,
    every lookup misses afterwards; when the flush is rejected by a remote
    tier that still answers reads, its entries remain and keep answering. *)
Theorem clear_cache_empties (w : world) :
  result clear_cache w = Ret tt
  /\ _cache (exec clear_cache w) = []
  /\ (coherent w = true ->
      forall key, result (_get_from_cache key) (exec clear_cache w)
                  = Ret PyNone)
  /\ (coherent w = false ->
      forall key v,
        remote_read key (redis_client w) = Some v ->
        result (_get_from_cache key) (exec clear_cache w) = Ret v).
Proof.
  unfold result, exec. rewrite clear_cache_eq. cbn [fst snd _cache].
  split; [reflexivity|]. split; [reflexivity|].
  unfold coherent. split; intros Hco key.
  - rewrite get_from_cache_after. cbn [fst]. f_equal.
    unfold cache_read, remote_read, memory_read.
    cbn [redis_client _cache dict_get].
    destruct (redis_client w) as [r|]; [|reflexivity].
    destruct (writes_raise r) eqn:Hw.
    + rewrite orb_false_r in Hco. now rewrite Hco.
    + cbn [reads_raise store dict_get]. now destruct (reads_raise r).
  - intros v Hv. rewrite get_from_cache_after. cbn [fst]. f_equal.
    unfold cache_read. cbn [redis_client _cache].
    destruct (redis_client w) as [r|]; [|discriminate Hco].
    apply orb_false_iff in Hco. destruct Hco as [_ Hw].
    apply negb_false_iff in Hw. rewrite Hw, Hv. reflexivity.
Qed.

Lemma dict_get_skipn {V} n (d : dict V) k v :
  NoDup (dict_keys d) ->
  dict_get k (skipn n d) = Some v -> dict_get k d = Some v.
Proof.
  revert d. induction n as [|n IH]; intros d Hnd Hget; [exact Hget|].
  destruct d as [|[k' v'] d]; [discriminate Hget|].
  simpl in Hget. inversion Hnd as [|? ? Hnotin Hrest]; subst.
  specialize (IH d Hrest Hget). simpl.
  destruct (String.eqb k' k) eqn:Hk; [|exact IH].
  apply String.eqb_eq in Hk. subst k'. exfalso. apply Hnotin.
  destruct (dict_get_None_notin k d) as [_ Hnone].
  destruct (in_dec string_dec k (dict_keys d)) as [Hin|Hout];
    [exact Hin|].
  rewrite (proj2 (dict_get_None_notin k d) Hout) in IH. discriminate IH.
Qed.

Lemma dict_get_evict d k v :
  NoDup (dict_keys d) ->
  dict_get k (evict d) = Some v -> dict_get k d = Some v.
Proof.
  intros Hnd. unfold evict.
  destruct (_max_cache_size <=? length d)%nat; [|tauto].
  rewrite delete_first_keys by exact Hnd. now apply dict_get_skipn.
Qed.

(** X5. Whatever the in-process mapping holds for a key, after any sequence
    of [_set_cache] calls from an empty mapping, is the value of the most
    recent call for that key: eviction removes entries, and never brings
    back an older value or one that was not set. *)
Theorem memory_holds_last_set (client : option redis)
        (ops : list (string * pyobj)) (key : string) (v : pyobj) :
  dict_get key (_cache (run_sets ops (fresh client))) = Some v ->
  last_set key ops = Some v.
Proof.
  revert v. induction ops as [|[k0 v0] ops IH] using rev_ind; intros v Hget.
  - discriminate Hget.
  - rewrite run_sets_snoc, cache_after_set in Hget. cbn [fst snd] in Hget.
    unfold last_set. rewrite rev_app_distr. simpl.
    destruct (String.eqb k0 key) eqn:Hk.
    + apply String.eqb_eq in Hk. subst k0.
      now rewrite dict_get_set_same in Hget.
    + apply String.eqb_neq in Hk.
      rewrite dict_get_set_other in Hget by exact Hk.
      apply IH. apply dict_get_evict; [|exact Hget].
      apply run_sets_invariant.
Qed.

Lemma memory_holds_last_set_witness :
  dict_get "a" (_cache (run_sets [("a", PyStr "1"); ("b", PyNone);
                                  ("a", PyStr "2")] (fresh None)))
  = Some (PyStr "2")
  /\ last_set "a" [("a", PyStr "1"); ("b", PyNone); ("a", PyStr "2")]
     = Some (PyStr "2").
Proof.
  assert (H : dict_get "a" (_cache (run_sets [("a", PyStr "1"); ("b", PyNone);
                                              ("a", PyStr "2")] (fresh None)))
              = Some (PyStr "2")) by (vm_compute; reflexivity).
  split; [exact H|].
  exact (memory_holds_last_set None _ "a" (PyStr "2") H).
Defined.

(** X6. The keys of the five namespaces are pairwise distinct, whatever the
    fingerprints: an entry of one stage is never read or overwritten as an
    entry of another. *)
Theorem namespaces_disjoint (c1 c2 c3 c5 : bytes) (raw_text : string) :
  NoDup [text_extract_key c1; pdf_ocr_key c2; image_ocr_key c3;
         openai_transform_key raw_text; full_parse_key c5].
Proof.
  unfold text_extract_key, pdf_ocr_key, image_ocr_key, openai_transform_key,
    full_parse_key.
  generalize (_get_file_hash c1) (_get_file_hash c2) (_get_file_hash c3)
    (_get_text_hash raw_text) (_get_file_hash c5).
  intros h1 h2 h3 h4 h5.
  repeat (constructor;
          [cbn [In append]; intros H;
           repeat (destruct H as [H|H]; [discriminate H|]); exact H|]).
  constructor.
Qed.

(** X7. [get_cache_stats] never raises and changes nothing. It reports the
    number of in-process entries and whether a remote client exists; with a
    remote client whose commands raise it reports [redis_error] and no key
    count, and without a client none of the remote fields. *)
Theorem get_cache_stats_reports (used_memory_human : option string)
        (w : world) :
  exists stats,
    get_cache_stats used_memory_human w = (Ret stats, w)
    /\ dict_get "in_memory_size" stats
       = Some (PyNum (decimal (length (_cache w))))
    /\ dict_get "redis_available" stats
       = Some (PyBool (match redis_client w with
                       | Some _ => true
                       | None => false
                       end))
    /\ (forall r, redis_client w = Some r -> reads_raise r = true ->
                  dict_get "redis_error" stats
                  = Some (PyStr "Could not get Redis stats")
                  /\ dict_get "redis_keys" stats = None)
    /\ (forall r, redis_client w = Some r -> reads_raise r = false ->
                  dict_get "redis_keys" stats
                  = Some (PyNum (decimal (length (store r))))
                  /\ dict_get "redis_error" stats = None)
    /\ (redis_client w = None -> length stats = 2).
Proof.
  unfold get_cache_stats, bind, get_cache, get_redis_client, try_except, ret.
  destruct (redis_client w) as [r|] eqn:Hc.
  - destruct (reads_raise r) eqn:Hr.
    + eexists. split; [reflexivity|].
      split; [reflexivity|]. split; [reflexivity|]. split; [|split].
      * intros r' Hr' _. split; reflexivity.
      * intros r' Hr' Hflag. injection Hr' as <-. congruence.
      * discriminate.
    + eexists. split; [reflexivity|].
      split; [reflexivity|]. split; [reflexivity|]. split; [|split].
      * intros r' Hr' Hflag. injection Hr' as <-. congruence.
      * intros r' Hr' _. injection Hr' as <-. split; reflexivity.
      * discriminate.
  - eexists. split; [reflexivity|].
    split; [reflexivity|]. split; [reflexivity|]. split; [|split].
    + discriminate.
    + discriminate.
    + reflexivity.
Qed.

(** ** Failures and repeated calls of the extraction stage *)

Lemma same_tiers_refl w : same_tiers w w.
Proof. split; reflexivity. Qed.

Lemma same_tiers_trans w1 w2 w3 :
  same_tiers w1 w2 -> same_tiers w2 w3 -> same_tiers w1 w3.
Proof. intros [H1 H2] [H3 H4]. split; congruence. Qed.

Lemma same_tiers_after w evs : same_tiers w (after w evs).
Proof. split; reflexivity. Qed.

Section KeepsTiers.
Context {A B : Type}.

Lemma tiers_ret (a : A) : keeps_tiers (ret a).
Proof. intros w. apply same_tiers_refl. Qed.

Lemma tiers_lift (r : outcome A) : keeps_tiers (lift r).
Proof. intros w. apply same_tiers_refl. Qed.

Lemma tiers_bind (m : py A) (k : A -> py B) :
  keeps_tiers m -> (forall a, keeps_tiers (k a)) -> keeps_tiers (bind m k).
Proof.
  intros Hm Hk w. unfold exec, bind. specialize (Hm w). unfold exec in Hm.
  destruct (m w) as [[a|e] w1]; cbn [snd] in *; [|exact Hm].
  eapply same_tiers_trans; [exact Hm | apply Hk].
Qed.

Lemma tiers_external (ev : event) (r : outcome A) :
  keeps_tiers (external ev r).
Proof.
  intros w. unfold exec, external, bind, observe, lift.
  destruct r; split; reflexivity.
Qed.
End KeepsTiers.

Lemma tiers_get_from_cache key : keeps_tiers (_get_from_cache key).
Proof.
  intros w. unfold exec. rewrite get_from_cache_after.
  apply same_tiers_after.
Qed.

Section ExtractionFailures.
Variable E : collaborators.

Lemma tiers_ocr_pages doc : forall text, keeps_tiers (ocr_pages E doc text).
Proof.
  induction doc as [|page rest IH]; intros text; simpl.
  - apply tiers_ret.
  - apply tiers_bind; [apply tiers_external|]. intros img.
    apply tiers_bind; [apply tiers_external|]. intros lines. apply IH.
Qed.

Lemma tiers_with_ocr content :
  keeps_tiers (extract_text_from_pdf_with_ocr E content).
Proof.
  unfold extract_text_from_pdf_with_ocr.
  apply tiers_bind; [apply tiers_external|]. intros doc.
  apply tiers_ocr_pages.
Qed.

(** A stage followed by the cache write raises only if the stage does, in
    the state the stage left. *)
Lemma cached_under_raises key (stage : py pyobj) w e w' :
  cached_under key stage w = (Raise e, w') -> stage w = (Raise e, w').
Proof.
  unfold cached_under, bind.
  destruct (stage w) as [[text|e0] w1]; [|tauto].
  rewrite set_cache_eq. discriminate.
Qed.

Lemma pdf_failure content w e w' :
  extract_text_from_pdf E content w = (Raise e, w') -> same_tiers w w'.
Proof.
  destruct (pdfplumber_pages E content) as [pages|e0] eqn:Hpages.
  - destruct (blank (text_layer pages)) eqn:Hb.
    + destruct (is_not_None (cache_read (pdf_ocr_key content) w)) eqn:Hlook.
      * rewrite (pdf_blank_hit E content pages Hpages w Hb Hlook).
        discriminate.
      * rewrite (pdf_blank_miss E content pages Hpages w Hb Hlook).
        unfold bind.
        pose proof (tiers_with_ocr content
                      (after w [PdfTextLayer content;
                                CacheGet (pdf_ocr_key content)])) as K.
        unfold exec in K.
        destruct (extract_text_from_pdf_with_ocr E content
                    (after w [PdfTextLayer content;
                              CacheGet (pdf_ocr_key content)]))
          as [[t|e1] w2].
        -- rewrite set_cache_eq. discriminate.
        -- intros H. injection H as _ <-. exact K.
    + rewrite (pdf_with_text E content pages Hpages w Hb). discriminate.
  - unfold extract_text_from_pdf, external, bind, observe, lift.
    rewrite Hpages. intros H. injection H as _ <-. split; reflexivity.
Qed.

Lemma docx_failure content w e w' :
  extract_text_from_docx E content w = (Raise e, w') -> same_tiers w w'.
Proof.
  unfold extract_text_from_docx, external, bind, observe, lift, ret.
  destruct (docx_paragraphs E content); [discriminate|].
  intros H. injection H as _ <-. split; reflexivity.
Qed.

Lemma image_failure content w e w' :
  extract_text_from_image E content w = (Raise e, w') -> same_tiers w w'.
Proof.
  unfold extract_text_from_image. unfold bind at 1.
  rewrite get_from_cache_after.
  destruct (is_not_None (cache_read ("image_ocr:" ++ _get_file_hash content) w));
    [discriminate|].
  unfold external, bind, observe, lift, ret.
  cbn [redis_client _cache trace after].
  destruct (image_open E content) as [img|e0].
  - destruct (readtext E img) as [lines|e1].
    + rewrite set_cache_eq. discriminate.
    + intros H. injection H as _ <-. split; reflexivity.
  - intros H. injection H as _ <-. split; reflexivity.
Qed.

Lemma extract_failure_same_tiers filename content w e w' :
  extract_text_from_resume E filename content w = (Raise e, w') ->
  same_tiers w w'.
Proof.
  destruct (is_not_None (cache_read (text_extract_key content) w)) eqn:Hlook.
  - rewrite (extract_hit E filename content w Hlook). discriminate.
  - rewrite (extract_miss E filename content w Hlook). cbv zeta.
    set (w0 := after w [CacheGet (text_extract_key content)]).
    assert (H0 : same_tiers w w0) by apply same_tiers_after.
    destruct (String.eqb (extension filename) ".pdf").
    { intros H. apply cached_under_raises, pdf_failure in H.
      exact (same_tiers_trans _ _ _ H0 H). }
    destruct (String.eqb (extension filename) ".docx").
    { intros H. apply cached_under_raises, docx_failure in H.
      exact (same_tiers_trans _ _ _ H0 H). }
    destruct (existsb (String.eqb (extension filename))
                      [".png"; ".jpg"; ".jpeg"]).
    { intros H. apply cached_under_raises, image_failure in H.
      exact (same_tiers_trans _ _ _ H0 H). }
    discriminate.
Qed.

(** X8. When [extract_text_from_resume] raises, whether the failure is in
    the text-layer pass, the rasterization, the recognition or the DOCX
    reader, both cache tiers hold exactly what they held before the call:
    nothing partial is stored. *)
Theorem extract_failure_stores_nothing (filename : string) (content : bytes)
        (w w' : world) (e : exn) :
  extract_text_from_resume E filename content w = (Raise e, w') ->
  redis_client w' = redis_client w /\ _cache w' = _cache w.
Proof.
  intros H. exact (extract_failure_same_tiers filename content w e w' H).
Qed.
End ExtractionFailures.

(** X8 at work: bytes that are not a PDF, under the name [cv.pdf]. *)
Lemma extract_failure_stores_nothing_witness :
  extract_text_from_resume (studio service_down) "cv.pdf" resume_bytes
                           (fresh None)
  = (Raise (Exn "PDFSyntaxError" "No /Root object! - Is this really a PDF?"),
     exec (extract_text_from_resume (studio service_down) "cv.pdf"
                                    resume_bytes) (fresh None))
  /\ _cache (exec (extract_text_from_resume (studio service_down) "cv.pdf"
                                            resume_bytes) (fresh None))
     = _cache (fresh None).
Proof.
  assert (H : extract_text_from_resume (studio service_down) "cv.pdf"
                resume_bytes (fresh None)
              = (Raise (Exn "PDFSyntaxError"
                            "No /Root object! - Is this really a PDF?"),
                 exec (extract_text_from_resume (studio service_down) "cv.pdf"
                         resume_bytes) (fresh None)))
    by (vm_compute; reflexivity).
  split; [exact H|].
  exact (proj2 (extract_failure_stores_nothing (studio service_down) "cv.pdf"
                  resume_bytes (fresh None) _ _ H)).
Defined.

Lemma is_not_None_neq r : is_not_None r = true -> r <> PyNone.
Proof. intros H ->. discriminate H. Qed.

Lemma cached_under_returns key (stage : py pyobj) w r w1 :
  cached_under key stage w = (Ret r, w1) ->
  exists w2, stage w = (Ret r, w2) /\ w1 = exec (_set_cache key r) w2.
Proof.
  unfold cached_under, bind, exec.
  destruct (stage w) as [[text|e0] w2]; [|discriminate].
  rewrite set_cache_eq. unfold ret.
  intros H. injection H as <- <-.
  exists w2. split; [reflexivity|]. now rewrite set_cache_eq.
Qed.

Section ExtractionRepeated.
Variable E : collaborators.

Lemma keeps_docx content : keeps_mode (extract_text_from_docx E content).
Proof. unfold extract_text_from_docx. repeat keeps_step. Qed.

Lemma keeps_image content : keeps_mode (extract_text_from_image E content).
Proof. unfold extract_text_from_image. repeat keeps_step. Qed.

Lemma pdf_not_None content w r w1 :
  extract_text_from_pdf E content w = (Ret r, w1) -> is_not_None r = true.
Proof.
  destruct (pdfplumber_pages E content) as [pages|e0] eqn:Hpages.
  - destruct (blank (text_layer pages)) eqn:Hb.
    + destruct (is_not_None (cache_read (pdf_ocr_key content) w)) eqn:Hlook.
      * rewrite (pdf_blank_hit E content pages Hpages w Hb Hlook).
        intros H. injection H as <- _. exact Hlook.
      * rewrite (pdf_blank_miss E content pages Hpages w Hb Hlook).
        unfold bind.
        destruct (extract_text_from_pdf_with_ocr E content _) as [[t|e1] w2];
          [|discriminate].
        rewrite set_cache_eq. unfold ret. intros H. now injection H as <- _.
    + rewrite (pdf_with_text E content pages Hpages w Hb).
      intros H. now injection H as <- _.
  - unfold extract_text_from_pdf, external, bind, observe, lift.
    rewrite Hpages. discriminate.
Qed.

Lemma docx_not_None content w r w1 :
  extract_text_from_docx E content w = (Ret r, w1) -> is_not_None r = true.
Proof.
  unfold extract_text_from_docx, external, bind, observe, lift, ret.
  destruct (docx_paragraphs E content); [|discriminate].
  intros H. now injection H as <- _.
Qed.

Lemma image_not_None content w r w1 :
  extract_text_from_image E content w = (Ret r, w1) -> is_not_None r = true.
Proof.
  unfold extract_text_from_image. unfold bind at 1.
  rewrite get_from_cache_after.
  destruct (is_not_None (cache_read ("image_ocr:" ++ _get_file_hash content) w))
    eqn:Hlook.
  - unfold ret. intros H. injection H as <- _. exact Hlook.
  - unfold external, bind, observe, lift, ret.
    destruct (image_open E content) as [img|e0]; [|discriminate].
    destruct (readtext E img) as [lines|e1]; [|discriminate].
    rewrite set_cache_eq. intros H. now injection H as <- _.
Qed.

(** What a returning stage followed by the cache write leaves behind. *)
Lemma cached_under_then_hit content (stage : py pyobj) w w0 r w1 :
  coherent w = true -> mode w0 = mode w ->
  keeps_mode stage ->
  (forall w2, stage w0 = (Ret r, w2) -> is_not_None r = true) ->
  cached_under (text_extract_key content) stage w0 = (Ret r, w1) ->
  is_not_None r = true
  /\ cache_read (text_extract_key content) w1 = r.
Proof.
  intros Hco Hmode Hkeeps Hnn Hrun.
  apply cached_under_returns in Hrun. destruct Hrun as [w2 [Hstage ->]].
  split; [exact (Hnn w2 Hstage)|].
  apply cache_read_after_set.
  rewrite (coherent_mode w w2); [exact Hco|].
  specialize (Hkeeps w0). unfold exec in Hkeeps. rewrite Hstage in Hkeeps.
  cbn [snd] in Hkeeps. congruence.
Qed.

(** X9. [extract_text_from_resume] never returns [None]; and when a call
    returns (remote tier disabled, or its reads raising, or its writes
    succeeding), the next call with the same file name and content returns
    the same text after a single lookup, calling no collaborator: from the
    [text_extract] entry, or, for an unsupported extension, by producing the
    unsupported-format text again. *)
Theorem extract_twice (filename : string) (content : bytes) (w w1 : world)
        (r : pyobj) :
  coherent w = true ->
  extract_text_from_resume E filename content w = (Ret r, w1) ->
  r <> PyNone
  /\ extract_text_from_resume E filename content w1
     = (Ret r, after w1 [CacheGet (text_extract_key content)]).
Proof.
  intros Hco Hrun.
  destruct (is_not_None (cache_read (text_extract_key content) w)) eqn:Hlook.
  - rewrite (extract_hit E filename content w Hlook) in Hrun.
    injection Hrun as <- <-.
    split; [now apply is_not_None_neq|].
    now rewrite (extract_hit E filename content
                   (after w [CacheGet (text_extract_key content)]) Hlook).
  - rewrite (extract_miss E filename content w Hlook) in Hrun.
    cbv zeta in Hrun.
    set (w0 := after w [CacheGet (text_extract_key content)]) in Hrun.
    assert (Hstored :
      is_not_None r = true /\ cache_read (text_extract_key content) w1 = r ->
      r <> PyNone
      /\ extract_text_from_resume E filename content w1
         = (Ret r, after w1 [CacheGet (text_extract_key content)])).
    { intros [Hnn Hread]. split; [now apply is_not_None_neq|].
      rewrite extract_hit; rewrite Hread; [reflexivity | exact Hnn]. }
    destruct (String.eqb (extension filename) ".pdf") eqn:H1.
    { apply Hstored.
      apply (cached_under_then_hit content (extract_text_from_pdf E content)
               w w0 r w1 Hco eq_refl (keeps_extract_text_from_pdf E content));
        [|exact Hrun].
      intros w2. apply pdf_not_None. }
    destruct (String.eqb (extension filename) ".docx") eqn:H2.
    { apply Hstored.
      apply (cached_under_then_hit content (extract_text_from_docx E content)
               w w0 r w1 Hco eq_refl (keeps_docx content)); [|exact Hrun].
      intros w2. apply docx_not_None. }
    destruct (existsb (String.eqb (extension filename))
                      [".png"; ".jpg"; ".jpeg"]) eqn:H3.
    { apply Hstored.
      apply (cached_under_then_hit content (extract_text_from_image E content)
               w w0 r w1 Hco eq_refl (keeps_image content)); [|exact Hrun].
      intros w2. apply image_not_None. }
    unfold ret in Hrun. injection Hrun as <- <-.
    split; [discriminate|].
    rewrite (extract_miss E filename content w0 Hlook). cbv zeta.
    rewrite H1, H2, H3. reflexivity.
Qed.
End ExtractionRepeated.

(** X9 at work: the scanned PDF, extracted twice. *)
Lemma extract_twice_witness :
  coherent (fresh None) = true
  /\ extract_text_from_resume (studio service_down) "scan.pdf" scanned_pdf
                              (fresh None)
     = (Ret (PyStr scanned_text),
        exec (extract_text_from_resume (studio service_down) "scan.pdf"
                                       scanned_pdf) (fresh None))
  /\ extract_text_from_resume (studio service_down) "scan.pdf" scanned_pdf
       (exec (extract_text_from_resume (studio service_down) "scan.pdf"
                                       scanned_pdf) (fresh None))
     = (Ret (PyStr scanned_text),
        after (exec (extract_text_from_resume (studio service_down) "scan.pdf"
                                              scanned_pdf) (fresh None))
              [CacheGet (text_extract_key scanned_pdf)]).
Proof.
  assert (H : extract_text_from_resume (studio service_down) "scan.pdf"
                scanned_pdf (fresh None)
              = (Ret (PyStr scanned_text),
                 exec (extract_text_from_resume (studio service_down)
                         "scan.pdf" scanned_pdf) (fresh None)))
    by (vm_compute; reflexivity).
  split; [reflexivity|]. split; [exact H|].
  exact (proj2 (extract_twice (studio service_down) "scan.pdf" scanned_pdf
                  (fresh None) _ _ eq_refl H)).
Defined.

(** ** The transform stage and the pipeline around it *)

Section TransformFacts.
Variable E : collaborators.

Lemma extract_miss_unsupported filename content w :
  ~ In (extension filename) recognized ->
  misses (text_extract_key content) w ->
  extract_text_from_resume E filename content w
  = (Ret (PyStr unsupported_file_format),
     after w [CacheGet (text_extract_key content)]).
Proof.
  intros Hn Hmiss. rewrite (extract_miss E filename content w Hmiss).
  cbv zeta. unfold recognized in Hn.
  destruct (String.eqb (extension filename) ".pdf") eqn:H1.
  { apply String.eqb_eq in H1. exfalso. apply Hn. rewrite H1. simpl. tauto. }
  destruct (String.eqb (extension filename) ".docx") eqn:H2.
  { apply String.eqb_eq in H2. exfalso. apply Hn. rewrite H2. simpl. tauto. }
  destruct (existsb (String.eqb (extension filename))
                    [".png"; ".jpg"; ".jpeg"]) eqn:H3; [|reflexivity].
  apply In_of_existsb in H3. exfalso. apply Hn.
  simpl in H3 |- *. tauto.
Qed.

Lemma extract_miss_docx filename content w :
  extension filename = ".docx" ->
  misses (text_extract_key content) w ->
  extract_text_from_resume E filename content w
  = cached_under (text_extract_key content)
                 (extract_text_from_docx E content)
                 (after w [CacheGet (text_extract_key content)]).
Proof.
  intros Hext Hmiss. rewrite (extract_miss E filename content w Hmiss).
  cbv zeta. rewrite Hext. reflexivity.
Qed.

Lemma transform_hit raw w :
  is_not_None (cache_read (openai_transform_key raw) w) = true ->
  transform_text_to_resume_data E (PyStr raw) w
  = (Ret (cache_read (openai_transform_key raw) w),
     after w [CacheGet (openai_transform_key raw)]).
Proof.
  intros Hhit. unfold transform_text_to_resume_data.
  fold (openai_transform_key raw). unfold bind.
  rewrite get_from_cache_after, Hhit. reflexivity.
Qed.

Lemma transform_success raw w content r :
  misses (openai_transform_key raw) w ->
  chat_completions_create E (build_prompt raw) = Ret content ->
  json_loads E (strip content) = Ret r ->
  transform_text_to_resume_data E (PyStr raw) w
  = (Ret r,
     exec (_set_cache (openai_transform_key raw) r)
          (after w [CacheGet (openai_transform_key raw);
                    ChatCompletion (build_prompt raw)])).
Proof.
  intros Hmiss Hc Hj. unfold transform_text_to_resume_data.
  fold (openai_transform_key raw). unfold bind at 1.
  rewrite get_from_cache_after, Hmiss.
  unfold try_except, external, bind, observe, lift, ret, exec.
  cbn [redis_client _cache trace after].
  rewrite Hc, Hj, !set_cache_eq. cbn [fst snd redis_client _cache trace after].
  now rewrite <- (app_assoc (trace w)).
Qed.

Lemma transform_returns_on_text raw w :
  exists r w', transform_text_to_resume_data E (PyStr raw) w = (Ret r, w').
Proof.
  destruct (is_not_None (cache_read (openai_transform_key raw) w)) eqn:Hl.
  - rewrite (transform_hit raw w Hl). eauto.
  - destruct (chat_completions_create E (build_prompt raw))
      as [content|e] eqn:Hc.
    + destruct (json_loads E (strip content)) as [r|e] eqn:Hj.
      * rewrite (transform_success raw w content r Hl Hc Hj). eauto.
      * rewrite (transform_failure E raw w e Hl); [eauto|].
        right. eauto.
    + rewrite (transform_failure E raw w e Hl); [eauto|]. now left.
Qed.

(** X10. On a text that has a UTF-8 encoding,
    [transform_text_to_resume_data] always returns: a cached value, the
    parsed response, or an error object; no failure of the service or of the
    JSON parser escapes as an exception. On a value that is not a text it
    raises before any lookup or call. *)
Theorem transform_never_raises_on_text (raw_text : pyobj) (w : world) :
  (forall raw, raw_text = PyStr raw -> encodes_utf8 raw = true ->
               exists r w', transform_text_to_resume_data E raw_text w
                            = (Ret r, w'))
  /\ ((forall raw, raw_text <> PyStr raw) ->
      exists e, transform_text_to_resume_data E raw_text w = (Raise e, w)).
Proof.
  split.
  - intros raw -> _. apply transform_returns_on_text.
  - intros Hns. destruct raw_text; try (eexists; reflexivity).
    now elim (Hns s).
Qed.

(** X11. When the lookup misses and the service's response parses to a value
    other than [None], the value is returned and stored under the text's
    [openai_transform] key; the next call with the same text (remote tier
    disabled, or its reads raising, or its writes succeeding) returns it
    after the lookup alone, without calling the service. *)
Theorem transform_success_cached (raw content : string) (r : pyobj)
        (w : world) :
  coherent w = true ->
  misses (openai_transform_key raw) w ->
  chat_completions_create E (build_prompt raw) = Ret content ->
  json_loads E (strip content) = Ret r ->
  r <> PyNone ->
  result (transform_text_to_resume_data E (PyStr raw)) w = Ret r
  /\ dict_get (openai_transform_key raw)
              (_cache (exec (transform_text_to_resume_data E (PyStr raw)) w))
     = Some r
  /\ transform_text_to_resume_data E (PyStr raw)
       (exec (transform_text_to_resume_data E (PyStr raw)) w)
     = (Ret r,
        after (exec (transform_text_to_resume_data E (PyStr raw)) w)
              [CacheGet (openai_transform_key raw)]).
Proof.
  intros Hco Hmiss Hc Hj Hr.
  unfold result, exec at 1 2 3.
  rewrite (transform_success raw w content r Hmiss Hc Hj). cbn [fst snd].
  split; [reflexivity|]. split.
  - rewrite cache_after_set. apply dict_get_set_same.
  - set (w1 := after w [CacheGet (openai_transform_key raw);
                        ChatCompletion (build_prompt raw)]).
    assert (Hread : cache_read (openai_transform_key raw)
                      (exec (_set_cache (openai_transform_key raw) r) w1) = r)
      by (now apply cache_read_after_set).
    rewrite transform_hit; rewrite Hread;
      [reflexivity | now apply is_not_None_true].
Qed.

(** X12. [parse_resume] raises only when the extraction raises, with that
    exception and with both tiers holding what they held before the call,
    or when the extraction returned something other than a text that has a
    UTF-8 encoding. *)
Theorem parse_resume_raises_from_extraction (filename : string)
        (content : bytes) (w w' : world) (e : exn) :
  parse_resume E filename content w = (Raise e, w') ->
  (extract_text_from_resume E filename content
     (after w [CacheGet (full_parse_key content)]) = (Raise e, w')
   /\ redis_client w' = redis_client w /\ _cache w' = _cache w)
  \/ (exists returned,
        extract_text_from_resume E filename content
          (after w [CacheGet (full_parse_key content)]) = (Ret returned, w')
        /\ forall raw, returned = PyStr raw -> encodes_utf8 raw = false).
Proof.
  destruct (is_not_None (cache_read (full_parse_key content) w)) eqn:Hlook.
  - rewrite (parse_resume_hit E filename content w Hlook). discriminate.
  - rewrite (parse_resume_miss E filename content w Hlook).
    set (w0 := after w [CacheGet (full_parse_key content)]).
    unfold bind.
    destruct (extract_text_from_resume E filename content w0)
      as [[raw_text|e0] w2] eqn:Hx.
    + destruct raw_text as [| | |raw| |];
        try (intros H; injection H as <- <-; right; eexists;
             split; [reflexivity | discriminate]).
      destruct (transform_returns_on_text raw w2) as [r [w3 Ht]].
      rewrite Ht, set_cache_eq. discriminate.
    + intros H. injection H as <- <-. left. split; [reflexivity|].
      exact (extract_failure_same_tiers E filename content w0 _ _ Hx).
Qed.

(** X13. A file whose extension is not recognized, and for whose content no
    text is cached, never makes [parse_resume] raise: the unsupported-format
    text goes to the transform, whose result, be it an error object, is
    returned and stored. *)
Theorem parse_resume_unsupported_returns (filename : string)
        (content : bytes) (w : world) :
  ~ In (extension filename) recognized ->
  misses (text_extract_key content) w ->
  exists r w', parse_resume E filename content w = (Ret r, w')
               /\ (misses (full_parse_key content) w ->
                   exists w2,
                     transform_text_to_resume_data E
                       (PyStr "Unsupported file format.")
                       (after w [CacheGet (full_parse_key content);
                                 CacheGet (text_extract_key content)])
                     = (Ret r, w2)
                     /\ dict_get (full_parse_key content) (_cache w')
                        = Some r).
Proof.
  intros Hext Hmiss.
  destruct (is_not_None (cache_read (full_parse_key content) w)) eqn:Hlook.
  - rewrite (parse_resume_hit E filename content w Hlook).
    do 2 eexists. split; [reflexivity|]. unfold misses. congruence.
  - rewrite (parse_resume_miss E filename content w Hlook).
    unfold bind.
    rewrite (extract_miss_unsupported filename content
               (after w [CacheGet (full_parse_key content)]) Hext Hmiss).
    unfold unsupported_file_format. rewrite after_after. cbn [app].
    destruct (transform_returns_on_text "Unsupported file format."
                (after w [CacheGet (full_parse_key content);
                          CacheGet (text_extract_key content)]))
      as [r [w2 Ht]].
    rewrite Ht, set_cache_eq. unfold ret.
    do 2 eexists. split; [reflexivity|]. intros _.
    exists w2. split; [reflexivity|]. cbn [_cache]. apply dict_get_set_same.
Qed.
End TransformFacts.

(** X11 at work: the service answers an empty object. *)
Lemma transform_success_cached_witness :
  coherent (fresh None) = true
  /\ misses (openai_transform_key "Jane Doe") (fresh None)
  /\ result (transform_text_to_resume_data (studio (answers " {} "))
               (PyStr "Jane Doe")) (fresh None) = Ret (PyDict [])
  /\ transform_text_to_resume_data (studio (answers " {} ")) (PyStr "Jane Doe")
       (exec (transform_text_to_resume_data (studio (answers " {} "))
                (PyStr "Jane Doe")) (fresh None))
     = (Ret (PyDict []),
        after (exec (transform_text_to_resume_data (studio (answers " {} "))
                       (PyStr "Jane Doe")) (fresh None))
              [CacheGet (openai_transform_key "Jane Doe")]).
Proof.
  assert (Hj : json_loads (studio (answers " {} ")) (strip " {} ")
               = Ret (PyDict [])) by (vm_compute; reflexivity).
  destruct (transform_success_cached (studio (answers " {} ")) "Jane Doe"
              " {} " (PyDict []) (fresh None) eq_refl eq_refl eq_refl Hj)
    as [H1 [_ H2]]; [discriminate|].
  split; [reflexivity|]. split; [reflexivity|].
  split; [exact H1 | exact H2].
Defined.

(** X10 at work: a text is transformed while the service is down; the
    encoding of a lone surrogate is not the encoding of a text. *)
Lemma transform_never_raises_on_text_witness :
  encodes_utf8 "Jane Doe" = true
  /\ encodes_utf8 (of_codes [237; 160; 128]) = false
  /\ exists r w',
       transform_text_to_resume_data (readers service_down) (PyStr "Jane Doe")
                                     (fresh None) = (Ret r, w').
Proof.
  split; [reflexivity|]. split; [reflexivity|].
  exact (proj1 (transform_never_raises_on_text (readers service_down)
                  (PyStr "Jane Doe") (fresh None))
               "Jane Doe" eq_refl eq_refl).
Defined.

(** X12 at work: bytes that are not a PDF, under the name [cv.pdf]. *)
Lemma parse_resume_raises_from_extraction_witness :
  parse_resume (readers service_down) "cv.pdf" resume_bytes (fresh None)
  = (Raise (Exn "PDFSyntaxError" "No /Root object! - Is this really a PDF?"),
     exec (parse_resume (readers service_down) "cv.pdf" resume_bytes)
          (fresh None))
  /\ _cache (exec (parse_resume (readers service_down) "cv.pdf" resume_bytes)
                  (fresh None)) = []
  /\ result (parse_resume (readers (answers "{}")) "cv.pdf" resume_bytes)
            (fresh None)
     = Raise (Exn "PDFSyntaxError" "No /Root object! - Is this really a PDF?").
Proof.
  assert (H : parse_resume (readers service_down) "cv.pdf" resume_bytes
                (fresh None)
              = (Raise (Exn "PDFSyntaxError"
                            "No /Root object! - Is this really a PDF?"),
                 exec (parse_resume (readers service_down) "cv.pdf"
                         resume_bytes) (fresh None)))
    by (vm_compute; reflexivity).
  split; [exact H|].
  destruct (parse_resume_raises_from_extraction (readers service_down)
              "cv.pdf" resume_bytes (fresh None) _ _ H)
    as [[_ [_ Hcache]]|[cached [Hx _]]].
  - split; [exact Hcache | vm_compute; reflexivity].
  - exfalso. vm_compute in Hx. discriminate Hx.
Defined.

(** X13 at work: [notes.txt] while the service is down. *)
Lemma parse_resume_unsupported_returns_witness :
  ~ In (extension "notes.txt") recognized
  /\ misses (text_extract_key resume_bytes) (fresh None)
  /\ exists r w',
       parse_resume (studio service_down) "notes.txt" resume_bytes
                    (fresh None) = (Ret r, w').
Proof.
  assert (Hno : ~ In (extension "notes.txt") recognized).
  { vm_compute. intros [H|[H|[H|[H|[H|[]]]]]]; discriminate H. }
  split; [exact Hno|]. split; [reflexivity|].
  destruct (parse_resume_unsupported_returns (studio service_down)
              "notes.txt" resume_bytes (fresh None) Hno eq_refl)
    as [r [w' [H _]]].
  exists r, w'. exact H.
Defined.

(** ** Image extraction and the OCR text of a PDF *)

(** X14. When the lookup of the content's [image_ocr] key misses and the
    image opens and reads, [extract_text_from_image] returns the lines read
    joined by newlines and stores that text under the key; the next call
    (remote tier disabled, or its reads raising, or its writes succeeding)
    returns it after the lookup alone, without opening the image. *)
Theorem image_ocr_cached (E : collaborators) (content img : bytes)
        (lines : list string) (w : world) :
  coherent w = true ->
  misses (image_ocr_key content) w ->
  image_open E content = Ret img ->
  readtext E img = Ret lines ->
  extract_text_from_image E content w
  = (Ret (PyStr (join nl lines)),
     exec (_set_cache (image_ocr_key content) (PyStr (join nl lines)))
          (after w [CacheGet (image_ocr_key content); ImageOpen content;
                    ReadText img]))
  /\ extract_text_from_image E content
       (exec (extract_text_from_image E content) w)
     = (Ret (PyStr (join nl lines)),
        after (exec (extract_text_from_image E content) w)
              [CacheGet (image_ocr_key content)]).
Proof.
  intros Hco Hmiss Hopen Hread.
  assert (Hrun :
    extract_text_from_image E content w
    = (Ret (PyStr (join nl lines)),
       exec (_set_cache (image_ocr_key content) (PyStr (join nl lines)))
            (after w [CacheGet (image_ocr_key content); ImageOpen content;
                      ReadText img]))).
  { unfold extract_text_from_image. fold (image_ocr_key content).
    unfold bind at 1. rewrite get_from_cache_after, Hmiss.
    unfold external, bind, observe, lift, ret, exec.
    cbn [redis_client _cache trace after].
    rewrite Hopen, Hread, !set_cache_eq.
    cbn [fst snd redis_client _cache trace after].
    now rewrite <- !(app_assoc (trace w)). }
  split; [exact Hrun|].
  unfold exec at 1 2. rewrite Hrun. cbn [snd].
  set (w1 := after w [CacheGet (image_ocr_key content); ImageOpen content;
                      ReadText img]).
  assert (Hstored : cache_read (image_ocr_key content)
                      (exec (_set_cache (image_ocr_key content)
                                        (PyStr (join nl lines))) w1)
                    = PyStr (join nl lines))
    by (now apply cache_read_after_set).
  unfold extract_text_from_image. fold (image_ocr_key content).
  unfold bind. rewrite get_from_cache_after, Hstored. reflexivity.
Qed.

Lemma image_ocr_cached_witness :
  coherent (fresh None) = true
  /\ misses (image_ocr_key resume_bytes) (fresh None)
  /\ result (extract_text_from_image (studio service_down) resume_bytes)
            (fresh None)
     = Ret (PyStr (join nl ["Jane Doe"; "Engineer"]))
  /\ events_of (extract_text_from_image (studio service_down) resume_bytes)
               (exec (extract_text_from_image (studio service_down)
                                              resume_bytes) (fresh None))
     = [CacheGet (image_ocr_key resume_bytes)].
Proof.
  destruct (image_ocr_cached (studio service_down) resume_bytes resume_bytes
              ["Jane Doe"; "Engineer"] (fresh None)
              eq_refl eq_refl eq_refl eq_refl) as [H1 H2].
  split; [reflexivity|]. split; [reflexivity|]. split.
  - unfold result. rewrite H1. reflexivity.
  - apply events_of_app. unfold exec at 1. rewrite H2. reflexivity.
Defined.

Section OcrText.
Variable E : collaborators.

Lemma ocr_pages_text doc results :
  Forall2 (page_reads E) doc results ->
  forall text w,
    result (ocr_pages E doc text) w
    = Ret (text ++ ocr_text_of results)%string.
Proof.
  induction 1 as [|page lines doc results [img [Hpix Hread]] _ IH];
    intros text w.
  - unfold ocr_text_of. simpl. now rewrite append_nil_r.
  - simpl. unfold result, external, bind, observe, lift.
    rewrite Hpix, Hread.
    match goal with
    | |- fst (ocr_pages E doc ?t ?w') = _ =>
        specialize (IH t w'); unfold result in IH; rewrite IH
    end.
    unfold ocr_text_of. cbn [map]. rewrite concat_empty_cons.
    now rewrite !append_assoc.
Qed.

(** X15. When the document opens and every page renders and reads,
    [extract_text_from_pdf_with_ocr] returns the pages' texts in page order,
    each being the lines read on the page joined by newlines and followed by
    a newline; a document without pages gives the empty text. *)
Theorem ocr_text_in_page_order (content : bytes) (doc : list bytes)
        (results : list (list string)) (w : world) :
  fitz_open E content = Ret doc ->
  Forall2 (page_reads E) doc results ->
  result (extract_text_from_pdf_with_ocr E content) w
  = Ret (ocr_text_of results)
  /\ (doc = [] ->
      result (extract_text_from_pdf_with_ocr E content) w = Ret "").
Proof.
  intros Hopen Hreads.
  assert (H : result (extract_text_from_pdf_with_ocr E content) w
              = Ret (ocr_text_of results)).
  { unfold extract_text_from_pdf_with_ocr, result, external, bind, observe,
      lift.
    rewrite Hopen.
    match goal with
    | |- fst (ocr_pages E doc ?t ?w') = _ =>
        pose proof (ocr_pages_text doc results Hreads t w') as IH;
          unfold result in IH; rewrite IH
    end.
    reflexivity. }
  split; [exact H|].
  intros ->. inversion Hreads; subst. exact H.
Qed.
End OcrText.

(** X15 at work: a document of two pages. *)
Lemma ocr_text_in_page_order_witness :
  fitz_open two_pages scanned_pdf
  = Ret [list_byte_of_string "p1"; list_byte_of_string "p2"]
  /\ Forall2 (page_reads two_pages)
             [list_byte_of_string "p1"; list_byte_of_string "p2"]
             [["p1"; "end"]; ["p2"; "end"]]
  /\ result (extract_text_from_pdf_with_ocr two_pages scanned_pdf)
            (fresh None)
     = Ret (ocr_text_of [["p1"; "end"]; ["p2"; "end"]]).
Proof.
  assert (Hreads : Forall2 (page_reads two_pages)
                     [list_byte_of_string "p1"; list_byte_of_string "p2"]
                     [["p1"; "end"]; ["p2"; "end"]]).
  { repeat constructor; eexists; split; reflexivity. }
  split; [reflexivity|]. split; [exact Hreads|].
  exact (proj1 (ocr_text_in_page_order two_pages scanned_pdf _ _ (fresh None)
                  eq_refl Hreads)).
Defined.

(** ** The handler's checks *)

Lemma truthy_userId (claims : dict pyobj) :
  truthy (match dict_get "userId" claims with
          | Some v => v
          | None => PyNone
          end) = true ->
  exists user_id, dict_get "userId" claims = Some user_id
                  /\ truthy user_id = true.
Proof.
  destruct (dict_get "userId" claims) as [v|]; [eauto | discriminate].
Qed.

(** X16. However [upload_resume] ends, the order of its checks shows: an
    [HTTPException] has status 400, 401 or 403 and is raised before the
    pipeline has run, the cache being untouched; a returned body means that
    the origin is allowed, the token was verified, its [userId] was found in
    the user store, and the body carries the result of [parse_resume] on the
    uploaded file; any other exception is one [parse_resume] raised. *)
Theorem upload_resume_checks
        (verify : string -> outcome (dict pyobj)) (S : user_store)
        (E : collaborators) (req : request) (w w' : world) (answer : reply) :
  upload_resume verify S E req w = (answer, w') ->
  match answer with
  | HTTPException status_code _ =>
      w' = w /\ In status_code [400; 401; 403]%Z
  | Returned body =>
      exists o auth_header token decoded_token user_id user parsed_data,
        header_origin req = Some o /\ In o origins
        /\ header_authorization req = Some auth_header
        /\ nth_error (split_space auth_header) 1 = Some token
        /\ verify token = Ret decoded_token
        /\ dict_get "userId" decoded_token = Some user_id
        /\ find_user_by_id S user_id = Ret (Some user)
        /\ parse_resume E (file_filename req) (file_content req) w
           = (Ret parsed_data, w')
        /\ body = PyDict [("resumeData", parsed_data);
                          ("userId", match dict_get "_id" user with
                                     | Some v => v
                                     | None => PyNone
                                     end)]
  | Unhandled e =>
      parse_resume E (file_filename req) (file_content req) w = (Raise e, w')
  end.
Proof.
  unfold upload_resume.
  destruct (header_origin req) as [o|] eqn:Ho;
    [|intros H; injection H as <- <-; simpl; tauto].
  destruct (String.eqb o "" || negb (existsb (String.eqb o) origins)) eqn:Hin;
    [intros H; injection H as <- <-; simpl; tauto|].
  apply orb_false_iff in Hin. destruct Hin as [_ Hin].
  apply negb_false_iff, In_of_existsb in Hin.
  destruct (header_authorization req) as [auth|] eqn:Hauth;
    [|intros H; injection H as <- <-; simpl; tauto].
  destruct (String.eqb auth "");
    [intros H; injection H as <- <-; simpl; tauto|].
  destruct (nth_error (split_space auth) 1) as [token|] eqn:Htok;
    [|intros H; injection H as <- <-; simpl; tauto].
  destruct (String.eqb token "");
    [intros H; injection H as <- <-; simpl; tauto|].
  destruct (verify token) as [claims|err] eqn:Hver;
    [|intros H; injection H as <- <-; simpl; tauto].
  destruct (truthy (match dict_get "userId" claims with
                    | Some v => v
                    | None => PyNone
                    end)) eqn:Htruthy; cbn [negb];
    [|intros H; injection H as <- <-; simpl; tauto].
  destruct (truthy_userId claims Htruthy) as [user_id [Hid _]].
  rewrite Hid.
  destruct (find_user_by_id_total S user_id) as [found Hfound].
  rewrite Hfound.
  destruct found as [user|];
    [|intros H; injection H as <- <-; simpl; tauto].
  destruct user as [|field user];
    [intros H; injection H as <- <-; simpl; tauto|].
  destruct (parse_resume E (file_filename req) (file_content req) w)
    as [[parsed|e] w2]; intros H; injection H as <- <-.
  - exists o, auth, token, claims, user_id, (field :: user), parsed.
    repeat split; assumption || reflexivity.
  - reflexivity.
Qed.

Lemma upload_resume_checks_witness :
  upload_resume accept_token unreachable_store (studio service_down)
                upload (fresh None)
  = (HTTPException 401
       (PyDict [("error", PyStr "User does not exist");
                ("status", PyNum "401")]), fresh None)
  /\ fresh None = fresh None /\ In 401%Z [400; 401; 403]%Z.
Proof.
  assert (H : upload_resume accept_token unreachable_store
                (studio service_down) upload (fresh None)
              = (HTTPException 401
                   (PyDict [("error", PyStr "User does not exist");
                            ("status", PyNum "401")]), fresh None))
    by reflexivity.
  split; [exact H|].
  exact (upload_resume_checks accept_token unreachable_store
           (studio service_down) upload (fresh None) (fresh None) _ H).
Defined.

Lemma split_space_from_no_space (s current : string) :
  no_space s = true ->
  split_space_from current s = [(current ++ s)%string].
Proof.
  revert current. induction s as [|a s IH]; intros current Hs.
  - simpl. now rewrite append_nil_r.
  - unfold no_space in Hs. simpl in Hs.
    apply andb_true_iff in Hs. destruct Hs as [Ha Hs].
    apply negb_true_iff in Ha. simpl. rewrite Ha.
    rewrite IH by exact Hs. now rewrite append_assoc.
Qed.

Lemma split_space_from_scheme (scheme rest current : string) :
  no_space scheme = true ->
  split_space_from current (scheme ++ " " ++ rest)
  = (current ++ scheme)%string :: split_space rest.
Proof.
  revert current. induction scheme as [|a s IH]; intros current Hs.
  - simpl. now rewrite append_nil_r.
  - unfold no_space in Hs. simpl in Hs.
    apply andb_true_iff in Hs. destruct Hs as [Ha Hs].
    apply negb_true_iff in Ha. simpl. rewrite Ha.
    rewrite IH by exact Hs. now rewrite append_assoc.
Qed.

(** X17. An [Authorization] header without a space has no second field: for
    an allowed origin the handler raises the [HTTPException] of status 400
    with the error "Bearer token is missing", and neither the token check nor
    the pipeline runs. *)
Theorem upload_resume_header_without_space
        (verify : string -> outcome (dict pyobj)) (S : user_store)
        (E : collaborators) (req : request) (w : world)
        (o auth_header : string) :
  header_origin req = Some o -> In o origins ->
  header_authorization req = Some auth_header ->
  auth_header <> EmptyString ->
  no_space auth_header = true ->
  upload_resume verify S E req w
  = (HTTPException 400
       (PyDict [("error", PyStr "Bearer token is missing");
                ("status", PyNum "400")]), w).
Proof.
  intros Ho Hin Hauth Hne Hns. unfold upload_resume.
  rewrite Ho, (origins_nonempty o Hin), (origins_member o Hin), Hauth.
  cbn [orb negb]. apply String.eqb_neq in Hne. rewrite Hne.
  unfold split_space. rewrite (split_space_from_no_space _ _ Hns).
  reflexivity.
Qed.

Lemma upload_resume_header_without_space_witness :
  upload_resume accept_token unreachable_store (studio service_down)
    (Request (Some "http://localhost:5173") (Some "Bearer") "cv.docx"
             resume_bytes) (fresh None)
  = (HTTPException 400
       (PyDict [("error", PyStr "Bearer token is missing");
                ("status", PyNum "400")]), fresh None).
Proof.
  apply (upload_resume_header_without_space accept_token unreachable_store
           (studio service_down) _ (fresh None) "http://localhost:5173"
           "Bearer");
    try reflexivity.
  - simpl. tauto.
  - discriminate.
Defined.

(** X18. The handler never looks at the first word of the [Authorization]
    header: two requests that differ only in that word, a word without
    spaces followed by one space, get the same answer, so any scheme name
    passes for [Bearer]. *)
Theorem upload_resume_ignores_scheme
        (verify : string -> outcome (dict pyobj)) (S : user_store)
        (E : collaborators) (origin : option string) (filename : string)
        (content : bytes) (scheme scheme' rest : string) (w : world) :
  no_space scheme = true -> no_space scheme' = true ->
  upload_resume verify S E
    (Request origin (Some (scheme ++ " " ++ rest)%string) filename content) w
  = upload_resume verify S E
      (Request origin (Some (scheme' ++ " " ++ rest)%string) filename content)
      w.
Proof.
  intros Hs Hs'. unfold upload_resume.
  cbn [header_origin header_authorization file_filename file_content].
  assert (Hne : forall s, String.eqb (s ++ " " ++ rest) "" = false).
  { intros s. destruct s; reflexivity. }
  unfold split_space.
  rewrite !Hne, (split_space_from_scheme scheme rest "" Hs),
    (split_space_from_scheme scheme' rest "" Hs').
  reflexivity.
Qed.

Lemma upload_resume_ignores_scheme_witness :
  no_space "Basic" = true /\ no_space "Bearer" = true
  /\ upload_resume accept_token one_user_store (studio (answers "{}"))
       (Request (Some "http://localhost:5173") (Some "Basic abc.def.ghi")
                "cv.docx" resume_bytes) (fresh None)
     = upload_resume accept_token one_user_store (studio (answers "{}"))
         (Request (Some "http://localhost:5173") (Some "Bearer abc.def.ghi")
                  "cv.docx" resume_bytes) (fresh None).
Proof.
  split; [reflexivity|]. split; [reflexivity|].
  exact (upload_resume_ignores_scheme accept_token one_user_store
           (studio (answers "{}")) (Some "http://localhost:5173") "cv.docx"
           resume_bytes "Basic" "Bearer" "abc.def.ghi" (fresh None)
           eq_refl eq_refl).
Defined.

(** ** The token check *)

(** X19. [verify_token] returns only claims that [jwt.decode] returned under
    a non-empty secret. Whatever goes wrong is raised again as a plain
    [Exception]: "Token has expired" for an expired signature, "Invalid
    token: ..." for the other invalid-token errors, "Token verification
    failed: ..." for the rest; without a secret, or with an empty one, it
    raises the last with "JWT_SECRET_KEY environment variable is required"
    and does not decode. *)
Theorem verify_token_outcomes (J : jwt_env) (token : string) :
  (forall claims,
     verify_token J token = Ret claims ->
     exists secret_key,
       JWT_SECRET_KEY J = Some secret_key /\ secret_key <> EmptyString
       /\ jwt_decode J token secret_key
            (match JWT_ALGORITHM J with Some a => a | None => "HS256" end)
          = Ret claims)
  /\ (forall e,
        verify_token J token = Raise e ->
        exn_class e = "Exception"
        /\ (exn_str e = "Token has expired"
            \/ exists m,
                 exn_str e = ("Invalid token: " ++ m)%string
                 \/ exn_str e = ("Token verification failed: " ++ m)%string))
  /\ (JWT_SECRET_KEY J = None \/ JWT_SECRET_KEY J = Some EmptyString ->
      verify_token J token
      = Raise (Exn "Exception"
                   ("Token verification failed: "
                    ++ "JWT_SECRET_KEY environment variable is required")))
  /\ (forall secret_key msg,
        JWT_SECRET_KEY J = Some secret_key -> secret_key <> EmptyString ->
        jwt_decode J token secret_key
          (match JWT_ALGORITHM J with Some a => a | None => "HS256" end)
        = Raise (Exn "ExpiredSignatureError" msg) ->
        verify_token J token = Raise (Exn "Exception" "Token has expired")).
Proof.
  unfold verify_token, decode_with_secret.
  split; [|split; [|split]].
  - intros claims.
    destruct (JWT_SECRET_KEY J) as [secret|]; [|discriminate].
    destruct (String.eqb secret "") eqn:Hs; [discriminate|].
    apply String.eqb_neq in Hs.
    destruct (jwt_decode J token secret _) as [d|e] eqn:Hd.
    + intros H. injection H as <-. eauto.
    + destruct (String.eqb (exn_class e) "ExpiredSignatureError");
        [discriminate|].
      destruct (existsb _ _); discriminate.
  - intros e.
    assert (Hshape : forall e0 : exn,
      (if String.eqb (exn_class e0) "ExpiredSignatureError"
       then Raise (Exn "Exception" "Token has expired")
       else if existsb (String.eqb (exn_class e0)) invalid_token_errors
            then Raise (Exn "Exception" ("Invalid token: " ++ exn_str e0))
            else Raise (Exn "Exception"
                            ("Token verification failed: " ++ exn_str e0)))
      = @Raise (dict pyobj) e ->
      exn_class e = "Exception"
      /\ (exn_str e = "Token has expired"
          \/ exists m,
               exn_str e = ("Invalid token: " ++ m)%string
               \/ exn_str e = ("Token verification failed: " ++ m)%string)).
    { intros e0.
      destruct (String.eqb (exn_class e0) "ExpiredSignatureError").
      - intros H. injection H as <-. split; [reflexivity | now left].
      - destruct (existsb _ _); intros H; injection H as <-;
          (split; [reflexivity | right; exists (exn_str e0); tauto]). }
    destruct (JWT_SECRET_KEY J) as [secret|]; [|apply Hshape].
    destruct (String.eqb secret ""); [apply Hshape|].
    destruct (jwt_decode J token secret _) as [d|e0];
      [discriminate | apply Hshape].
  - intros [->| ->]; reflexivity.
  - intros secret msg -> Hne Hdec. apply String.eqb_neq in Hne.
    rewrite Hne, Hdec. reflexivity.
Qed.

Lemma verify_token_no_secret (J : jwt_env) (token : string) :
  JWT_SECRET_KEY J = None \/ JWT_SECRET_KEY J = Some EmptyString ->
  verify_token J token
  = Raise (Exn "Exception"
               ("Token verification failed: "
                ++ "JWT_SECRET_KEY environment variable is required")).
Proof.
  unfold verify_token, decode_with_secret. intros [->| ->]; reflexivity.
Qed.

(** X20. In a deployment without [JWT_SECRET_KEY], every request that
    carries an allowed origin and a token is answered by the [HTTPException]
    of status 401 "Invalid or expired token", whatever the token; the user
    store and the pipeline are never reached. *)
Theorem upload_resume_without_secret (J : jwt_env) (S : user_store)
        (E : collaborators) (req : request) (w : world)
        (o auth_header token : string) :
  JWT_SECRET_KEY J = None \/ JWT_SECRET_KEY J = Some EmptyString ->
  header_origin req = Some o -> In o origins ->
  header_authorization req = Some auth_header ->
  nth_error (split_space auth_header) 1 = Some token ->
  token <> EmptyString ->
  upload_resume_jwt J S E req w
  = (HTTPException 401
       (PyDict [("error", PyStr "Invalid or expired token");
                ("status", PyNum "401");
                ("details",
                 PyStr ("Token verification failed: "
                        ++ "JWT_SECRET_KEY environment variable is required"))]),
     w).
Proof.
  intros Hsecret Ho Hin Hauth Htok Hne.
  unfold upload_resume_jwt, upload_resume.
  rewrite Ho, (origins_nonempty o Hin), (origins_member o Hin), Hauth.
  cbn [orb negb].
  assert (Hauth_ne : String.eqb auth_header "" = false).
  { destruct auth_header; [discriminate Htok | reflexivity]. }
  apply String.eqb_neq in Hne.
  rewrite Hauth_ne, Htok, Hne.
  rewrite (verify_token_no_secret J token Hsecret). reflexivity.
Qed.

Lemma upload_resume_without_secret_witness :
  JWT_SECRET_KEY no_secret = None
  /\ upload_resume_jwt no_secret one_user_store (studio (answers "{}"))
                       upload (fresh None)
     = (HTTPException 401
          (PyDict [("error", PyStr "Invalid or expired token");
                   ("status", PyNum "401");
                   ("details",
                    PyStr ("Token verification failed: "
                           ++ "JWT_SECRET_KEY environment variable is required"))]),
        fresh None).
Proof.
  split; [reflexivity|].
  apply (upload_resume_without_secret no_secret one_user_store
           (studio (answers "{}")) upload (fresh None)
           "http://localhost:5173" "Bearer abc.def.ghi" "abc.def.ghi");
    try reflexivity.
  - now left.
  - simpl. tauto.
  - discriminate.
Defined.

(** ** A user that is found *)

(** X21. When the database answers, the identifier converts and the query
    finds a document, [find_user_by_id] returns the document with its [_id]
    as text in first place. For a request that passed the earlier checks,
    the handler then runs [parse_resume] on the uploaded file: its result is
    returned with that [_id] as [userId], and an exception it raises escapes
    the handler. *)
Theorem upload_resume_for_found_user
        (verify : string -> outcome (dict pyobj)) (S : user_store)
        (E : collaborators) (req : request) (w : world) (user_id : pyobj)
        (db oid : string) (collections : list string) (doc : document) :
  reaches_lookup verify req user_id ->
  get_database S = Ret db ->
  list_collection_names S db = Ret collections ->
  ObjectId S user_id = Ret oid ->
  find_one S db oid = Ret (Some doc) ->
  find_user_by_id S user_id
  = Ret (Some (("_id", PyStr (doc_id doc)) :: doc_fields doc))
  /\ upload_resume verify S E req w
     = match parse_resume E (file_filename req) (file_content req) w with
       | (Ret parsed_data, w') =>
           (Returned (PyDict [("resumeData", parsed_data);
                              ("userId", PyStr (doc_id doc))]), w')
       | (Raise e, w') => (Unhandled e, w')
       end.
Proof.
  intros Hreach Hdb Hcols Hoid Hfind.
  assert (Hfound : find_user_by_id S user_id
                   = Ret (Some (("_id", PyStr (doc_id doc)) :: doc_fields doc))).
  { unfold find_user_by_id, except_Exception, obind, except_class.
    now rewrite Hdb, Hcols, Hoid, Hfind. }
  split; [exact Hfound|].
  destruct Hreach
    as (o & auth & token & claims & Ho & Hin & Hauth & Htok & Hne & Hver
        & Hid & Htruthy).
  unfold upload_resume.
  rewrite Ho, (origins_nonempty o Hin), (origins_member o Hin), Hauth.
  cbn [orb negb].
  assert (Hauth_ne : String.eqb auth "" = false).
  { destruct auth; [discriminate Htok | reflexivity]. }
  apply String.eqb_neq in Hne.
  rewrite Hauth_ne, Htok, Hne, Hver, Hid, Htruthy, Hfound. cbn [negb].
  destruct (parse_resume E (file_filename req) (file_content req) w)
    as [[parsed|e] w']; reflexivity.
Qed.

Lemma upload_resume_for_found_user_witness :
  reaches_lookup accept_token upload (PyStr "507f1f77bcf86cd799439011")
  /\ upload_resume accept_token one_user_store (studio (answers "{}"))
                   upload (fresh None)
     = (Returned (PyDict [("resumeData", PyDict []);
                          ("userId", PyStr "507f1f77bcf86cd799439011")]),
        after_docx_parse).
Proof.
  assert (Hreach : reaches_lookup accept_token upload
                     (PyStr "507f1f77bcf86cd799439011")).
  { exists "http://localhost:5173", "Bearer abc.def.ghi", "abc.def.ghi",
      [("userId", PyStr "507f1f77bcf86cd799439011")].
    repeat split; try reflexivity.
    - simpl. tauto.
    - discriminate. }
  split; [exact Hreach|].
  destruct (upload_resume_for_found_user accept_token one_user_store
              (studio (answers "{}")) upload (fresh None)
              (PyStr "507f1f77bcf86cd799439011") "jobstack"
              "507f1f77bcf86cd799439011" ["usersv2"]
              (Document "507f1f77bcf86cd799439011"
                        [("email", PyStr "jane@example.org")])
              Hreach eq_refl eq_refl eq_refl eq_refl) as [_ H].
  rewrite H.
  assert (Hrun : parse_resume (studio (answers "{}")) (file_filename upload)
                   (file_content upload) (fresh None)
                 = (Ret (PyDict []), after_docx_parse))
    by (vm_compute; reflexivity).
  rewrite Hrun. reflexivity.
Defined.

(** ** The database connection *)

(** X22. A failure of [initialize] before the client exists (no
    [MONGODB_URL], or the client's construction raising) leaves the
    connection as it was, so the next [get_database] tries again. A failed
    ping comes after the client was assigned: [get_database] raises once,
    and from then on returns [None] without connecting or raising, whatever
    the server does, until [close] resets the connection. *)
Theorem connection_after_failed_ping (M : mongo_env) :
  ((MONGODB_URL M = None \/ MONGODB_URL M = Some EmptyString) ->
   connection_get_database M disconnected
   = (Raise (Exn "ValueError" "MONGODB_URL environment variable is required"),
      disconnected))
  /\ (forall url e,
        MONGODB_URL M = Some url -> url <> EmptyString ->
        motor_client M url = Raise e ->
        connection_get_database M disconnected = (Raise e, disconnected))
  /\ (forall url client e,
        MONGODB_URL M = Some url -> url <> EmptyString ->
        motor_client M url = Ret client ->
        ping M client = Raise e ->
        connection_get_database M disconnected
        = (Raise e, Connection (Some client) None)
        /\ (forall M',
              connection_get_database M' (Connection (Some client) None)
              = (Ret None, Connection (Some client) None))
        /\ close (Connection (Some client) None) = disconnected).
Proof.
  unfold connection_get_database, initialize, disconnected.
  cbn [_client _database].
  split; [|split].
  - intros [->| ->]; reflexivity.
  - intros url e -> Hne Hc. apply String.eqb_neq in Hne.
    now rewrite Hne, Hc.
  - intros url client e -> Hne Hc Hp. apply String.eqb_neq in Hne.
    rewrite Hne, Hc, Hp. repeat split; reflexivity.
Qed.

Lemma connection_after_failed_ping_witness :
  connection_get_database ping_fails disconnected
  = (Raise (Exn "ServerSelectionTimeoutError" "No servers found yet"),
     Connection (Some "mongodb://db:27017") None)
  /\ connection_get_database ping_answers
       (Connection (Some "mongodb://db:27017") None)
     = (Ret None, Connection (Some "mongodb://db:27017") None).
Proof.
  destruct (connection_after_failed_ping ping_fails) as [_ [_ H]].
  destruct (H "mongodb://db:27017" "mongodb://db:27017"
              (Exn "ServerSelectionTimeoutError" "No servers found yet")
              eq_refl ltac:(discriminate) eq_refl eq_refl) as [H1 [H2 _]].
  split; [exact H1 | exact (H2 ping_answers)].
Defined.

(** X23. Let the URL be set, the client be built and the ping answer, and
    let the name be [DATABASE_NAME], or "your_database_name" without it.
    When the driver accepts the name, [get_database] on a disconnected
    connection returns the database of that name; every later call returns
    the same database without connecting again; and after [close] the next
    call connects anew. When the driver rejects the name, [get_database]
    raises its exception with the client already assigned, and every later
    call returns [None] without connecting or raising. *)
Theorem connection_connects_once (M : mongo_env) (url client : string) :
  MONGODB_URL M = Some url -> url <> EmptyString ->
  motor_client M url = Ret client ->
  ping M client = Ret tt ->
  let db_name := match DATABASE_NAME M with
                 | Some n => n
                 | None => "your_database_name"
                 end in
  let connected := Connection (Some client) (Some (client, db_name)) in
  (check_name M db_name = Ret tt ->
   connection_get_database M disconnected
   = (Ret (Some (client, db_name)), connected)
   /\ (forall M', connection_get_database M' connected
                  = (Ret (Some (client, db_name)), connected))
   /\ connection_get_database M (close connected)
      = (Ret (Some (client, db_name)), connected))
  /\ (forall e,
        check_name M db_name = Raise e ->
        connection_get_database M disconnected
        = (Raise e, Connection (Some client) None)
        /\ (forall M',
              connection_get_database M' (Connection (Some client) None)
              = (Ret None, Connection (Some client) None))).
Proof.
  intros Hurl Hne Hc Hp. apply String.eqb_neq in Hne.
  unfold connection_get_database, initialize, close, disconnected.
  cbn [_client _database].
  rewrite Hurl, Hne, Hc, Hp. split.
  - intros Hname. rewrite Hname. repeat split; reflexivity.
  - intros e Hname. rewrite Hname. split; reflexivity.
Qed.

(** X23 at work: a server that answers, with a database name the driver
    accepts and with an empty one. *)
Lemma connection_connects_once_witness :
  connection_get_database ping_answers disconnected
  = (Ret (Some ("mongodb://db:27017", "jobstack")),
     Connection (Some "mongodb://db:27017")
                (Some ("mongodb://db:27017", "jobstack")))
  /\ connection_get_database ping_fails
       (Connection (Some "mongodb://db:27017")
                   (Some ("mongodb://db:27017", "jobstack")))
     = (Ret (Some ("mongodb://db:27017", "jobstack")),
        Connection (Some "mongodb://db:27017")
                   (Some ("mongodb://db:27017", "jobstack")))
  /\ connection_get_database empty_name disconnected
     = (Raise (Exn "InvalidName" "database name cannot be the empty string"),
        Connection (Some "mongodb://db:27017") None)
  /\ connection_get_database empty_name
       (Connection (Some "mongodb://db:27017") None)
     = (Ret None, Connection (Some "mongodb://db:27017") None).
Proof.
  pose proof (connection_connects_once ping_answers "mongodb://db:27017"
                "mongodb://db:27017" eq_refl ltac:(discriminate) eq_refl
                eq_refl) as H.
  cbv zeta in H. destruct H as [H _].
  destruct (H eq_refl) as [H1 [H2 _]].
  pose proof (connection_connects_once empty_name "mongodb://db:27017"
                "mongodb://db:27017" eq_refl ltac:(discriminate) eq_refl
                eq_refl) as H'.
  cbv zeta in H'. destruct H' as [_ H'].
  destruct (H' _ eq_refl) as [H3 H4].
  split; [exact H1|]. split; [exact (H2 ping_fails)|].
  split; [exact H3 | exact (H4 empty_name)].
Defined.

(** ** One text, several files *)

Lemma text_key_not_transform_key content raw :
  text_extract_key content <> openai_transform_key raw.
Proof.
  unfold text_extract_key, openai_transform_key. simpl. discriminate.
Qed.

(** X24. A DOCX file that was never parsed, but whose text has a usable
    [openai_transform] entry, is parsed without a call of the generation
    service (the mapping being below its capacity): [parse_resume] reads the
    document, stores its text, takes the structured result from the entry
    of the text and stores it under the file's [full_parse] key. *)
Theorem parse_resume_shares_transform (E : collaborators)
        (filename : string) (content : bytes) (paragraphs : list string)
        (w : world) :
  length (_cache w) < _max_cache_size ->
  misses (full_parse_key content) w ->
  misses (text_extract_key content) w ->
  extension filename = ".docx" ->
  docx_paragraphs E content = Ret paragraphs ->
  is_not_None (cache_read (openai_transform_key (join nl paragraphs)) w)
  = true ->
  result (parse_resume E filename content) w
  = Ret (cache_read (openai_transform_key (join nl paragraphs)) w)
  /\ events_of (parse_resume E filename content) w
     = [CacheGet (full_parse_key content);
        CacheGet (text_extract_key content);
        DocxOpen content;
        CacheSet (text_extract_key content);
        CacheGet (openai_transform_key (join nl paragraphs));
        CacheSet (full_parse_key content)].
Proof.
  intros Hlen Hfull Htext Hext Hdocx Hhit.
  set (raw := join nl paragraphs) in *.
  set (w2 := exec (_set_cache (text_extract_key content) (PyStr raw))
                  (after w [CacheGet (full_parse_key content);
                            CacheGet (text_extract_key content);
                            DocxOpen content])).
  assert (Hx : extract_text_from_resume E filename content
                 (after w [CacheGet (full_parse_key content)])
               = (Ret (PyStr raw), w2)).
  { rewrite (extract_miss_docx E filename content
                 (after w [CacheGet (full_parse_key content)]) Hext Htext).
    unfold cached_under, extract_text_from_docx, external, bind, observe,
      lift, ret.
    rewrite Hdocx, set_cache_eq. subst w2. unfold exec.
    rewrite set_cache_eq. cbn [snd after redis_client _cache trace].
    fold raw. now rewrite <- !(app_assoc (trace w)). }
  assert (Hread : cache_read (openai_transform_key raw) w2
                  = cache_read (openai_transform_key raw) w).
  { subst w2. rewrite cache_read_set_other;
      [reflexivity | exact Hlen | apply text_key_not_transform_key]. }
  assert (Hrun :
    parse_resume E filename content w
    = (Ret (cache_read (openai_transform_key raw) w),
       exec (_set_cache (full_parse_key content)
                        (cache_read (openai_transform_key raw) w))
            (after w2 [CacheGet (openai_transform_key raw)]))).
  { rewrite (parse_resume_miss E filename content w Hfull).
    unfold bind. rewrite Hx.
    rewrite (transform_hit E raw w2) by (now rewrite Hread).
    rewrite Hread, set_cache_eq. unfold exec. now rewrite set_cache_eq. }
  split.
  - unfold result. now rewrite Hrun.
  - apply events_of_app. unfold exec at 1. rewrite Hrun. cbn [snd].
    unfold exec. rewrite set_cache_eq. cbn [snd trace after].
    subst w2. unfold exec. rewrite set_cache_eq. cbn [snd trace after].
    now rewrite <- !(app_assoc (trace w)).
Qed.

(** X24 at work: [cv.docx] was parsed; other bytes that read as the same
    paragraphs are parsed with the service down. *)
Lemma parse_resume_shares_transform_witness :
  misses (full_parse_key scanned_pdf) after_docx_parse
  /\ is_not_None
       (cache_read (openai_transform_key (join nl ["Jane Doe"; "Engineer"]))
                   after_docx_parse) = true
  /\ result (parse_resume (studio service_down) "copy.docx" scanned_pdf)
            after_docx_parse = Ret (PyDict [])
  /\ events_of (parse_resume (studio service_down) "copy.docx" scanned_pdf)
               after_docx_parse
     = [CacheGet (full_parse_key scanned_pdf);
        CacheGet (text_extract_key scanned_pdf);
        DocxOpen scanned_pdf;
        CacheSet (text_extract_key scanned_pdf);
        CacheGet (openai_transform_key (join nl ["Jane Doe"; "Engineer"]));
        CacheSet (full_parse_key scanned_pdf)].
Proof.
  assert (Hlen : length (_cache after_docx_parse) < _max_cache_size).
  { apply Nat.ltb_lt. vm_compute. reflexivity. }
  assert (Hfull : misses (full_parse_key scanned_pdf) after_docx_parse)
    by (vm_compute; reflexivity).
  assert (Htext : misses (text_extract_key scanned_pdf) after_docx_parse)
    by (vm_compute; reflexivity).
  assert (Hhit : is_not_None
                   (cache_read (openai_transform_key
                                  (join nl ["Jane Doe"; "Engineer"]))
                               after_docx_parse) = true)
    by (vm_compute; reflexivity).
  destruct (parse_resume_shares_transform (studio service_down) "copy.docx"
              scanned_pdf ["Jane Doe"; "Engineer"] after_docx_parse
              Hlen Hfull Htext eq_refl eq_refl Hhit) as [H1 H2].
  split; [exact Hfull|]. split; [exact Hhit|].
  split; [|exact H2].
  rewrite H1. vm_compute. reflexivity.
Defined.
